(** * Lumis CLI: the tool-calling agent loop, embedded and verified

    A shallow embedding of the core of [lumis.py]: context trimming, the
    [edit_file], [patch_file] and [read_file] handlers, the permission gate and
    [execute_tool], the tool extractor, the Poe credential fail-over and one
    iteration of the agent loop.

    Conventions of the embedding.
    - Python values that come out of [json.loads] are the type [pyval]; a
      [dict] is an association list in insertion order with unique keys.
      Numbers are integers: floats are left out.
    - A Python [str] is a Rocq [string]; its characters are read as the code
      points 0 to 255. A text with a character beyond these is outside the
      embedding, and nothing is proved of it.
    - A Python exception is a value of [exn]; code that can raise returns a
      [res], and code that also touches the file system, the user or the
      network is a function from a [World] to a [res] and a [World]. *)

From Stdlib Require Import String Ascii List ZArith Lia Bool Arith.
From Stdlib Require Import DecimalString DecimalPos DecimalZ.
From Stdlib Require Import Sorting.Sorted Sorting.Permutation.
Import ListNotations.

Set Warnings "-register-all".

Local Open Scope string_scope.
Local Open Scope list_scope.

(* ================================================================== *)
(** * Python values *)
(* ================================================================== *)

Inductive pyval : Type :=
| PNone
| PBool (b : bool)
| PInt (z : Z)
| PStr (s : string)
| PList (l : list pyval)
| PDict (d : list (string * pyval)).

(** A [dict] as the code handles it. *)
Definition pydict := list (string * pyval).

(** [bool(v)]: the truth value Python gives to [v] in [if v] and [not v]. *)
Definition truthy (v : pyval) : bool :=
  match v with
  | PNone => false
  | PBool b => b
  | PInt z => negb (z =? 0)%Z
  | PStr s => negb (s =? "")
  | PList l => match l with [] => false | _ => true end
  | PDict d => match d with [] => false | _ => true end
  end.

(** [d.get(k)] as an option: the value bound to [k], if any. *)
Fixpoint lookup (d : pydict) (k : string) : option pyval :=
  match d with
  | [] => None
  | (k', v) :: d' => if k' =? k then Some v else lookup d' k
  end.

(** [d.get(k, default)]. *)
Definition dict_get (d : pydict) (k : string) (default : pyval) : pyval :=
  match lookup d k with
  | Some v => v
  | None => default
  end.

(** [v == s] for a string literal [s]: only the string [s] itself is equal. *)
Definition is_str (v : pyval) (s : string) : bool :=
  match v with
  | PStr t => t =? s
  | _ => false
  end.

(** [len(l)] as an integer. *)
Definition len {A} (l : list A) : Z := Z.of_nat (length l).

(** [l[i:]] for any integer [i]: a negative [i] counts from the end and is
    clamped at the start of the list. *)
Definition slice_from {A} (i : Z) (l : list A) : list A :=
  if (i <? 0)%Z
  then skipn (Z.to_nat (Z.max 0 (len l + i))) l
  else skipn (Z.to_nat i) l.

(* ================================================================== *)
(** * Context trimming *)
(* ================================================================== *)

Definition MAX_CONTEXT_MESSAGES : Z := 40.
Definition MAX_FILE_SIZE : Z := 500000.
Definition MAX_TOOL_LOOPS : nat := 15.

(** A message is the dict [{"role": ..., "content": ...}]. *)
Definition message := pydict.

(** [m.get("role") == "system"]. *)
Definition is_system (m : message) : bool :=
  is_str (dict_get m "role" PNone) "system".

Definition non_system (m : message) : bool := negb (is_system m).

(** [trim_context(messages, max_msgs)]. *)
Definition trim_context (messages : list message) (max_msgs : Z) : list message :=
  if (len messages <=? max_msgs)%Z then messages
  else
    let system := filter is_system messages in
    let others := filter non_system messages in
    let keep := Z.max (max_msgs - len system) 2 in
    system ++ slice_from (- keep) others.

(** The most recent [k] elements of a list, as the specification words it. *)
Definition most_recent {A} (k : nat) (l : list A) : list A :=
  rev (firstn k (rev l)).

(* ================================================================== *)
(** * Exceptions and results *)
(* ================================================================== *)

(** The exception classes the code raises or catches by name. [OSError] stands
    for the subclasses of [OSError] other than [PermissionError]. *)
Inductive exn_class : Type :=
| TypeError | AttributeError | ValueError | KeyError | IndexError
| PermissionError | OSError | JSONDecodeError
| Timeout | ConnectionError.

(** An exception: its class, the operation that raised it and the values the
    operation was applied to. The text [str(e)] is a function of these; it is
    left to the platform ([exn_str] below). *)
Inductive exn : Type := Exn (c : exn_class) (op : string) (args : list pyval).

Definition exn_cls (e : exn) : exn_class := let 'Exn c _ _ := e in c.

Definition exn_class_eqb (a b : exn_class) : bool :=
  match a, b with
  | TypeError, TypeError | AttributeError, AttributeError
  | ValueError, ValueError | KeyError, KeyError | IndexError, IndexError
  | PermissionError, PermissionError | OSError, OSError
  | JSONDecodeError, JSONDecodeError | Timeout, Timeout
  | ConnectionError, ConnectionError => true
  | _, _ => false
  end.

(** The outcome of code that may raise. *)
Inductive res (A : Type) : Type :=
| Ok (a : A)
| Raise (e : exn).
Arguments Ok {A} a.
Arguments Raise {A} e.

Definition bind {A B} (r : res A) (k : A -> res B) : res B :=
  match r with
  | Ok a => k a
  | Raise e => Raise e
  end.

Declare Scope res_scope.
Delimit Scope res_scope with res.
Notation "x <- r ;; k" := (bind r (fun x => k))
  (at level 61, r at next level, right associativity) : res_scope.

(** [for x in v]: the elements a [for] loop visits, or the [TypeError] of a
    value that is not iterable. A string yields its characters, a dict its
    keys. *)
Definition py_iter (v : pyval) : res (list pyval) :=
  match v with
  | PList l => Ok l
  | PStr s => Ok (map (fun c => PStr (String c "")) (list_ascii_of_string s))
  | PDict d => Ok (map (fun kv => PStr (fst kv)) d)
  | _ => Raise (Exn TypeError "iter" [v])
  end.

(** [x.get(k, default)] on any value: an [AttributeError] unless [x] is a dict. *)
Definition py_get (x : pyval) (k : string) (default : pyval) : res pyval :=
  match x with
  | PDict d => Ok (dict_get d k default)
  | _ => Raise (Exn AttributeError "get" [x])
  end.

(* ================================================================== *)
(** * Strings *)
(* ================================================================== *)

(** [s[n:]]. *)
Fixpoint drop (n : nat) (s : string) : string :=
  match n, s with
  | O, _ => s
  | S n', String _ s' => drop n' s'
  | S _, EmptyString => EmptyString
  end.

(** [s[:n]]. *)
Fixpoint take (n : nat) (s : string) : string :=
  match n, s with
  | O, _ => EmptyString
  | S n', String c s' => String c (take n' s')
  | S _, EmptyString => EmptyString
  end.

(** [s.startswith(p)]. *)
Fixpoint startswith (p s : string) : bool :=
  match p, s with
  | EmptyString, _ => true
  | String a p', String b s' => (a =? b)%char && startswith p' s'
  | String _ _, EmptyString => false
  end.

(** [sub in s]. *)
Fixpoint contains (sub s : string) : bool :=
  if startswith sub s then true
  else match s with
       | EmptyString => false
       | String _ s' => contains sub s'
       end.

(** [s.replace(old, new, 1)]: the leftmost occurrence of [old] becomes [new]. *)
Fixpoint replace_first (old new s : string) : string :=
  if startswith old s then new ++ drop (String.length old) s
  else match s with
       | EmptyString => EmptyString
       | String c s' => String c (replace_first old new s')
       end.

Definition newline : ascii := "010"%char.

(** [s.endswith("\n")]. *)
Fixpoint ends_with_newline (s : string) : bool :=
  match s with
  | EmptyString => false
  | String c EmptyString => (c =? newline)%char
  | String _ s' => ends_with_newline s'
  end.

(** [str(z)] for an integer. *)
Definition str_of_Z (z : Z) : string :=
  DecimalString.NilZero.string_of_int (Z.to_int z).

(* ================================================================== *)
(** * The world: files, the user and the network *)
(* ================================================================== *)

(** A regular file: the size [stat] reports, its characters as stored, and
    whether the process may read and write it. *)
Record file : Type := mkfile {
  st_size : Z;
  data : string;
  readable : bool;
  writable : bool
}.

Inductive node : Type :=
| Dir
| File (f : file).

(** The file system, by resolved absolute path. *)
Definition filesystem := string -> option node.

(** What the user picks in the permission menu; [Esc] is also what the menu
    returns at the end of the input. *)
Inductive answer : Type := Yes | Trust | No | Esc.

(** An HTTP response: its status code and what [r.json()] gives. *)
Record response : Type := mkresponse {
  status_code : Z;
  json : res pyval
}.

(** [r.ok]. *)
Definition r_ok (r : response) : bool := (status_code r <? 400)%Z.

(** What [requests.post] does: it returns a response or raises. *)
Inductive http_outcome : Type :=
| Responds (r : response)
| Fails (e : exn).

Record World : Type := mkworld {
  fs : filesystem;
  trust_session : bool;
  answers : list answer;       (* the user's answers to the coming prompts *)
  session_todo : pyval;
  keys : list string;          (* what load_keys() returns *)
  net : list http_outcome;     (* the outcomes of the coming requests *)
  sent : list string           (* the credential of each request made so far *)
}.

Definition set_fs (w : World) (f : filesystem) : World :=
  mkworld f (trust_session w) (answers w) (session_todo w) (keys w) (net w) (sent w).

Definition set_trust (w : World) (b : bool) : World :=
  mkworld (fs w) b (answers w) (session_todo w) (keys w) (net w) (sent w).

Definition set_answers (w : World) (a : list answer) : World :=
  mkworld (fs w) (trust_session w) a (session_todo w) (keys w) (net w) (sent w).

Definition set_net (w : World) (n : list http_outcome) (s : list string) : World :=
  mkworld (fs w) (trust_session w) (answers w) (session_todo w) (keys w) n s.

(** Code that may raise and may change the world. *)
Definition M (A : Type) : Type := World -> res A * World.

Definition ret {A} (a : A) : M A := fun w => (Ok a, w).
Definition lift {A} (r : res A) : M A := fun w => (r, w).

Definition mbind {A B} (m : M A) (k : A -> M B) : M B :=
  fun w => match m w with
           | (Ok a, w') => k a w'
           | (Raise e, w') => (Raise e, w')
           end.

Declare Scope M_scope.
Delimit Scope M_scope with M.
Notation "x <- m ;; k" := (mbind m (fun x => k))
  (at level 61, m at next level, right associativity) : M_scope.

(** [try: body  except cls: handler]. *)
Definition try_except {A} (body : M A) (cls : exn_class) (handler : M A) : M A :=
  fun w => match body w with
           | (Raise e, w') =>
               if exn_class_eqb (exn_cls e) cls then handler w' else (Raise e, w')
           | r => r
           end.

(** What lies outside the code under study: the [json] module, [repr], path
    resolution, and the handlers this development leaves out. *)
Class Platform : Type := {
  (** [json.loads(s)]; [None] stands for [json.JSONDecodeError], the one way
      in which it is taken to fail here. It also raises [RecursionError] and
      [ValueError], which no caller catches: these are left to the module
      [Raising], which reads the extractor and [load_settings] with them. *)
  json_loads : string -> option pyval;
  (** [json.dumps(v, sort_keys=True)], where it raises nothing; what it
      raises on a value nested too deep is left to [Raising] as well. *)
  json_dumps_sorted : pyval -> string;
  (** [repr(v)], which is [str(v)] for a list or a dict. *)
  repr : pyval -> string;
  (** [str(e)] for an exception. *)
  exn_str : exn -> string;
  (** [int(s)] for a string; [None] stands for [ValueError]. *)
  int_of_str : string -> option Z;
  (** [str(Path(path).expanduser().resolve())]. *)
  resolve : string -> string;
  (** The handlers of [write_file], [run_command], [list_dir], [search_file],
      [delete_file] and [todo] in [_execute_tool_inner]. *)
  other_tool : string -> pydict -> M pyval
}.

(** [str(v)], which is also how an f-string prints [v]. *)
Definition str_of `{Platform} (v : pyval) : string :=
  match v with
  | PStr s => s
  | PNone => "None"
  | PBool true => "True"
  | PBool false => "False"
  | PInt z => str_of_Z z
  | _ => repr v
  end.

Definition CR : ascii := "013"%char.

(** Text mode with universal newlines: "\r\n" and "\r" are read as "\n". *)
Fixpoint universal_newlines (s : string) : string :=
  match s with
  | EmptyString => EmptyString
  | String c s' =>
      if (c =? CR)%char then
        match s' with
        | String c2 s'' =>
            if (c2 =? newline)%char
            then String newline (universal_newlines s'')
            else String newline (universal_newlines s')
        | EmptyString => String newline EmptyString
        end
      else String c (universal_newlines s')
  end.

(** The size in bytes of a text written as UTF-8. *)
Fixpoint utf8_len (s : string) : Z :=
  match s with
  | EmptyString => 0
  | String c s' => (if (nat_of_ascii c <? 128)%nat then 1 else 2) + utf8_len s'
  end.

(** [Path(path)] then [expanduser().resolve()]: the path must be a string. *)
Definition to_path `{Platform} (path : pyval) : res string :=
  match path with
  | PStr s => Ok (resolve s)
  | _ => Raise (Exn TypeError "Path" [path])
  end.

Definition exists_ (w : World) (p : string) : bool :=
  match fs w p with Some _ => true | None => false end.

(** [p.read_text(errors='replace')]. *)
Definition read_text (p : string) : M string :=
  fun w => match fs w p with
           | Some (File f) =>
               if readable f then (Ok (universal_newlines (data f)), w)
               else (Raise (Exn PermissionError "open" [PStr p]), w)
           | Some Dir => (Raise (Exn OSError "open" [PStr p]), w)
           | None => (Raise (Exn OSError "open" [PStr p]), w)
           end.

Definition update (f : filesystem) (p : string) (n : node) : filesystem :=
  fun q => if q =? p then Some n else f q.

(** [p.write_text(content)] where [p]'s directory exists: a file that is
    there is overwritten, a file that is not is created. *)
Definition write_text (p : string) (content : string) : M unit :=
  fun w => match fs w p with
           | Some (File f) =>
               if writable f
               then (Ok tt, set_fs w (update (fs w) p
                       (File (mkfile (utf8_len content) content (readable f) true))))
               else (Raise (Exn PermissionError "open" [PStr p]), w)
           | Some Dir => (Raise (Exn OSError "open" [PStr p]), w)
           | None => (Ok tt, set_fs w (update (fs w) p
                       (File (mkfile (utf8_len content) content true true))))
           end.

(** The result dicts of the handlers. *)
Definition failure (msg : string) : pyval :=
  PDict [("ok", PBool false); ("error", PStr msg)].

Definition success (text : string) : pyval :=
  PDict [("ok", PBool true); ("result", PStr text)].

(** The value a result dict has under the key [k], if any. *)
Definition field (r : pyval) (k : string) : option pyval :=
  match r with
  | PDict d => lookup d k
  | _ => None
  end.

(* ================================================================== *)
(** * edit_file *)
(* ================================================================== *)

(** One turn of the loop over [edits]: the content and the change count after
    the edit [e]. *)
Definition edit_step `{Platform} (e : pyval) (content : string) (changes : Z)
  : res (string * Z) :=
  match e with
  | PDict d =>
      let find := dict_get d "find" (PStr "") in
      if truthy find then
        match find with
        | PStr f =>
            if contains f content
            then Ok (replace_first f (str_of (dict_get d "replace" (PStr ""))) content,
                     (changes + 1)%Z)
            else Ok (content, changes)
        | _ => Raise (Exn TypeError "in" [find; PStr content])
        end
      else Ok (content, changes)
  | _ => Ok (content, changes)
  end.

Fixpoint edit_loop `{Platform} (edits : list pyval) (content : string) (changes : Z)
  : res (string * Z) :=
  match edits with
  | [] => Ok (content, changes)
  | e :: rest =>
      match edit_step e content changes with
      | Ok (content', changes') => edit_loop rest content' changes'
      | Raise x => Raise x
      end
  end.

(** The [edit_file] branch of [_execute_tool_inner]. *)
Definition edit_file `{Platform} (call : pydict) : M pyval :=
  let path := dict_get call "path" (PStr "") in
  if negb (truthy path) then ret (failure "No path") else
  (p <- lift (to_path path) ;;
   fun w =>
   if negb (exists_ w p) then (Ok (failure ("Not found: " ++ p)), w) else
   let edits := dict_get call "edits" (PList []) in
   if negb (truthy edits) then (Ok (failure "No edits"), w) else
   (content <- try_except (r <- read_text p ;; ret (inl r))
                 PermissionError (ret (inr (failure ("Permission denied: " ++ p)))) ;;
    match content with
    | inr denied => ret denied
    | inl content =>
        es <- lift (py_iter edits) ;;
        r <- lift (edit_loop es content 0) ;;
        let '(content', changes) := r in
        if (changes =? 0)%Z then ret (failure "No matches found") else
        (wr <- try_except (u <- write_text p content' ;; ret (inl u))
                 PermissionError (ret (inr (failure ("Permission denied: " ++ p)))) ;;
         match wr with
         | inr denied => ret denied
         | inl _ => ret (success ("Edited: " ++ p ++ " (" ++ str_of_Z changes ++ " changes)"))
         end)
    end) w)%M.

(** The specification's reading of [edit_file], over edits that are pairs of
    strings. [sub] occurs in [s] with [pre] before it and [post] after it, and
    nowhere further to the left: *)
Definition first_occurrence (sub s pre post : string) : Prop :=
  s = (pre ++ sub ++ post)%string /\
  forall pre' post', s = (pre' ++ sub ++ post')%string ->
                     String.length pre <= String.length pre'.

(** [applies_edits pairs c c' n]: going through [pairs] in order, replacing in
    the current content the first occurrence of each find string that occurs
    in it, turns [c] into [c'], and [n] pairs had their find string occur. *)
Inductive applies_edits : list (string * string) -> string -> string -> nat -> Prop :=
| edits_done c :
    applies_edits [] c c 0
| edits_hit f r rest c pre post c' n :
    first_occurrence f c pre post ->
    applies_edits rest (pre ++ r ++ post)%string c' n ->
    applies_edits ((f, r) :: rest) c c' (S n)
| edits_miss f r rest c c' n :
    ~ (exists pre post, c = (pre ++ f ++ post)%string) ->
    applies_edits rest c c' n ->
    applies_edits ((f, r) :: rest) c c' n.

(** The element [e] of [edits] is the pair of a non-empty find string and a
    replace string. *)
Definition is_edit_pair (e : pyval) (fr : string * string) : Prop :=
  exists d, e = PDict d /\
            dict_get d "find" (PStr "") = PStr (fst fr) /\ fst fr <> "" /\
            dict_get d "replace" (PStr "") = PStr (snd fr).

(* ================================================================== *)
(** * patch_file *)
(* ================================================================== *)

(** The characters at which [str.splitlines] ends a line: "\n", "\v", "\f",
    "\r", the separators [\x1c], [\x1d], [\x1e], and [\x85]. These are the
    line boundaries among the code points 0 to 255; [str.splitlines] has two
    more, U+2028 and U+2029, which the texts of the embedding do not hold. *)
Definition is_linebreak (c : ascii) : bool :=
  let n := nat_of_ascii c in
  ((10 <=? n) && (n <=? 13) || (28 <=? n) && (n <=? 30) || (n =? 133))%nat.

(** [s.splitlines(keepends=True)]; "\r\n" ends one line. *)
Fixpoint splitlines (s : string) : list string :=
  match s with
  | EmptyString => []
  | String c s' =>
      if is_linebreak c then
        match s' with
        | String c2 s'' =>
            if ((c =? CR) && (c2 =? newline))%char
            then String c (String c2 EmptyString) :: splitlines s''
            else String c EmptyString :: splitlines s'
        | EmptyString => [String c EmptyString]
        end
      else
        match splitlines s' with
        | [] => [String c EmptyString]
        | l :: ls => String c l :: ls
        end
  end.

Definition nl : string := String newline EmptyString.

(** [if lines and not lines[-1].endswith('\n'): lines[-1] += '\n']. *)
Fixpoint normalize_last (lines : list string) : list string :=
  match lines with
  | [] => []
  | [l] => if ends_with_newline l then [l] else [(l ++ nl)%string]
  | l :: ls => l :: normalize_last ls
  end.

(** The key function of the sort, [x.get("line", 0)], on every patch in turn. *)
Fixpoint patch_keys (patches : list pyval) : res (list (pyval * pydict)) :=
  match patches with
  | [] => Ok []
  | PDict d :: rest =>
      match patch_keys rest with
      | Ok r => Ok ((dict_get d "line" (PInt 0), d) :: r)
      | Raise e => Raise e
      end
  | x :: _ => Raise (Exn AttributeError "get" [x])
  end.

(** An [int] ([bool] is a subclass of [int]). *)
Definition as_int (v : pyval) : option Z :=
  match v with
  | PInt z => Some z
  | PBool b => Some (if b then 1 else 0)%Z
  | _ => None
  end.

Fixpoint int_keys (keyed : list (pyval * pydict)) : option (list (Z * pydict)) :=
  match keyed with
  | [] => Some []
  | (k, d) :: rest =>
      match as_int k, int_keys rest with
      | Some z, Some r => Some ((z, d) :: r)
      | _, _ => None
      end
  end.

(** Stable insertion into a list in descending key order: [x] comes from
    further left in the input than every element of [l], so it goes before the
    elements of equal key. *)
Fixpoint insert_desc (x : Z * pydict) (l : list (Z * pydict)) : list (Z * pydict) :=
  match l with
  | [] => [x]
  | y :: l' => if (fst x <? fst y)%Z then y :: insert_desc x l' else x :: l
  end.

(** [sorted(keyed, key=fst, reverse=True)]: descending and stable. *)
Definition sort_desc (l : list (Z * pydict)) : list (Z * pydict) :=
  fold_right insert_desc [] l.

(** [sorted(patches, key=lambda x: x.get("line", 0), reverse=True)], each patch
    with its line. Lines that are not all integers end in a [TypeError], at the
    latest when the loop computes [line - 1]: the sort raises it when it
    compares an integer with another type, and the subtraction raises it on
    the first patch otherwise. *)
Definition sorted_patches (patches : list pyval) : res (list (Z * pydict)) :=
  match patch_keys patches with
  | Raise e => Raise e
  | Ok keyed =>
      match int_keys keyed with
      | Some l => Ok (sort_desc l)
      | None => Raise (Exn TypeError "line" (map fst keyed))
      end
  end.

(** [if pcontent and not pcontent.endswith("\n"): pcontent += "\n"]. *)
Definition normalize_content (pcontent : pyval) : res pyval :=
  if truthy pcontent then
    match pcontent with
    | PStr s => Ok (PStr (if ends_with_newline s then s else (s ++ nl)%string))
    | _ => Raise (Exn AttributeError "endswith" [pcontent])
    end
  else Ok pcontent.

(** [0 <= i < len(lines)]. *)
Definition in_range {A} (i : Z) (lines : list A) : bool :=
  ((0 <=? i) && (i <? len lines))%Z.

(** [lines.pop(i)], [lines[i] = x] and [lines.insert(i, x)] for [i] in range. *)
Definition remove_at {A} (i : nat) (l : list A) : list A :=
  firstn i l ++ skipn (S i) l.

Definition set_at {A} (i : nat) (x : A) (l : list A) : list A :=
  firstn i l ++ x :: skipn (S i) l.

Definition insert_at {A} (i : nat) (x : A) (l : list A) : list A :=
  firstn i l ++ x :: skipn i l.

(** One turn of the loop over the sorted patches. *)
Definition patch_step (line : Z) (patch : pydict) (lines : list pyval) (changes : Z)
  : res (list pyval * Z) :=
  let line_num := (line - 1)%Z in
  let action := dict_get patch "action" (PStr "replace") in
  match normalize_content (dict_get patch "content" (PStr "")) with
  | Raise e => Raise e
  | Ok pcontent =>
      if is_str action "delete" then
        if in_range line_num lines
        then Ok (remove_at (Z.to_nat line_num) lines, (changes + 1)%Z)
        else Ok (lines, changes)
      else if in_range line_num lines then
        if is_str action "replace"
        then Ok (set_at (Z.to_nat line_num) pcontent lines, (changes + 1)%Z)
        else if is_str action "insert_after"
        then Ok (insert_at (Z.to_nat (line_num + 1)) pcontent lines, (changes + 1)%Z)
        else if is_str action "insert_before"
        then Ok (insert_at (Z.to_nat line_num) pcontent lines, (changes + 1)%Z)
        else Ok (lines, changes)
      else if (is_str action "insert_after" || is_str action "insert_before")
              && (line_num =? len lines)%Z
      then Ok (lines ++ [pcontent], (changes + 1)%Z)
      else Ok (lines, changes)
  end.

Fixpoint patch_loop (patches : list (Z * pydict)) (lines : list pyval) (changes : Z)
  : res (list pyval * Z) :=
  match patches with
  | [] => Ok (lines, changes)
  | (line, patch) :: rest =>
      match patch_step line patch lines changes with
      | Ok (lines', changes') => patch_loop rest lines' changes'
      | Raise e => Raise e
      end
  end.

Fixpoint strings_of (lines : list pyval) : option (list string) :=
  match lines with
  | [] => Some []
  | PStr s :: rest =>
      match strings_of rest with
      | Some r => Some (s :: r)
      | None => None
      end
  | _ :: _ => None
  end.

Definition concat_lines (lines : list string) : string :=
  fold_right String.append EmptyString lines.

(** ["".join(lines)]. *)
Definition join (lines : list pyval) : res string :=
  match strings_of lines with
  | Some ss => Ok (concat_lines ss)
  | None => Raise (Exn TypeError "join" lines)
  end.

(** From the content read to the content written and the change count. *)
Definition patch_content (patches : pyval) (content : string) : res (string * Z) :=
  (let lines := map PStr (normalize_last (splitlines content)) in
   ps <- py_iter patches ;;
   sorted <- sorted_patches ps ;;
   r <- patch_loop sorted lines 0 ;;
   text <- join (fst r) ;;
   Ok (text, snd r))%res.

(** The [patch_file] branch of [_execute_tool_inner]. *)
Definition patch_file `{Platform} (call : pydict) : M pyval :=
  let path := dict_get call "path" (PStr "") in
  if negb (truthy path) then ret (failure "No path") else
  (p <- lift (to_path path) ;;
   fun w =>
   if negb (exists_ w p) then (Ok (failure ("Not found: " ++ p)), w) else
   let patches := dict_get call "patches" (PList []) in
   if negb (truthy patches) then (Ok (failure "No patches"), w) else
   (content <- try_except (r <- read_text p ;; ret (inl r))
                 PermissionError (ret (inr (failure ("Permission denied: " ++ p)))) ;;
    match content with
    | inr denied => ret denied
    | inl content =>
        r <- lift (patch_content patches content) ;;
        let '(text, changes) := r in
        wr <- try_except (u <- write_text p text ;; ret (inl u))
                PermissionError (ret (inr (failure ("Permission denied: " ++ p)))) ;;
        match wr with
        | inr denied => ret denied
        | inl _ => ret (success ("Patched: " ++ p ++ " (" ++ str_of_Z changes ++ " changes)"))
        end
    end) w)%M.

(** Descending by line: [a] may come before [b]. *)
Definition line_ge (a b : Z * pydict) : Prop := (fst b <= fst a)%Z.

(** The last character of [s] satisfies [g]. *)
Fixpoint last_is (g : ascii -> bool) (s : string) : bool :=
  match s with
  | EmptyString => false
  | String c EmptyString => g c
  | String _ s' => last_is g s'
  end.

(** Every character of [s] satisfies [g]. *)
Fixpoint string_all (g : ascii -> bool) (s : string) : bool :=
  match s with
  | EmptyString => true
  | String c s' => g c && string_all g s'
  end.

Definition is_newline (c : ascii) : bool := (c =? newline)%char.

(** The only line boundaries of [s] are newlines. *)
Definition plain_newlines (s : string) : bool :=
  string_all (fun c => implb (is_linebreak c) (is_newline c)) s.

(** A line of the patched file: empty, or ending with a character that
    satisfies [g]. What is not a string makes [join] raise. *)
Definition line_ok (g : ascii -> bool) (v : pyval) : Prop :=
  match v with
  | PStr s => s = "" \/ last_is g s = true
  | _ => True
  end.

(** What [splitlines] gives, read with [g] as the line boundaries: no line
    is empty and each but the last ends at a line boundary. *)
Inductive lines_of (g : ascii -> bool) : list string -> Prop :=
| lines_none : lines_of g []
| lines_last l : l <> "" -> lines_of g [l]
| lines_more l ls : last_is g l = true -> ls <> [] -> lines_of g ls ->
                    lines_of g (l :: ls).

(* ================================================================== *)
(** * read_file *)
(* ================================================================== *)

(** [int(v)]. *)
Definition py_int `{Platform} (v : pyval) : res Z :=
  match v with
  | PInt z => Ok z
  | PBool b => Ok (if b then 1 else 0)%Z
  | PStr s => match int_of_str s with
              | Some z => Ok z
              | None => Raise (Exn ValueError "int" [v])
              end
  | _ => Raise (Exn TypeError "int" [v])
  end.

(** [l[i:j]] for any integers: negative indices count from the end, and both
    ends are clamped to the list. *)
Definition clamp_index {A} (k : Z) (l : list A) : nat :=
  Z.to_nat (if (k <? 0)%Z then Z.max 0 (k + len l) else Z.min k (len l)).

Definition slice {A} (i j : Z) (l : list A) : list A :=
  firstn (clamp_index j l - clamp_index i l) (skipn (clamp_index i l) l).

Definition is_none (v : pyval) : bool :=
  match v with PNone => true | _ => false end.

Definition large_file_error : string :=
  "File > 400KB. Intelligent Mode: Use 'search_file' to locate relevant code, then 'read_file' with start_line/end_line to read specific sections.".

(** The body of the [try] in the [read_file] branch. *)
Definition read_file_body `{Platform} (p : string) (f : file)
           (start_line end_line : pyval) : M pyval :=
  let size := st_size f in
  if (size >? 400000)%Z && is_none start_line
  then ret (failure large_file_error)
  else
  (content <- read_text p ;;
   let lines := splitlines content in
   if negb (is_none start_line) then
     s <- lift (py_int start_line) ;;
     let start := Z.max 0 (s - 1) in
     e <- (if negb (is_none end_line)
           then lift (bind (py_int end_line) (fun e => Ok (Z.min (len lines) e)))
           else ret (len lines)) ;;
     if (start >=? len lines)%Z
     then ret (failure ("Start line " ++ str_of start_line ++ " out of range (max "
                          ++ str_of_Z (len lines) ++ ")"))
     else ret (PDict [("ok", PBool true);
                      ("result", PStr (concat_lines (slice start e lines)));
                      ("lines", PStr (str_of_Z (start + 1) ++ "-" ++ str_of_Z e))])
   else if (size >? MAX_FILE_SIZE)%Z
   then ret (PDict [("ok", PBool true);
                    ("result", PStr (take (Z.to_nat MAX_FILE_SIZE) content));
                    ("truncated", PBool true);
                    ("size", PInt size)])
   else ret (success content))%M.

(** The [read_file] branch of [_execute_tool_inner]. *)
Definition read_file `{Platform} (call : pydict) : M pyval :=
  let path := dict_get call "path" (PStr "") in
  if negb (truthy path) then ret (failure "No path") else
  (p <- lift (to_path path) ;;
   fun w =>
   match fs w p with
   | None => (Ok (failure ("Not found: " ++ p)), w)
   | Some Dir => (Ok (failure ("Is directory: " ++ p)), w)
   | Some (File f) =>
       let start_line := dict_get call "start_line" PNone in
       let end_line := dict_get call "end_line" PNone in
       try_except (read_file_body p f start_line end_line)
         PermissionError (ret (failure ("Permission denied: " ++ p))) w
   end)%M.

(* ================================================================== *)
(** * The permission gate and execute_tool *)
(* ================================================================== *)

(** [permission_prompt(action, target)]: with the session trusted nothing is
    asked; otherwise the user's next answer decides, and "Trust" latches the
    session flag. *)
Definition permission_prompt : M bool :=
  fun w =>
    if trust_session w then (Ok true, w)
    else match answers w with
         | [] => (Ok false, w)
         | a :: rest =>
             let w' := set_answers w rest in
             match a with
             | Trust => (Ok true, set_trust w' true)
             | Yes => (Ok true, w')
             | No | Esc => (Ok false, w')
             end
         end.

(** The user's next answer is a denial: "No", Esc, or the end of the input. *)
Definition denies (coming : list answer) : bool :=
  match coming with
  | [] | No :: _ | Esc :: _ => true
  | Yes :: _ | Trust :: _ => false
  end.

(** [tool in ("delete_file", "write_file", "edit_file", "patch_file", "run_command")]. *)
Definition destructive (tool : pyval) : bool :=
  is_str tool "delete_file" || is_str tool "write_file" || is_str tool "edit_file"
  || is_str tool "patch_file" || is_str tool "run_command".

(** [v[:60]]. *)
Definition first_60 (v : pyval) : res pyval :=
  match v with
  | PStr s => Ok (PStr (take 60 s))
  | PList l => Ok (PList (firstn 60 l))
  | _ => Raise (Exn TypeError "getitem" [v])
  end.

(** [_execute_tool_inner(tool, call)]. *)
Definition execute_tool_inner `{Platform} (tool : pyval) (call : pydict) : M pyval :=
  if is_str tool "read_file" then read_file call
  else if is_str tool "write_file" then other_tool "write_file" call
  else if is_str tool "edit_file" then edit_file call
  else if is_str tool "patch_file" then patch_file call
  else if is_str tool "run_command" then other_tool "run_command" call
  else if is_str tool "list_dir" then other_tool "list_dir" call
  else if is_str tool "search_file" then other_tool "search_file" call
  else if is_str tool "delete_file" then other_tool "delete_file" call
  else if is_str tool "todo" then other_tool "todo" call
  else ret (failure ("Unknown tool: " ++ str_of tool)).

Definition denied (tool : pyval) : pyval :=
  PDict [("ok", PBool false); ("error", PStr "Denied by user"); ("tool", tool)].

(** [execute_tool(call)]. *)
Definition execute_tool `{Platform} (call : pyval) : M pyval :=
  match call with
  | PDict d =>
      let tool := dict_get d "tool" (PStr "") in
      let path := dict_get d "path" (PStr "") in
      (allowed <-
         (if destructive tool then
            target <- lift (if truthy path then Ok path
                            else first_60 (dict_get d "command" (PStr ""))) ;;
            permission_prompt
          else ret true) ;;
       if negb allowed then ret (denied tool)
       else fun w =>
              match execute_tool_inner tool d w with
              | (Ok result, w') => (Ok result, w')
              | (Raise e, w') =>
                  (Ok (PDict [("ok", PBool false); ("error", PStr (exn_str e));
                              ("tool", tool)]), w')
              end)%M
  | _ => ret (failure "Invalid tool format")
  end.

(* ================================================================== *)
(** * Regular expressions *)
(* ================================================================== *)

(** The part of Python's [re] syntax the three patterns of the extractor use.
    Quantifiers apply to character classes only, so each repetition consumes
    one character. *)
Inductive regex : Type :=
| Lit (s : string)                  (* literal text *)
| Opt (r : regex)                   (* (?:r)?  *)
| Star (cls : ascii -> bool)        (* c*      *)
| Plus (cls : ascii -> bool)        (* c+      *)
| PlusLazy (cls : ascii -> bool)    (* c+?     *)
| Group (r : regex)                 (* (r), the one capture group *)
| NotBehind (cls : ascii -> bool)   (* (?<!c)  *)
| NotAhead (cls : ascii -> bool)    (* (?!c)   *)
| Seq (r1 r2 : regex).

(** Where the matcher stands: the character before the position ([None] at the
    start of the text), the text from the position on, and the text of the
    capture group once it is closed. *)
Record mstate : Type := mkmstate {
  prev : option ascii;
  rest : string;
  group1 : option string
}.

(** [s] without the prefix [p], and the last character of [p]. *)
Fixpoint strip_prefix (p s : string) (last : option ascii) : option (option ascii * string) :=
  match p, s with
  | EmptyString, _ => Some (last, s)
  | String a p', String b s' =>
      if (a =? b)%char then strip_prefix p' s' (Some b) else None
  | String _ _, EmptyString => None
  end.

Section Matcher.

Context {R : Type}.

(** A backtracking matcher in continuation-passing style: the first
    alternative whose continuation succeeds wins, as in [re]. *)
Fixpoint star_greedy (cls : ascii -> bool) (p : option ascii) (s : string)
         (k : option ascii -> string -> option R) : option R :=
  match s with
  | String c s' =>
      if cls c then
        match star_greedy cls (Some c) s' k with
        | Some x => Some x
        | None => k p s
        end
      else k p s
  | EmptyString => k p s
  end.

Fixpoint star_lazy (cls : ascii -> bool) (p : option ascii) (s : string)
         (k : option ascii -> string -> option R) : option R :=
  match k p s with
  | Some x => Some x
  | None =>
      match s with
      | String c s' => if cls c then star_lazy cls (Some c) s' k else None
      | EmptyString => None
      end
  end.

Fixpoint rmatch (r : regex) (st : mstate) (k : mstate -> option R) : option R :=
  match r with
  | Lit s =>
      match strip_prefix s (rest st) (prev st) with
      | Some (p, s') => k (mkmstate p s' (group1 st))
      | None => None
      end
  | Opt r' =>
      match rmatch r' st k with
      | Some x => Some x
      | None => k st
      end
  | Star cls =>
      star_greedy cls (prev st) (rest st) (fun p s => k (mkmstate p s (group1 st)))
  | Plus cls =>
      match rest st with
      | String c s' =>
          if cls c
          then star_greedy cls (Some c) s' (fun p s => k (mkmstate p s (group1 st)))
          else None
      | EmptyString => None
      end
  | PlusLazy cls =>
      match rest st with
      | String c s' =>
          if cls c
          then star_lazy cls (Some c) s' (fun p s => k (mkmstate p s (group1 st)))
          else None
      | EmptyString => None
      end
  | Group r' =>
      rmatch r' st (fun st' =>
        k (mkmstate (prev st') (rest st')
             (Some (take (String.length (rest st) - String.length (rest st')) (rest st)))))
  | NotBehind cls =>
      match prev st with
      | Some c => if cls c then None else k st
      | None => k st
      end
  | NotAhead cls =>
      match rest st with
      | String c _ => if cls c then None else k st
      | EmptyString => k st
      end
  | Seq r1 r2 => rmatch r1 st (fun st' => rmatch r2 st' k)
  end.

End Matcher.

(** A match of [r] at the position [p]/[s]: the text of its group and the text
    after the match. *)
Definition match_at (r : regex) (p : option ascii) (s : string) : option (string * string) :=
  rmatch r (mkmstate p s None)
         (fun st => Some (match group1 st with Some g => g | None => EmptyString end,
                          rest st)).

(** [re.finditer(r, text)]: the matches from left to right, without overlap;
    each with the position it starts at and the text of its group. [skip] is
    the number of characters of the last match still to pass. *)
Fixpoint finditer_from (r : regex) (skip pos : nat) (p : option ascii) (s : string)
  : list (nat * string) :=
  match skip with
  | S n =>
      match s with
      | String c s' => finditer_from r n (S pos) (Some c) s'
      | EmptyString => []
      end
  | O =>
      match match_at r p s with
      | Some (g, s_after) =>
          (pos, g) ::
          match s with
          | String c s' =>
              finditer_from r (String.length s - String.length s_after - 1) (S pos) (Some c) s'
          | EmptyString => []
          end
      | None =>
          match s with
          | String c s' => finditer_from r 0 (S pos) (Some c) s'
          | EmptyString => []
          end
      end
  end.

Definition finditer (r : regex) (text : string) : list (nat * string) :=
  finditer_from r 0 0 None text.

(** The character classes: [.] under [re.DOTALL], [\s], any character but the
    double quote, and a backtick or [\w]; for the characters 0 to 255 as
    Unicode code points. *)
Definition any_char (c : ascii) : bool := true.

Definition is_space (c : ascii) : bool :=
  let n := nat_of_ascii c in
  ((9 <=? n) && (n <=? 13) || (28 <=? n) && (n <=? 32) || (n =? 133) || (n =? 160))%nat.

Definition dquote : ascii := "034"%char.

Definition not_quote (c : ascii) : bool := negb (c =? dquote)%char.

Definition is_word (c : ascii) : bool :=
  let n := nat_of_ascii c in
  ((48 <=? n) && (n <=? 57) || (65 <=? n) && (n <=? 90) || (n =? 95)
   || (97 <=? n) && (n <=? 122)
   || (n =? 170) || (n =? 178) || (n =? 179) || (n =? 181) || (n =? 185) || (n =? 186)
   || (188 <=? n) && (n <=? 190)
   || (192 <=? n) && (n <=? 214) || (216 <=? n) && (n <=? 246) || (248 <=? n))%nat.

Definition backtick_or_word (c : ascii) : bool := (c =? "`")%char || is_word c.

Definition seq_all (rs : list regex) : regex :=
  fold_right Seq (Lit EmptyString) rs.

(** [```(?:json)?\s*(\{.+?\})\s*```] *)
Definition fenced_pattern : regex :=
  seq_all [Lit "```"; Opt (Lit "json"); Star is_space;
           Group (seq_all [Lit "{"; PlusLazy any_char; Lit "}"]);
           Star is_space; Lit "```"].

(** [<tool>\s*(\{.+?\})\s*</tool>] *)
Definition tag_pattern : regex :=
  seq_all [Lit "<tool>"; Star is_space;
           Group (seq_all [Lit "{"; PlusLazy any_char; Lit "}"]);
           Star is_space; Lit "</tool>"].

Definition quote : string := String dquote EmptyString.

(** [(?<![`\w])(\{Qtool Q\s*:\s*Q[^Q]+Q.+?\})(?![`\w])] where Q stands for the
    double quote. *)
Definition bare_pattern : regex :=
  seq_all [NotBehind backtick_or_word;
           Group (seq_all [Lit ("{" ++ quote ++ "tool" ++ quote); Star is_space; Lit ":";
                           Star is_space; Lit quote; Plus not_quote; Lit quote;
                           PlusLazy any_char; Lit "}"]);
           NotAhead backtick_or_word].

(* ================================================================== *)
(** * The tool extractor *)
(* ================================================================== *)

(** The state of [extract_tool_calls]: the list [tools] and the set [seen]. *)
Definition extraction := (list pyval * list string)%type.

(** [isinstance(data, dict) and data.get("tool")]. *)
Definition is_tool_call (data : pyval) : bool :=
  match data with
  | PDict d => truthy (dict_get d "tool" PNone)
  | _ => false
  end.

Definition mem (key : string) (seen : list string) : bool :=
  existsb (fun k => k =? key) seen.

(** [add_tool(data)]. *)
Definition add_tool `{Platform} (data : pyval) (st : extraction) : extraction :=
  if is_tool_call data then
    let key := json_dumps_sorted data in
    if mem key (snd st) then st
    else (fst st ++ [data], key :: snd st)
  else st.

(** [try: add_tool(json.loads(text)) except json.JSONDecodeError: pass]. *)
Definition try_add `{Platform} (text : string) (st : extraction) : extraction :=
  match json_loads text with
  | Some data => add_tool data st
  | None => st
  end.

(** The loop that balances braces: the position after the brace that closes
    the first one, or [0] when the depth never comes back to zero. *)
Fixpoint balance_end (candidate : string) (i : nat) (depth : Z) : nat :=
  match candidate with
  | EmptyString => 0
  | String c s' =>
      if (c =? "{")%char then balance_end s' (S i) (depth + 1)
      else if (c =? "}")%char then
        if (depth - 1 =? 0)%Z then S i else balance_end s' (S i) (depth - 1)
      else balance_end s' (S i) depth
  end.

(** The body of the third loop, for one match of the bare pattern. *)
Definition try_add_balanced `{Platform} (candidate : string) (st : extraction) : extraction :=
  let end_ := balance_end candidate 0 0 in
  if (0 <? end_)%nat then try_add (take end_ candidate) st else st.

(** [for m in re.finditer(...): body(m.group(1))]. *)
Definition for_each_match (r : regex) (text : string)
           (body : string -> extraction -> extraction) (st : extraction) : extraction :=
  fold_left (fun st m => body (snd m) st) (finditer r text) st.

(** [extract_tool_calls(text)]. *)
Definition extract_tool_calls `{Platform} (text : string) : list pyval :=
  if text =? "" then [] else
  let st0 : extraction := ([], []) in
  let st1 := for_each_match fenced_pattern text try_add st0 in
  let st2 := for_each_match tag_pattern text try_add st1 in
  let st3 := match fst st2 with
             | [] => for_each_match bare_pattern text try_add_balanced st2
             | _ => st2
             end in
  fst st3.



(** The texts handed to [json.loads] by the third loop. *)
Fixpoint balanced (candidates : list string) : list string :=
  match candidates with
  | [] => []
  | c :: rest =>
      let end_ := balance_end c 0 0 in
      if (0 <? end_)%nat then take end_ c :: balanced rest else balanced rest
  end.



(** The texts of the capture group of the matches, in the order of the matches. *)
Definition groups (r : regex) (text : string) : list string :=
  map snd (finditer r text).

(* ================================================================== *)
(** * The backend clients *)
(* ================================================================== *)

(** [requests.post(...)] with the credential [key]: the next outcome of the
    network; with none left the connection fails. *)
Definition post (key : string) (w : World) : http_outcome * World :=
  match net w with
  | [] => (Fails (Exn ConnectionError "post" []), set_net w [] (sent w ++ [key]))
  | o :: coming => (o, set_net w coming (sent w ++ [key]))
  end.

(** [x[0]] for [x = data["choices"]]. *)
Definition first_item (x : pyval) : res pyval :=
  match x with
  | PList (v :: _) => Ok v
  | PList [] => Raise (Exn IndexError "getitem" [x; PInt 0])
  | PStr (String c _) => Ok (PStr (String c EmptyString))
  | PStr EmptyString => Raise (Exn IndexError "getitem" [x; PInt 0])
  | PDict _ => Raise (Exn KeyError "getitem" [x; PInt 0])
  | _ => Raise (Exn TypeError "getitem" [x; PInt 0])
  end.

(** [estimate_tokens(text)]: [len(text) // 4 if text else 0]. *)
Definition estimate_tokens (text : pyval) : res Z :=
  if truthy text then
    match text with
    | PStr s => Ok (Z.of_nat (String.length s) / 4)%Z
    | PList l => Ok (len l / 4)%Z
    | PDict d => Ok (len d / 4)%Z
    | _ => Raise (Exn TypeError "len" [text])
    end
  else Ok 0%Z.

(** What one attempt comes to: the result dict of a success, or the text
    added to [errors]. *)
Inductive attempt : Type :=
| Succeeded (result : pyval)
| Failed (error : string).

(** The [try] around [r.json()] in [chat_poe], for a response with [r.ok]:
    the success, or the exception, or [None] when the body has no choices. The
    result dict is written without its wall-clock field. *)
Definition read_choice (model : string) (r : response) : res (option pyval) :=
  (data <- json r ;;
   choices <- py_get data "choices" PNone ;;
   if truthy choices then
     item <- first_item choices ;;
     message <- py_get item "message" (PDict []) ;;
     content <- py_get message "content" (PStr "") ;;
     tokens <- estimate_tokens content ;;
     Ok (Some (PDict [("ok", PBool true); ("content", content);
                      ("model", PStr model); ("tokens", PInt tokens)]))
   else Ok None)%res.

Definition key_label (i : nat) : string :=
  "Key " ++ str_of_Z (Z.of_nat (i + 1)) ++ ": ".

(** The handlers of the outer [try]: [requests.Timeout],
    [requests.ConnectionError], then [Exception]. *)
Definition outer_error `{Platform} (i : nat) (e : exn) : string :=
  match exn_cls e with
  | Timeout => key_label i ++ "Timeout"
  | ConnectionError => key_label i ++ "Connection failed"
  | _ => key_label i ++ exn_str e
  end.

(** The body of the loop over the credentials, given what the request did. *)
Definition attempt_of `{Platform} (model : string) (i : nat) (o : http_outcome) : attempt :=
  match o with
  | Fails e => Failed (outer_error i e)
  | Responds r =>
      if r_ok r then
        match read_choice model r with
        | Ok (Some result) => Succeeded result
        | Ok None => Failed (key_label i ++ "Invalid response format")
        | Raise e =>
            match exn_cls e with
            | JSONDecodeError | KeyError | IndexError =>
                Failed (key_label i ++ "Malformed JSON")
            | _ => Failed (outer_error i e)
            end
        end
      else Failed (key_label i ++ "HTTP " ++ str_of_Z (status_code r))
  end.

(** [for i, key in enumerate(keys)]: the result of the first attempt that
    succeeds, if any, and the list [errors] when the loop is left. *)
Fixpoint poe_loop `{Platform} (model : string) (i : nat) (credentials : list string)
         (errors : list string) (w : World) : option pyval * list string * World :=
  match credentials with
  | [] => (None, errors, w)
  | key :: others =>
      let (o, w') := post key w in
      match attempt_of model i o with
      | Succeeded result => (Some result, errors, w')
      | Failed error => poe_loop model (S i) others (errors ++ [error]) w'
      end
  end.

Fixpoint join_with (sep : string) (l : list string) : string :=
  match l with
  | [] => EmptyString
  | [x] => x
  | x :: rest => x ++ sep ++ join_with sep rest
  end.

(** [chat_poe(messages, settings)] for the model [model]. The directives that
    the experiments add to the last user message change the body of the
    request only, which the network of the model does not look at. *)
Definition chat_poe `{Platform} (model : string) : World -> pyval * World :=
  fun w =>
    match keys w with
    | [] => (failure "No API keys configured", w)
    | credentials =>
        match poe_loop model 0 credentials [] w with
        | (Some result, _, w') => (result, w')
        | (None, errors, w') =>
            (failure (match errors with
                      | [] => "All keys exhausted"
                      | _ => join_with "; " (slice_from (-3) errors)
                      end), w')
        end
    end.

(** A body with a well-formed choice list, and the content it carries: an
    object whose [choices] is a list that starts with an object, whose
    [message], when it has one, is an object, and whose [content], when it
    has one, is a false value or has a length. *)
Definition has_len (v : pyval) : bool :=
  negb (truthy v) ||
  match v with
  | PStr _ | PList _ | PDict _ => true
  | _ => false
  end.

Definition choice_content (data : pyval) : option pyval :=
  match data with
  | PDict d =>
      match dict_get d "choices" PNone with
      | PList (PDict item :: _) =>
          match dict_get item "message" (PDict []) with
          | PDict message =>
              let content := dict_get message "content" (PStr "") in
              if has_len content then Some content else None
          | _ => None
          end
      | _ => None
      end
  | _ => None
  end.

(** The texts that a run of failed attempts adds to [errors], the first
    attempt being that of credential number [i] (counted from 0). *)
Fixpoint failure_texts `{Platform} (model : string) (i : nat) (outcomes : list http_outcome)
  : list string :=
  match outcomes with
  | [] => []
  | o :: others =>
      match attempt_of model i o with
      | Failed error => error :: failure_texts model (S i) others
      | Succeeded _ => failure_texts model (S i) others
      end
  end.

Definition fails `{Platform} (model : string) (i : nat) (o : http_outcome) : Prop :=
  exists error, attempt_of model i o = Failed error.

(** [chat_ollama(messages, model)]: one request, no credential. *)
Definition chat_ollama `{Platform} : World -> pyval * World :=
  fun w =>
    let (o, w') := match net w with
                   | [] => (Fails (Exn ConnectionError "post" []), w)
                   | o :: coming => (o, set_net w coming (sent w))
                   end in
    let on_exception (e : exn) :=
      match exn_cls e with
      | Timeout => failure "Timeout"
      | ConnectionError => failure "Ollama not running (ollama serve)"
      | _ => failure (exn_str e)
      end in
    match o with
    | Fails e => (on_exception e, w')
    | Responds r =>
        if r_ok r then
          match (data <- json r ;;
                 message <- py_get data "message" (PDict []) ;;
                 py_get message "content" (PStr ""))%res with
          | Ok content => (PDict [("ok", PBool true); ("content", content)], w')
          | Raise e =>
              match exn_cls e with
              | JSONDecodeError | KeyError => (failure "Invalid response from Ollama", w')
              | _ => (on_exception e, w')
              end
          end
        else (failure ("Ollama error: " ++ str_of_Z (status_code r)), w')
    end.

(** The first column of the table [MODELS]. *)
Definition MODELS : list (string * string) :=
  [("codex", "GPT-5.2-Codex"); ("grok", "Grok-4.1-Fast-Reasoning");
   ("haiku", "Claude-Haiku-4.5"); ("gpt", "GPT-5.2-Instant");
   ("sonnet", "Claude-Sonnet-4.5"); ("opus", "Claude-Opus-4.5");
   ("gemini", "Gemini-3-Pro")].

(** [MODELS.get(model_key, ("GPT-5.1-Codex-Mini",))[0]]; a list or a dict is
    not hashable. *)
Definition model_name (model_key : pyval) : res string :=
  match model_key with
  | PStr k =>
      Ok (match find (fun kv => fst kv =? k) MODELS with
          | Some kv => snd kv
          | None => "GPT-5.1-Codex-Mini"
          end)
  | PList _ | PDict _ => Raise (Exn TypeError "hash" [model_key])
  | _ => Ok "GPT-5.1-Codex-Mini"
  end.

(** [chat(messages, settings)]. *)
Definition chat `{Platform} (settings : pydict) : M pyval :=
  fun w =>
    if is_str (dict_get settings "mode" PNone) "local"
    then let (r, w') := chat_ollama w in (Ok r, w')
    else match keys w with
         | [] => (Ok (failure "No API keys configured"), w)
         | _ => match model_name (dict_get settings "model" (PStr "codex")) with
                | Ok model => let (r, w') := chat_poe model w in (Ok r, w')
                | Raise e => (Raise e, w)
                end
         end.

(* ================================================================== *)
(** * The agent loop *)
(* ================================================================== *)

(** [extract_tool_calls] on whatever the backend gave as content: nothing for
    a false value, and [re.finditer] wants a string. *)
Definition extract_from `{Platform} (response : pyval) : res (list pyval) :=
  if negb (truthy response) then Ok []
  else match response with
       | PStr text => Ok (extract_tool_calls text)
       | _ => Raise (Exn TypeError "finditer" [response])
       end.

(** What of [format_tool_result] can stop the loop: the text of a success is
    split into lines. *)
Definition format_tool_result (result : pyval) : res unit :=
  (ok <- py_get result "ok" PNone ;;
   if negb (truthy ok) then Ok tt
   else text <- py_get result "result" (PStr "") ;;
        match text with
        | PStr _ => Ok tt
        | _ => Raise (Exn AttributeError "split" [text])
        end)%res.

(** The entry of [tool_results] for one tool call. *)
Definition tool_result_entry `{Platform} (tool_name : pyval) (tool_result : pyval)
  : res string :=
  (ok <- py_get tool_result "ok" PNone ;;
   if truthy ok then
     r <- py_get tool_result "result" (PStr "") ;;
     Ok ("[" ++ str_of tool_name ++ "] Success:" ++ nl ++ str_of r)%string
   else
     e <- py_get tool_result "error" (PStr "Failed") ;;
     Ok ("[" ++ str_of tool_name ++ "] Error: " ++ str_of e)%string)%res.

(** [for tool_call in tools]: the calls are executed one after the other. *)
Fixpoint run_tools `{Platform} (tools : list pyval) : M (list string) :=
  match tools with
  | [] => ret []
  | tool_call :: others =>
      (tool_name <- lift (py_get tool_call "tool" (PStr "action")) ;;
       tool_result <- execute_tool tool_call ;;
       _ <- lift (format_tool_result tool_result) ;;
       entry <- lift (tool_result_entry tool_name tool_result) ;;
       entries <- run_tools others ;;
       ret (entry :: entries))%M
  end.

Definition turn (role : string) (content : pyval) : message :=
  [("role", PStr role); ("content", content)].

(** How one iteration of the loop ends. *)
Inductive step : Type :=
| Continue (messages : list message)   (* on to the next iteration *)
| Return (messages : list message).    (* [return messages] *)

(** The body of [for loop_i in range(MAX_TOOL_LOOPS)]. *)
Definition agent_step `{Platform} (settings : pydict) (messages : list message) : M step :=
  (let messages := trim_context messages MAX_CONTEXT_MESSAGES in
   result <- chat settings ;;
   ok <- lift (py_get result "ok" PNone) ;;
   if negb (truthy ok) then ret (Return messages) else
   response <- lift (py_get result "content" (PStr "")) ;;
   tools <- lift (extract_from response) ;;
   match tools with
   | [] => ret (Return (messages ++ [turn "assistant" response]))
   | _ =>
       tool_results <- run_tools tools ;;
       ret (Continue (messages ++
                        [turn "assistant" response;
                         turn "user" (PStr ("Tool results:" ++ nl
                                              ++ join_with (nl ++ nl) tool_results)%string)]))
   end)%M.

(** [agent_loop(user_input, messages, settings)], for [n] iterations. *)
Fixpoint agent_loop_for `{Platform} (n : nat) (settings : pydict) (messages : list message)
  : M (list message) :=
  match n with
  | O => ret messages
  | S n' =>
      (s <- agent_step settings messages ;;
       match s with
       | Continue messages' => agent_loop_for n' settings messages'
       | Return messages' => ret messages'
       end)%M
  end.

Definition agent_loop `{Platform} (settings : pydict) (messages : list message)
  : M (list message) :=
  agent_loop_for MAX_TOOL_LOOPS settings messages.

(* ################################################################## *)
(** * Part I, continued: the other handlers and the files of the session

    The rest of [_execute_tool_inner] but [list_dir] ([search_file], the
    [todo] tool with [todo_tool] and [display_todo], [write_file],
    [delete_file], [run_command]), and the functions that keep the keys, the
    settings and the conversations on disk. What these ask of the host
    beyond the files of [World] (making a directory, removing an entry,
    running a command, writing JSON) is the class [Host]. *)
(* ################################################################## *)

(* ================================================================== *)
(** * search_file *)
(* ================================================================== *)

(** [c.lower()] for a code point below 256: the letters A to Z and the
    capital letters of Latin-1 (192 to 222 but the sign 215) are 32 below
    their small letters. *)
Definition lower_char (c : ascii) : ascii :=
  let n := nat_of_ascii c in
  if ((65 <=? n) && (n <=? 90) || (192 <=? n) && (n <=? 222) && negb (n =? 215))%nat
  then ascii_of_nat (n + 32)
  else c.

(** [s.lower()]. *)
Fixpoint lower (s : string) : string :=
  match s with
  | EmptyString => EmptyString
  | String c s' => String (lower_char c) (lower s')
  end.

(** [v.lower()] on any value: an [AttributeError] unless [v] is a string. *)
Definition py_lower (v : pyval) : res string :=
  match v with
  | PStr s => Ok (lower s)
  | _ => Raise (Exn AttributeError "lower" [v])
  end.

(** [s.splitlines()]: the lines without their line ends. *)
Fixpoint splitlines_plain (s : string) : list string :=
  match s with
  | EmptyString => []
  | String c s' =>
      if is_linebreak c then
        match s' with
        | String c2 s'' =>
            if ((c =? CR) && (c2 =? newline))%char
            then EmptyString :: splitlines_plain s''
            else EmptyString :: splitlines_plain s'
        | EmptyString => [EmptyString]
        end
      else
        match splitlines_plain s' with
        | [] => [String c EmptyString]
        | l :: ls => String c l :: ls
        end
  end.

(** The loop over [enumerate(lines, i)]: the list [matches]. *)
Fixpoint search_matches (pattern_lower : string) (i : Z) (lines : list string)
  : list string :=
  match lines with
  | [] => []
  | line :: rest =>
      if contains pattern_lower (lower line)
      then (str_of_Z i ++ ": " ++ take 120 line)%string
             :: search_matches pattern_lower (i + 1) rest
      else search_matches pattern_lower (i + 1) rest
  end.

(** The [search_file] branch of [_execute_tool_inner]. *)
Definition search_file `{Platform} (call : pydict) : M pyval :=
  let path := dict_get call "path" (PStr "") in
  if negb (truthy path) then ret (failure "No path") else
  (p <- lift (to_path path) ;;
   fun w =>
   if negb (exists_ w p) then (Ok (failure ("Not found: " ++ p)), w) else
   let pattern := dict_get call "pattern" (PStr "") in
   if negb (truthy pattern) then (Ok (failure "No pattern"), w) else
   (content <- try_except (r <- read_text p ;; ret (inl r))
                 PermissionError (ret (inr (failure ("Permission denied: " ++ p)))) ;;
    match content with
    | inr denied => ret denied
    | inl content =>
        let lines := splitlines_plain content in
        pattern_lower <- lift (py_lower pattern) ;;
        match search_matches pattern_lower 1 lines with
        | [] => ret (success "No matches")
        | matches => ret (success (join_with nl (firstn 50 matches)))
        end
    end) w)%M.

(** [enumerate(l, i)]. *)
Fixpoint enumerate {A} (l : list A) (i : Z) : list (Z * A) :=
  match l with
  | [] => []
  | x :: rest => (i, x) :: enumerate rest (i + 1)
  end.

(** The rows of a search read off the file: of the numbered lines, those
    that contain the pattern when both are put in small letters, each as its
    number and its first 120 characters. *)
Definition search_rows (pattern : string) (lines : list string) : list string :=
  map (fun il : Z * string => (str_of_Z (fst il) ++ ": " ++ take 120 (snd il))%string)
      (filter (fun il : Z * string => contains (lower pattern) (lower (snd il)))
              (enumerate lines 1)).

(** The text that ends a line of [splitlines]: nothing (on the last line), a
    line boundary, or "\r\n". *)
Definition line_end (e : string) : Prop :=
  e = "" \/ (exists c, is_linebreak c = true /\ e = String c "") \/
  e = String CR (String newline "").

(* ================================================================== *)
(** * The TODO list *)
(* ================================================================== *)

Definition set_todo (w : World) (todo : pyval) : World :=
  mkworld (fs w) (trust_session w) (answers w) todo (keys w) (net w) (sent w).

(** [v[:n]]. *)
Definition prefix (n : nat) (v : pyval) : res pyval :=
  match v with
  | PStr s => Ok (PStr (take n s))
  | PList l => Ok (PList (firstn n l))
  | _ => Raise (Exn TypeError "getitem" [v])
  end.

(** [len(v)]. *)
Definition py_len (v : pyval) : res Z :=
  match v with
  | PStr s => Ok (Z.of_nat (String.length s))
  | PList l => Ok (len l)
  | PDict d => Ok (len d)
  | _ => Raise (Exn TypeError "len" [v])
  end.

(** [x[k]] for a string [k]: the value of a dict under [k]. *)
Definition get_item (x : pyval) (k : string) : res pyval :=
  match x with
  | PDict d => match lookup d k with
               | Some v => Ok v
               | None => Raise (Exn KeyError "getitem" [x; PStr k])
               end
  | _ => Raise (Exn TypeError "getitem" [x; PStr k])
  end.

(** [d[k] = v]: a key that is there keeps its place, a new one goes last. *)
Fixpoint set_item (d : pydict) (k : string) (v : pyval) : pydict :=
  match d with
  | [] => [(k, v)]
  | (k', v') :: d' => if k' =? k then (k, v) :: d' else (k', v') :: set_item d' k v
  end.

(** What of [visible_len(s)] can raise: [re.sub] wants a string. The width it
    gives goes into the layout of what is printed, which is left out. *)
Definition visible_len (s : pyval) : res unit :=
  match s with
  | PStr _ => Ok tt
  | _ => Raise (Exn TypeError "sub" [s])
  end.

(** [max(visible_len(t.get("task", "")[:45]) for t in tasks)]. *)
Fixpoint task_widths (tasks : list pyval) : res unit :=
  match tasks with
  | [] => Ok tt
  | t :: rest =>
      (v <- py_get t "task" (PStr "") ;;
       shown <- prefix 45 v ;;
       _ <- visible_len shown ;;
       task_widths rest)%res
  end.

(** [display_todo()]: it prints the list, and raises on a task or a title
    that is not text. *)
Definition display_todo : M unit :=
  fun w =>
    let todo := session_todo w in
    ((if negb (truthy todo) then Ok tt else
      tasks <- py_get todo "tasks" PNone ;;
      if negb (truthy tasks) then Ok tt else
      title <- py_get todo "title" (PStr "TODO") ;;
      ts <- py_iter tasks ;;
      _ <- task_widths ts ;;
      visible_len title)%res, w).

(** [{"task": t, "done": False}]. *)
Definition new_task (t : pyval) : pyval :=
  PDict [("task", t); ("done", PBool false)].

(** [tasks[i]["done"] = True] for [i] within [len(tasks)]. *)
Definition mark_done (tasks : pyval) (i : nat) : res pyval :=
  match tasks with
  | PList ts =>
      match nth_error ts i with
      | Some (PDict t) => Ok (PList (set_at i (PDict (set_item t "done" (PBool true))) ts))
      | Some x => Raise (Exn TypeError "setitem" [x; PStr "done"])
      | None => Raise (Exn IndexError "getitem" [tasks; PInt (Z.of_nat i)])
      end
  | PDict _ => Raise (Exn KeyError "getitem" [tasks; PInt (Z.of_nat i)])
  | _ => Raise (Exn TypeError "setitem" [tasks; PStr "done"])
  end.

(** The body of [for idx in indices]: whether [idx] was counted. *)
Definition check_index (idx : pyval) : M bool :=
  fun w =>
    match as_int idx with
    | None => (Raise (Exn TypeError "lt" [PInt 0; idx]), w)
    | Some i =>
        if negb (0 <? i)%Z then (Ok false, w) else
        match session_todo w with
        | PDict d =>
            match (tasks <- get_item (PDict d) "tasks" ;;
                   n <- py_len tasks ;;
                   Ok (tasks, n))%res with
            | Raise e => (Raise e, w)
            | Ok (tasks, n) =>
                if negb (i <=? n)%Z then (Ok false, w) else
                match mark_done tasks (Z.to_nat (i - 1)) with
                | Ok tasks' =>
                    (Ok true, set_todo w (PDict (set_item d "tasks" tasks')))
                | Raise e => (Raise e, w)
                end
            end
        | x => (Raise (Exn TypeError "getitem" [x; PStr "tasks"]), w)
        end
    end.

Fixpoint check_loop (indices : list pyval) (checked : Z) : M Z :=
  match indices with
  | [] => ret checked
  | idx :: rest =>
      (counted <- check_index idx ;;
       check_loop rest (if counted then checked + 1 else checked)%Z)%M
  end.

(** [todo_tool(action, tasks, indices, title)]. *)
Definition todo_tool `{Platform} (action tasks indices title : pyval) : M pyval :=
  if is_str action "create" then
    if negb (truthy tasks) then ret (failure "No tasks provided") else
    (first <- lift (prefix 8 tasks) ;;
     ts <- lift (py_iter first) ;;
     fun w =>
       (_ <- display_todo ;;
        ret (success ("Created TODO with " ++ str_of_Z (len ts) ++ " tasks")))
         (set_todo w (PDict [("title", if truthy title then title else PStr "Task Plan");
                             ("tasks", PList (map new_task ts))])))%M
  else if is_str action "check" then
    fun w =>
      if negb (truthy (session_todo w)) then (Ok (failure "No TODO list exists"), w)
      else if negb (truthy indices) then (Ok (failure "No indices provided"), w)
      else (idxs <- lift (py_iter indices) ;;
            checked <- check_loop idxs 0 ;;
            _ <- display_todo ;;
            ret (success ("Checked off " ++ str_of_Z checked ++ " task(s)")))%M w
  else if is_str action "show" then
    fun w =>
      if negb (truthy (session_todo w)) then (Ok (success "No TODO list"), w)
      else (_ <- display_todo ;; ret (success "Displayed TODO"))%M w
  else if is_str action "clear" then
    fun w => (Ok (success "Cleared TODO list"), set_todo w PNone)
  else ret (failure ("Unknown action: " ++ str_of action)).

(** The [todo] branch of [_execute_tool_inner]. *)
Definition todo `{Platform} (call : pydict) : M pyval :=
  todo_tool (dict_get call "action" (PStr "")) (dict_get call "tasks" (PList []))
            (dict_get call "indices" (PList [])) (dict_get call "title" (PStr "")).

(** The list as the code builds it: a title and the tasks, each with its
    text and whether it is done. *)
Definition task (entry : pyval * bool) : pyval :=
  PDict [("task", fst entry); ("done", PBool (snd entry))].

Definition todo_list (title : pyval) (entries : list (pyval * bool)) : pyval :=
  PDict [("title", title); ("tasks", PList (map task entries))].

Definition is_text (v : pyval) : bool :=
  match v with PStr _ => true | _ => false end.

(** The entries after the tasks numbered in [idxs] (from 1) are checked off:
    task number [fst je] is done when it was, or when its number is listed. *)
Definition mark_with (idxs : list Z) (je : Z * (pyval * bool)) : pyval * bool :=
  (fst (snd je), snd (snd je) || existsb (Z.eqb (fst je)) idxs).

Definition marked (idxs : list Z) (entries : list (pyval * bool)) : list (pyval * bool) :=
  map (mark_with idxs) (enumerate entries 1).

(** How many of [idxs] number one of [n] tasks. *)
Definition in_list (n : Z) (idxs : list Z) : Z :=
  len (filter (fun i => (0 <? i) && (i <=? n))%Z idxs).

(** What the session's TODO list is at any time: [None], or a titled list of
    one to eight tasks. *)
Definition well_formed_todo (v : pyval) : Prop :=
  v = PNone \/
  exists (title : pyval) (entries : list (pyval * bool)),
    v = todo_list title entries /\ truthy title = true /\
    1 <= length entries <= 8.

(* ================================================================== *)
(** * The host: directories, the shell and the configuration files *)
(* ================================================================== *)

(** What [subprocess.run] comes to: a completed process, the exception
    [subprocess.TimeoutExpired], or another exception. *)
Inductive process : Type :=
| Completed (returncode : Z) (stdout stderr : string)
| TimeoutExpired
| Fault (e : exn).

(** What the handlers below ask of the host beyond the files of [World],
    where directories carry no permissions. *)
Class Host : Type := {
  (** [p.parent.mkdir(parents=True, exist_ok=True)] for the resolved path [p]. *)
  mkdir_parents : string -> M unit;
  (** Whether the directory of [p] lets the process remove [p]. *)
  may_unlink : World -> string -> bool;
  (** [subprocess.run(cmd, shell=True, capture_output=True, text=True,
      timeout=timeout, cwd=Path.home())]. *)
  subprocess_run : pyval -> pyval -> World -> process * World;
  (** [CONFIG_DIR.mkdir(exist_ok=True)]. *)
  mkdir_config : M unit;
  (** [str(KEYS_FILE)], [str(SETTINGS_FILE)] and
      [str(CONFIG_DIR / f"conv_{name}.json")]. *)
  KEYS_FILE : string;
  SETTINGS_FILE : string;
  conversation_file : string -> string;
  (** [json.dumps(v, indent=2)]. *)
  json_dumps_indent : pyval -> string;
  (** [datetime.now().strftime("%Y%m%d_%H%M%S")]. *)
  timestamp : World -> string
}.

(** The classes that [except OSError] catches: [PermissionError] is a
    subclass, and so are the exceptions of [requests]. *)
Definition is_os_error (c : exn_class) : bool :=
  match c with
  | PermissionError | OSError | Timeout | ConnectionError => true
  | _ => false
  end.

(** [try: body] with [except] clauses: the clause of an exception, if any. *)
Definition try_catch {A} (body : M A) (clauses : exn -> option (M A)) : M A :=
  fun w => match body w with
           | (Raise e, w') =>
               match clauses e with
               | Some handler => handler w'
               | None => (Raise e, w')
               end
           | r => r
           end.

(* ================================================================== *)
(** * write_file and delete_file *)
(* ================================================================== *)

(** The [write_file] branch of [_execute_tool_inner]. *)
Definition write_file `{Platform} `{Host} (call : pydict) : M pyval :=
  let path := dict_get call "path" (PStr "") in
  if negb (truthy path) then ret (failure "No path") else
  let content := dict_get call "content" PNone in
  if is_none content then ret (failure "No content") else
  (p <- lift (to_path path) ;;
   try_catch
     (_ <- mkdir_parents p ;;
      _ <- write_text p (str_of content) ;;
      ret (success ("Written: " ++ p ++ " ("
                      ++ str_of_Z (Z.of_nat (String.length (str_of content)))
                      ++ " bytes)")))
     (fun e =>
        if exn_class_eqb (exn_cls e) PermissionError
        then Some (ret (failure ("Permission denied: " ++ p)))
        else if is_os_error (exn_cls e)
        then Some (ret (failure ("Write failed: " ++ exn_str e)))
        else None))%M.

(** [p.unlink()] for a path that names a file. *)
Definition unlink `{Host} (p : string) : M unit :=
  fun w =>
    match fs w p with
    | Some (File _) =>
        if may_unlink w p
        then (Ok tt, set_fs w (fun q => if q =? p then None else fs w q))
        else (Raise (Exn PermissionError "unlink" [PStr p]), w)
    | _ => (Raise (Exn OSError "unlink" [PStr p]), w)
    end.

(** The [delete_file] branch of [_execute_tool_inner]. *)
Definition delete_file `{Platform} `{Host} (call : pydict) : M pyval :=
  let path := dict_get call "path" (PStr "") in
  if negb (truthy path) then ret (failure "No path") else
  (p <- lift (to_path path) ;;
   fun w =>
   match fs w p with
   | None => (Ok (failure ("Not found: " ++ p)), w)
   | Some Dir => (Ok (failure "Cannot delete directory"), w)
   | Some (File _) =>
       (r <- try_except (u <- unlink p ;; ret (inl u))
               PermissionError (ret (inr (failure ("Permission denied: " ++ p)))) ;;
        match r with
        | inr denied => ret denied
        | inl _ => ret (success ("Deleted: " ++ p))
        end) w
   end)%M.

(* ================================================================== *)
(** * run_command *)
(* ================================================================== *)

(** [min(v, 120)]: the first of the two when they are equal. *)
Definition min_120 (v : pyval) : res pyval :=
  match v with
  | PInt z => Ok (PInt (if (120 <? z)%Z then 120 else z))
  | PBool b => Ok (PBool b)
  | _ => Raise (Exn TypeError "lt" [PInt 120; v])
  end.

(** The characters that [str.strip()] removes, below 256. *)
Definition is_py_space (c : ascii) : bool :=
  let n := nat_of_ascii c in
  ((9 <=? n) && (n <=? 13) || (28 <=? n) && (n <=? 32) || (n =? 133) || (n =? 160))%nat.

Fixpoint lstrip (s : string) : string :=
  match s with
  | String c s' => if is_py_space c then lstrip s' else s
  | EmptyString => EmptyString
  end.

Fixpoint rstrip (s : string) : string :=
  match s with
  | EmptyString => EmptyString
  | String c s' =>
      match rstrip s' with
      | EmptyString => if is_py_space c then EmptyString else String c EmptyString
      | r => String c r
      end
  end.

(** [s.strip()]. *)
Definition strip (s : string) : string := rstrip (lstrip s).

(** The [run_command] branch of [_execute_tool_inner]. *)
Definition run_command `{Platform} `{Host} (call : pydict) : M pyval :=
  let cmd := dict_get call "command" (PStr "") in
  if negb (truthy cmd) then ret (failure "No command") else
  (timeout <- lift (min_120 (dict_get call "timeout" (PInt 60))) ;;
   fun w =>
     match subprocess_run cmd timeout w with
     | (Completed returncode stdout stderr, w') =>
         let output := strip (stdout ++ stderr) in
         let output := if (Z.of_nat (String.length output) >? 10000)%Z
                       then (take (Z.to_nat 10000) output ++ nl ++ "... (truncated)")%string
                       else output in
         (Ok (PDict [("ok", PBool (returncode =? 0)%Z);
                     ("result", PStr (if output =? "" then "(no output)" else output));
                     ("code", PInt returncode)]), w')
     | (TimeoutExpired, w') =>
         (Ok (failure ("Timeout (" ++ str_of timeout ++ "s)")), w')
     | (Fault e, w') =>
         if is_os_error (exn_cls e)
         then (Ok (failure ("Command failed: " ++ exn_str e)), w')
         else (Raise e, w')
     end)%M.

(* ================================================================== *)
(** * Keys, settings and conversations on disk *)
(* ================================================================== *)

(** [json.loads(text)]. *)
Definition py_loads `{Platform} (text : string) : res pyval :=
  match json_loads text with
  | Some v => Ok v
  | None => Raise (Exn JSONDecodeError "loads" [PStr text])
  end.

(** [except (json.JSONDecodeError, OSError)]. *)
Definition unreadable (e : exn) : bool :=
  exn_class_eqb (exn_cls e) JSONDecodeError || is_os_error (exn_cls e).

(** [[k for k in keys if isinstance(k, str) and k]]. *)
Definition key_strings (keys : list pyval) : list string :=
  flat_map (fun k => match k with
                     | PStr s => if s =? "" then [] else [s]
                     | _ => []
                     end) keys.

(** [load_keys()], for a keys file that decodes as UTF-8 (the code calls
    [read_text()] without [errors='replace']). *)
Definition load_keys `{Platform} `{Host} : M (list string) :=
  try_catch
    (fun w =>
       if exists_ w KEYS_FILE then
         (text <- read_text KEYS_FILE ;;
          data <- lift (py_loads text) ;;
          keys <- lift (py_get data "keys" (PList [])) ;;
          ks <- lift (py_iter keys) ;;
          ret (key_strings ks))%M w
       else (Ok [], w))
    (fun e => if unreadable e then Some (ret []) else None).

(** [save_keys(keys)]. *)
Definition save_keys `{Host} (keys : pyval) : M unit :=
  (_ <- mkdir_config ;;
   first <- lift (prefix 5 keys) ;;
   write_text KEYS_FILE (json_dumps_indent (PDict [("keys", first)])))%M.

Definition default_experiments : pydict :=
  [("reasoning", PBool false); ("planning", PBool false);
   ("verbose", PBool false); ("details", PBool false)].

(** The dict [default] of [load_settings]. *)
Definition default_settings : pydict :=
  [("model", PStr "codex"); ("mode", PStr "cloud"); ("ollama_model", PStr "llama3");
   ("experiments", PDict default_experiments)].

(** [for k in ("model", "mode", "ollama_model")]: a string of the file
    replaces the default. *)
Definition overlay_strings (data settings : pydict) : pydict :=
  fold_left (fun s k => match lookup data k with
                        | Some (PStr v) => set_item s k (PStr v)
                        | _ => s
                        end)
            ["model"; "mode"; "ollama_model"] settings.

(** [for k in default["experiments"]]: a boolean of the file replaces the
    default. *)
Definition overlay_flags (given experiments : pydict) : pydict :=
  fold_left (fun e k => match lookup given k with
                        | Some (PBool b) => set_item e k (PBool b)
                        | _ => e
                        end)
            (map fst experiments) experiments.

(** What [load_settings] makes of the value read from the file. *)
Definition settings_of (data : pyval) : pydict :=
  match data with
  | PDict d =>
      let settings := overlay_strings d default_settings in
      match dict_get d "experiments" PNone with
      | PDict given =>
          set_item settings "experiments" (PDict (overlay_flags given default_experiments))
      | _ => settings
      end
  | _ => default_settings
  end.

(** [load_settings()], for a settings file that decodes as UTF-8: the code
    calls [read_text()] without [errors='replace'], which reads what
    [read_text] reads, or raises [UnicodeDecodeError] on a file that does
    not decode. [Raising.load_settings] is the function with that exception
    and those of [json.loads]. *)
Definition load_settings `{Platform} `{Host} : M pydict :=
  try_catch
    (fun w =>
       if exists_ w SETTINGS_FILE then
         (text <- read_text SETTINGS_FILE ;;
          data <- lift (py_loads text) ;;
          ret (settings_of data))%M w
       else (Ok default_settings, w))
    (fun e => if unreadable e || exn_class_eqb (exn_cls e) KeyError
              then Some (ret default_settings) else None).

(** [save_settings(s)]. *)
Definition save_settings `{Host} (s : pyval) : M unit :=
  (_ <- mkdir_config ;;
   write_text SETTINGS_FILE (json_dumps_indent s))%M.

(** [save_conversation(messages, name)]: the path written. *)
Definition save_conversation `{Host} (messages : pyval) (name : option string)
  : M string :=
  (_ <- mkdir_config ;;
   fun w =>
     let name := match name with
                 | Some n => if n =? "" then timestamp w else n
                 | None => timestamp w
                 end in
     (_ <- write_text (conversation_file name) (json_dumps_indent messages) ;;
      ret (conversation_file name)) w)%M.

(** [isinstance(data, list) and all(isinstance(m, dict) for m in data)]. *)
Definition is_conversation (data : pyval) : bool :=
  match data with
  | PList l => forallb (fun m => match m with PDict _ => true | _ => false end) l
  | _ => false
  end.

(** [load_conversation(name)], for a file that decodes as UTF-8 (the code
    calls [read_text()] without [errors='replace']); [PNone] is the [None]
    it returns. *)
Definition load_conversation `{Platform} `{Host} (name : string) : M pyval :=
  fun w =>
    if exists_ w (conversation_file name) then
      try_catch
        (text <- read_text (conversation_file name) ;;
         data <- lift (py_loads text) ;;
         ret (if is_conversation data then data else PNone))%M
        (fun e => if unreadable e then Some (ret PNone) else None) w
    else (Ok PNone, w).

(* ================================================================== *)
(** * The handlers put together *)
(* ================================================================== *)

(** The platform whose handlers are the ones above; [list_dir] stays with
    the platform underneath. *)
Definition with_handlers (P : Platform) (host : Host) : Platform := {|
  json_loads := @json_loads P;
  json_dumps_sorted := @json_dumps_sorted P;
  repr := @repr P;
  exn_str := @exn_str P;
  int_of_str := @int_of_str P;
  resolve := @resolve P;
  other_tool := fun name call =>
    if name =? "write_file" then @write_file P host call
    else if name =? "run_command" then @run_command P host call
    else if name =? "search_file" then @search_file P call
    else if name =? "delete_file" then @delete_file P host call
    else if name =? "todo" then @todo P call
    else @other_tool P name call
|}.

(** The [try] of [execute_tool] around the handler: an exception becomes a
    failure that names the tool. *)
Definition handled `{Platform} (tool : pyval) (out : res pyval * World)
  : res pyval * World :=
  match out with
  | (Ok result, w') => (Ok result, w')
  | (Raise e, w') =>
      (Ok (PDict [("ok", PBool false); ("error", PStr (exn_str e)); ("tool", tool)]), w')
  end.

(* ================================================================== *)
(** * What the properties speak of *)
(* ================================================================== *)

(** The lines of a file as [read_file] numbers them. *)
Definition file_lines (f : file) : list string :=
  splitlines (universal_newlines (data f)).

(** The lines [first] to [last] of a list, counted from 1. *)
Definition lines_between (first last : Z) (lines : list string) : list string :=
  firstn (Z.to_nat (last - first + 1)) (skipn (Z.to_nat (first - 1)) lines).

(** The result of a ranged read. *)
Definition ranged (text : string) (first last : Z) : pyval :=
  PDict [("ok", PBool true); ("result", PStr text);
         ("lines", PStr (str_of_Z first ++ "-" ++ str_of_Z last))].

(** The call that reads the lines [first] to [last] of [path]. *)
Definition range_call (path : string) (first last : Z) : pydict :=
  [("tool", PStr "read_file"); ("path", PStr path);
   ("start_line", PInt first); ("end_line", PInt last)].

(** From [w] to [w'] nothing changed but the content of the file [p]: no
    other path, no path's existence, nothing of the session or the network. *)
Definition touches_only (p : string) (w w' : World) : Prop :=
  (forall q, q <> p -> fs w' q = fs w q) /\
  (forall q, exists_ w' q = exists_ w q) /\
  trust_session w' = trust_session w /\ answers w' = answers w /\
  session_todo w' = session_todo w /\ keys w' = keys w /\
  net w' = net w /\ sent w' = sent w.

(** Two worlds that differ in the network only. *)
Definition same_but_net (w w' : World) : Prop :=
  fs w' = fs w /\ trust_session w' = trust_session w /\ answers w' = answers w /\
  session_todo w' = session_todo w /\ keys w' = keys w.

(** From [w] to [w'] nothing changed but the TODO list. *)
Definition same_but_todo (w w' : World) : Prop :=
  w' = set_todo w (session_todo w').

(** The texts [errors] holds when the attempts of the credentials number
    [i + 1], [i + 2], ... have failed for the reasons [reasons]. *)
Definition labelled (i : nat) (reasons : list string) : list string :=
  map (fun jt : nat * string => (key_label (fst jt) ++ snd jt)%string)
      (combine (seq i (length reasons)) reasons).

(** A complete settings dict: the three names and the four switches. *)
Definition settings (model mode ollama_model : string)
           (reasoning planning verbose details : bool) : pydict :=
  [("model", PStr model); ("mode", PStr mode); ("ollama_model", PStr ollama_model);
   ("experiments", PDict [("reasoning", PBool reasoning); ("planning", PBool planning);
                          ("verbose", PBool verbose); ("details", PBool details)])].

(** The path [p] can be written and read back: nothing is there, or a file
    that the process may write and read. *)
Definition can_hold (w : World) (p : string) : Prop :=
  fs w p = None \/
  exists f, fs w p = Some (File f) /\ writable f = true /\ readable f = true.

(** The text [s] is read back as [v]. *)
Definition reads_back `{Platform} (s : string) (v : pyval) : Prop :=
  json_loads (universal_newlines s) = Some v.

(** The JSON values of a keys file that [load_keys] has no handler for: a
    value that is not an object, and an object whose [keys] cannot be gone
    through ([null], a number, [true] or [false]). *)
Definition odd_keys (data : pyval) : bool :=
  match data with
  | PDict d =>
      match dict_get d "keys" (PList []) with
      | PList _ | PStr _ | PDict _ => false
      | _ => true
      end
  | _ => true
  end.

(* ################################################################## *)
(** * Part I, continued: what the statements read the code against

    The reading of [patch_file] line by line, the iterations of the agent
    loop one after the other, and the exceptions of [json.loads] and of
    the decoding of a file that the code does not catch. *)
(* ################################################################## *)

(* ================================================================== *)
(** * patch_file, line by line *)
(* ================================================================== *)

(** The content a patch writes: its [content], with a newline at its end
    when it is a text that lacks one. (A content that is neither false nor a
    text makes the loop raise; nothing is written then.) *)
Definition written (patch : pydict) : pyval :=
  match normalize_content (dict_get patch "content" (PStr "")) with
  | Ok pcontent => pcontent
  | Raise _ => PNone
  end.

(** What the claim's words make of a patch and the line [l] it is on: the
    line is deleted, replaced, or gets the content before or after it; an
    action the code does not know leaves it alone. *)
Definition patched_line (patch : pydict) (l : pyval) : list pyval :=
  let action := dict_get patch "action" (PStr "replace") in
  if is_str action "delete" then []
  else if is_str action "replace" then [written patch]
  else if is_str action "insert_after" then [l; written patch]
  else if is_str action "insert_before" then [written patch; l]
  else [l].

(** What a patch on the line after the last one adds to the file. *)
Definition appended (patch : pydict) : list pyval :=
  let action := dict_get patch "action" (PStr "replace") in
  if is_str action "insert_after" || is_str action "insert_before"
  then [written patch] else [].

(** The first patch of the list that is on line [i]. *)
Definition patch_on (patches : list (Z * pydict)) (i : Z) : option pydict :=
  option_map snd (find (fun q => (fst q =? i)%Z) patches).

(** The lines, numbered from [i], each with the patch on its number applied
    to it alone: no patch moves the line another patch is applied to. *)
Fixpoint each_line_patched (patches : list (Z * pydict)) (i : Z) (lines : list pyval)
  : list pyval :=
  match lines with
  | [] => match patch_on patches i with
          | Some patch => appended patch
          | None => []
          end
  | l :: rest =>
      match patch_on patches i with
      | Some patch => patched_line patch l
      | None => [l]
      end ++ each_line_patched patches (i + 1) rest
  end.

(** The line boundaries left in a text that was read with universal
    newlines, where every "\r" has become "\n": "\n", "\v", "\f", [\x1c],
    [\x1d], [\x1e] and [\x85]. *)
Definition is_linebreak_read (c : ascii) : bool :=
  is_linebreak c && negb (c =? CR)%char.

(** The patch is on one of the lines before line [n]. *)
Definition before_line (n : Z) (q : Z * pydict) : bool :=
  ((0 <? fst q) && (fst q <? n))%Z.

(* ================================================================== *)
(** * The iterations of the agent loop *)
(* ================================================================== *)

(** The conversation and the world after [k] iterations of the loop that
    all went on to the next one; [None] when one of the [k] returned or
    raised. *)
Fixpoint iterations `{Platform} (k : nat) (settings : pydict) (messages : list message)
         (w : World) : option (list message * World) :=
  match k with
  | O => Some (messages, w)
  | S k' =>
      match agent_step settings messages w with
      | (Ok (Continue messages'), w') => iterations k' settings messages' w'
      | _ => None
      end
  end.

(* ================================================================== *)
(** * Exceptions that nothing catches *)
(* ================================================================== *)

(** [json.loads] raises [json.JSONDecodeError] on a text that is not JSON,
    and the code catches it wherever it calls [json.loads]. It raises other
    exceptions too, which the code does not catch: [RecursionError] on a
    text nested deeper than the interpreter allows, and [ValueError] on an
    integer of more than 4300 digits. [json.dumps] raises [RecursionError]
    on a value nested deeper than the interpreter allows, which can be a
    value that [json.loads] has just given. And [Path.read_text()], which
    [load_settings] calls without [errors='replace'], raises
    [UnicodeDecodeError], a [ValueError], on a file whose bytes are not
    valid UTF-8. The platform's [json_loads], [json_dumps_sorted] and
    [read_text] stand for the calls where none of these is raised.
    [Raising] reads the extractor and [load_settings] with them:
    [loads_raises] gives the exception that [json.loads] raises on a text,
    when it is not a [json.JSONDecodeError], [dumps_raises] the exception
    that [json.dumps] raises on a value, and [undecodable] tells the paths
    of the files that do not decode. *)
Module Raising.
Section Raising.
Context `{Platform}.
Variable loads_raises : string -> option exn.
Variable dumps_raises : pyval -> option exn.
Variable undecodable : string -> bool.

(** [json.loads(text)], with every exception it raises. *)
Definition loads (text : string) : res pyval :=
  match loads_raises text with
  | Some e => Raise e
  | None => py_loads text
  end.

(** [json.dumps(data, sort_keys=True)], with every exception it raises. *)
Definition dumps (data : pyval) : res string :=
  match dumps_raises data with
  | Some e => Raise e
  | None => Ok (json_dumps_sorted data)
  end.

(** [add_tool(data)]. *)
Definition add_tool (data : pyval) (st : extraction) : res extraction :=
  if is_tool_call data then
    (key <- dumps data ;;
     Ok (if mem key (snd st) then st else (fst st ++ [data], key :: snd st)))%res
  else Ok st.

(** [try: add_tool(json.loads(text)) except json.JSONDecodeError: pass]. *)
Definition try_add (text : string) (st : extraction) : res extraction :=
  match (data <- loads text ;; add_tool data st)%res with
  | Ok st' => Ok st'
  | Raise e => if exn_class_eqb (exn_cls e) JSONDecodeError then Ok st else Raise e
  end.

(** The body of the third loop, for one match of the bare pattern. *)
Definition try_add_balanced (candidate : string) (st : extraction) : res extraction :=
  let end_ := balance_end candidate 0 0 in
  if (0 <? end_)%nat then try_add (take end_ candidate) st else Ok st.

(** [for m in matches: body(m.group(1))]: an exception ends the loop. *)
Fixpoint for_each (body : string -> extraction -> res extraction)
         (matches : list (nat * string)) (st : extraction) : res extraction :=
  match matches with
  | [] => Ok st
  | m :: rest =>
      match body (snd m) st with
      | Ok st' => for_each body rest st'
      | Raise e => Raise e
      end
  end.

(** [extract_tool_calls(text)]. *)
Definition extract_tool_calls (text : string) : res (list pyval) :=
  if text =? "" then Ok [] else
  (st1 <- for_each try_add (finditer fenced_pattern text) ([], []) ;;
   st2 <- for_each try_add (finditer tag_pattern text) st1 ;;
   st3 <- match fst st2 with
          | [] => for_each try_add_balanced (finditer bare_pattern text) st2
          | _ => Ok st2
          end ;;
   Ok (fst st3))%res.

(** [p.read_text()]: the text of [read_text], or the [UnicodeDecodeError]
    of a file that does not decode. *)
Definition read_text_strict (p : string) : M string :=
  fun w => match read_text p w with
           | (Ok text, w') =>
               if undecodable p
               then (Raise (Exn ValueError "decode" [PStr p]), w')
               else (Ok text, w')
           | r => r
           end.

(** [load_settings()]. *)
Definition load_settings `{Host} : M pydict :=
  try_catch
    (fun w =>
       if exists_ w SETTINGS_FILE then
         (text <- read_text_strict SETTINGS_FILE ;;
          data <- lift (loads text) ;;
          ret (settings_of data))%M w
       else (Ok default_settings, w))
    (fun e => if unreadable e || exn_class_eqb (exn_cls e) KeyError
              then Some (ret default_settings) else None).

End Raising.
End Raising.




(* ================================================================== *)
(** * A platform to run the examples on *)
(* ================================================================== *)

(** A reader and a writer for the JSON of the examples: objects, arrays,
    strings with the one-letter escapes, integers, [true], [false] and
    [null]. Paths resolve to themselves, and the handlers that are left out
    answer with a failure and change nothing. *)
Module Reference.

Definition is_json_space (c : ascii) : bool :=
  let n := nat_of_ascii c in
  ((n =? 32) || (n =? 9) || (n =? 10) || (n =? 13))%nat.

Fixpoint skip_ws (s : string) : string :=
  match s with
  | String c s' => if is_json_space c then skip_ws s' else s
  | EmptyString => s
  end.

Definition is_digit (c : ascii) : bool :=
  let n := nat_of_ascii c in ((48 <=? n) && (n <=? 57))%nat.

Fixpoint read_digits (s : string) (acc : Z) : Z * string :=
  match s with
  | String c s' =>
      if is_digit c
      then read_digits s' (10 * acc + Z.of_nat (nat_of_ascii c - 48))%Z
      else (acc, s)
  | EmptyString => (acc, s)
  end.

(** An integer: digits without a leading zero, and no fraction or exponent. *)
Definition read_natural (s : string) : option (Z * string) :=
  match s with
  | String c s' =>
      if is_digit c then
        let (z, r) := read_digits s 0 in
        let leading_zero := (c =? "0")%char && negb (String.length s - String.length r =? 1)%nat in
        let float := match r with
                     | String d _ => (d =? ".")%char || (d =? "e")%char || (d =? "E")%char
                     | EmptyString => false
                     end in
        if leading_zero || float then None else Some (z, r)
      else None
  | EmptyString => None
  end.

Definition read_int (s : string) : option (Z * string) :=
  match s with
  | String c s' =>
      if (c =? "-")%char
      then match read_natural s' with
           | Some (z, r) => Some ((- z)%Z, r)
           | None => None
           end
      else read_natural s
  | EmptyString => None
  end.

Definition unescape (c : ascii) : option ascii :=
  if (c =? dquote)%char then Some dquote
  else if (c =? "\")%char then Some "\"%char
  else if (c =? "/")%char then Some "/"%char
  else if (c =? "n")%char then Some "010"%char
  else if (c =? "t")%char then Some "009"%char
  else if (c =? "r")%char then Some "013"%char
  else if (c =? "b")%char then Some "008"%char
  else if (c =? "f")%char then Some "012"%char
  else None.

(** The text of a string, from after its opening quote. *)
Fixpoint read_string (s : string) : option (string * string) :=
  match s with
  | EmptyString => None
  | String c s' =>
      if (c =? dquote)%char then Some (EmptyString, s')
      else if (c =? "\")%char then
        match s' with
        | String e s'' =>
            match unescape e, read_string s'' with
            | Some x, Some (t, r) => Some (String x t, r)
            | _, _ => None
            end
        | EmptyString => None
        end
      else if (nat_of_ascii c <? 32)%nat then None
      else match read_string s' with
           | Some (t, r) => Some (String c t, r)
           | None => None
           end
  end.

(** [d[k] = v]. *)
Fixpoint dict_set (d : pydict) (k : string) (v : pyval) : pydict :=
  match d with
  | [] => [(k, v)]
  | (k', v') :: d' => if k' =? k then (k, v) :: d' else (k', v') :: dict_set d' k v
  end.

Fixpoint read_value (fuel : nat) (s : string) : option (pyval * string) :=
  match fuel with
  | O => None
  | S fuel' =>
      match skip_ws s with
      | EmptyString => None
      | String c r =>
          if (c =? "{")%char then
            match skip_ws r with
            | String c2 r2 =>
                if (c2 =? "}")%char then Some (PDict [], r2)
                else read_members fuel' (skip_ws r) []
            | EmptyString => None
            end
          else if (c =? "[")%char then
            match skip_ws r with
            | String c2 r2 =>
                if (c2 =? "]")%char then Some (PList [], r2)
                else read_items fuel' r []
            | EmptyString => None
            end
          else if (c =? dquote)%char then
            match read_string r with
            | Some (t, r') => Some (PStr t, r')
            | None => None
            end
          else if startswith "true" (String c r) then Some (PBool true, drop 4 (String c r))
          else if startswith "false" (String c r) then Some (PBool false, drop 5 (String c r))
          else if startswith "null" (String c r) then Some (PNone, drop 4 (String c r))
          else match read_int (String c r) with
               | Some (z, r') => Some (PInt z, r')
               | None => None
               end
      end
  end
with read_members (fuel : nat) (s : string) (acc : pydict) : option (pyval * string) :=
  match fuel with
  | O => None
  | S fuel' =>
      match s with
      | String c r =>
          if (c =? dquote)%char then
            match read_string r with
            | Some (k, r1) =>
                match skip_ws r1 with
                | String colon r2 =>
                    if (colon =? ":")%char then
                      match read_value fuel' r2 with
                      | Some (v, r3) =>
                          match skip_ws r3 with
                          | String c3 r4 =>
                              if (c3 =? ",")%char
                              then read_members fuel' (skip_ws r4) (dict_set acc k v)
                              else if (c3 =? "}")%char
                              then Some (PDict (dict_set acc k v), r4)
                              else None
                          | EmptyString => None
                          end
                      | None => None
                      end
                    else None
                | EmptyString => None
                end
            | None => None
            end
          else None
      | EmptyString => None
      end
  end
with read_items (fuel : nat) (s : string) (acc : list pyval) : option (pyval * string) :=
  match fuel with
  | O => None
  | S fuel' =>
      match read_value fuel' s with
      | Some (v, r) =>
          match skip_ws r with
          | String c r' =>
              if (c =? ",")%char then read_items fuel' r' (acc ++ [v])
              else if (c =? "]")%char then Some (PList (acc ++ [v]), r')
              else None
          | EmptyString => None
          end
      | None => None
      end
  end.

(** [json.loads]: one value and nothing but white space after it. *)
Definition loads (s : string) : option pyval :=
  match read_value (S (String.length s)) s with
  | Some (v, r) => match skip_ws r with
                   | EmptyString => Some v
                   | _ => None
                   end
  | None => None
  end.

Fixpoint escape (s : string) : string :=
  match s with
  | EmptyString => EmptyString
  | String c s' =>
      let n := nat_of_ascii c in
      if (c =? dquote)%char then String "\" (String dquote (escape s'))
      else if (c =? "\")%char then String "\" (String "\" (escape s'))
      else if (n =? 10)%nat then String "\" (String "n" (escape s'))
      else if (n =? 13)%nat then String "\" (String "r" (escape s'))
      else if (n =? 9)%nat then String "\" (String "t" (escape s'))
      else String c (escape s')
  end.

Definition quoted (s : string) : string := (quote ++ escape s ++ quote)%string.

Fixpoint insert_sorted (x : string * string) (l : list (string * string))
  : list (string * string) :=
  match l with
  | [] => [x]
  | y :: l' => if String.leb (fst x) (fst y) then x :: l else y :: insert_sorted x l'
  end.

(** [json.dumps(v, sort_keys=True)]. *)
Fixpoint dumps (v : pyval) : string :=
  match v with
  | PNone => "null"
  | PBool true => "true"
  | PBool false => "false"
  | PInt z => str_of_Z z
  | PStr s => quoted s
  | PList l => "[" ++ join_with ", " (map dumps l) ++ "]"
  | PDict d =>
      let members := map (fun kv : string * pyval => let (k, x) := kv in (k, dumps x)) d in
      "{" ++ join_with ", "
               (map (fun kv : string * string => quoted (fst kv) ++ ": " ++ snd kv)
                    (fold_right insert_sorted [] members)) ++ "}"
  end%string.

Definition int_of (s : string) : option Z :=
  match read_int s with
  | Some (z, EmptyString) => Some z
  | _ => None
  end.

#[global] Instance platform : Platform := {
  json_loads := loads;
  json_dumps_sorted := dumps;
  repr := dumps;
  exn_str := fun e => let 'Exn _ op _ := e in op;
  int_of_str := int_of;
  resolve := fun path => path;
  other_tool := fun name call => ret (failure "left out")
}.

End Reference.

(* ================================================================== *)
(** * Sample inputs *)
(* ================================================================== *)

(** One system message and fifty others: the conversation as the agent loop
    builds it, oldest first. *)
Definition sample_conversation : list message :=
  [("role", PStr "system"); ("content", PStr "prompt")] ::
  map (fun i => [("role", PStr (if Nat.even i then "user" else "assistant"));
                 ("content", PInt (Z.of_nat i))])
      (seq 1 50).

(** A world with one file, ["/f"], holding ["a a"]. *)
Definition edit_world : World :=
  mkworld (update (fun _ => None) "/f" (File (mkfile 3 "a a" true true)))
          false [] PNone [] [] [].

(** The same file, which the process may read but not write. *)
Definition read_only_world : World :=
  mkworld (update (fun _ => None) "/f" (File (mkfile 3 "a a" true false)))
          false [] PNone [] [] [].

Definition edit_call : pydict :=
  [("tool", PStr "edit_file"); ("path", PStr "/f");
   ("edits", PList [PDict [("find", PStr "a"); ("replace", PStr "b")]])].

(** The patches of the specification's example, in the order of the call, and
    the content ["a\nb\nc\n"]. *)
Definition sample_patches : pyval :=
  PList [PDict [("line", PInt 2); ("action", PStr "delete")];
         PDict [("line", PInt 1); ("action", PStr "replace"); ("content", PStr "X")]].

Definition sample_abc : string := ("a" ++ nl ++ "b" ++ nl ++ "c" ++ nl)%string.

(** Sample texts are written with an apostrophe where the text has a double
    quote. *)
Fixpoint dq (s : string) : string :=
  match s with
  | EmptyString => EmptyString
  | String c s' => String (if (c =? "'")%char then dquote else c) (dq s')
  end.

(** A readable text file of 500,001 bytes, ["/big"], in an otherwise empty
    file system. *)
Definition big_text : string :=
  string_of_list_ascii (repeat "a"%char (Z.to_nat 500001)).

Definition big_world : World :=
  mkworld (update (fun _ => None) "/big" (File (mkfile 500001 big_text true true)))
          false [] PNone [] [] [].

Definition big_call : pydict :=
  [("tool", PStr "read_file"); ("path", PStr "/big")].

(** A call of [run_command] whose command is a number. *)
Definition numeric_command : pyval :=
  PDict [("tool", PStr "run_command"); ("command", PInt 5)].

(** The model answers with one [write_file] call in a fenced block; the user
    says "No". The network serves the one request of the one credential. *)
Definition write_call : pydict :=
  [("tool", PStr "write_file"); ("path", PStr "/f"); ("content", PStr "x")].

Definition write_response : string :=
  ("```json" ++ nl ++ dq "{'tool': 'write_file', 'path': '/f', 'content': 'x'}" ++ nl ++ "```")%string.

Definition choice_body (content : pyval) : pyval :=
  PDict [("choices", PList [PDict [("message", PDict [("role", PStr "assistant");
                                                      ("content", content)])]])].

Definition deny_world : World :=
  mkworld (fun _ => None) false [No] PNone ["k1"]
          [Responds (mkresponse 200 (Ok (choice_body (PStr write_response))))] [].

Definition cloud_settings : pydict :=
  [("mode", PStr "cloud"); ("model", PStr "codex")].

Definition first_messages : list message :=
  [turn "system" (PStr "prompt"); turn "user" (PStr "write x to /f")].

(** Three credentials; the first two requests get HTTP 500, the third a valid
    choice. *)
Definition failover_world : World :=
  mkworld (fun _ => None) false [] PNone ["k1"; "k2"; "k3"]
          [Responds (mkresponse 500 (Raise (Exn JSONDecodeError "json" [])));
           Responds (mkresponse 500 (Raise (Exn JSONDecodeError "json" [])));
           Responds (mkresponse 200 (Ok (choice_body (PStr "done"))))] [].

(** One credential; the request gets HTTP 200 and the body [{"choices": [5]}]. *)
Definition odd_choice_world : World :=
  mkworld (fun _ => None) false [] PNone ["k1"]
          [Responds (mkresponse 200 (Ok (PDict [("choices", PList [PInt 5])])))] [].


(** A bare [edit_file] call, whose edits are objects, followed by prose. *)
Definition nested_object : string :=
  dq "{'tool':'edit_file','path':'f','edits':[{'find':'a','replace':'b'}]}".

Definition nested_then_prose : string := (nested_object ++ " Done.")%string.

(** A bare call without inner braces, followed by prose; and one that the
    pattern overshoots, because a letter follows its closing brace. *)
Definition flat_then_prose : string :=
  dq "{'tool':'read_file','path':'a'} and then prose.".

Definition flat_then_letter : string :=
  dq "{'tool':'x','a':1}abc } more".

(** A world with the file ["/f"] holding ["a\nb\nc\n"], and the call of the
    specification's example. *)
Definition patch_world : World :=
  mkworld (update (fun _ => None) "/f" (File (mkfile 6 sample_abc true true)))
          false [] PNone [] [] [].

Definition patch_call : pydict :=
  [("tool", PStr "patch_file"); ("path", PStr "/f"); ("patches", sample_patches)].

(** A file whose last line has no newline, and a patch that is out of range. *)
Definition unterminated_world : World :=
  mkworld (update (fun _ => None) "/f" (File (mkfile 3 ("a" ++ nl ++ "b") true true)))
          false [] PNone [] [] [].

Definition far_patch_call : pydict :=
  [("tool", PStr "patch_file"); ("path", PStr "/f");
   ("patches", PList [PDict [("line", PInt 9); ("action", PStr "delete")]])].

(** A file with a form feed between its two lines, and the patch that deletes
    line 2. *)
Definition form_feed : string := String "012"%char EmptyString.

Definition paged_world : World :=
  mkworld (update (fun _ => None) "/f" (File (mkfile 3 ("a" ++ form_feed ++ "b") true true)))
          false [] PNone [] [] [].

Definition delete_line_2_call : pydict :=
  [("tool", PStr "patch_file"); ("path", PStr "/f");
   ("patches", PList [PDict [("line", PInt 2); ("action", PStr "delete")]])].

(* ================================================================== *)
(** * A host to run the examples on *)
(* ================================================================== *)

(** The configuration lives in ["/home/.lumis"], which is there; every
    directory can be made and lets its entries go; a command completes with
    status 0 and echoes its text; and the writer is that of
    [json.dumps(v, indent=2)] for the values of the reference reader. *)
Module ReferenceHost.

Fixpoint spaces (n : nat) : string :=
  match n with
  | O => EmptyString
  | S n' => String " " (spaces n')
  end.

(** [json.dumps(v, indent=2)] at nesting depth [level]. *)
Fixpoint dumps_indent_at (level : nat) (v : pyval) : string :=
  let pad := spaces (2 * S level) in
  let close := (nl ++ spaces (2 * level))%string in
  match v with
  | PNone => "null"
  | PBool true => "true"
  | PBool false => "false"
  | PInt z => str_of_Z z
  | PStr s => Reference.quoted s
  | PList [] => "[]"
  | PList l =>
      "[" ++ nl
      ++ join_with ("," ++ nl) (map (fun x => pad ++ dumps_indent_at (S level) x) l)
      ++ close ++ "]"
  | PDict [] => "{}"
  | PDict d =>
      "{" ++ nl
      ++ join_with ("," ++ nl)
           (map (fun kv : string * pyval =>
                   let (k, x) := kv in
                   pad ++ Reference.quoted k ++ ": " ++ dumps_indent_at (S level) x) d)
      ++ close ++ "}"
  end%string.

Definition echo (cmd : pyval) : string :=
  match cmd with
  | PStr s => s
  | _ => EmptyString
  end.

#[global] Instance host : Host := {
  mkdir_parents := fun p => ret tt;
  may_unlink := fun w p => true;
  subprocess_run := fun cmd timeout w => (Completed 0 (echo cmd) "", w);
  mkdir_config := ret tt;
  KEYS_FILE := "/home/.lumis/api_keys.json";
  SETTINGS_FILE := "/home/.lumis/settings.json";
  conversation_file := fun name => ("/home/.lumis/conv_" ++ name ++ ".json")%string;
  json_dumps_indent := dumps_indent_at 0;
  timestamp := fun w => "20250101_000000"
}.

End ReferenceHost.

(* ================================================================== *)
(** * More sample inputs *)
(* ================================================================== *)

(** Four credentials, and HTTP 500 for every request. *)
Definition overloaded : http_outcome :=
  Responds (mkresponse 500 (Raise (Exn JSONDecodeError "json" []))).

Definition four_keys_world : World :=
  mkworld (fun _ => None) false [] PNone ["k1"; "k2"; "k3"; "k4"]
          [overloaded; overloaded; overloaded; overloaded] [].


Definition read_from_9_call : pydict :=
  [("tool", PStr "read_file"); ("path", PStr "/f"); ("start_line", PInt 9)].

Definition search_call : pydict :=
  [("tool", PStr "search_file"); ("path", PStr "/f"); ("pattern", PStr "B")].

(** The [todo] calls of a plan of three tasks, and the session in which the
    second task is done. *)
Definition create_call : pydict :=
  [("tool", PStr "todo"); ("action", PStr "create");
   ("tasks", PList [PStr "read"; PStr "edit"; PStr "test"]); ("title", PStr "Plan")].

Definition check_call : pydict :=
  [("tool", PStr "todo"); ("action", PStr "check");
   ("indices", PList [PInt 1; PInt 3; PInt 5])].

Definition planned_world : World :=
  mkworld (fun _ => None) false [] 
          (todo_list (PStr "Plan")
             [(PStr "read", false); (PStr "edit", true); (PStr "test", false)])
          [] [] [].

(** The user answers "Trust" to the prompt of the edit of ["/f"]. *)
Definition trusting_world : World := set_answers edit_world [Trust].

Definition run_call : pydict :=
  [("tool", PStr "run_command"); ("command", PStr "  ls  ")].

(** A keys file that holds the JSON list [[]]. *)
Definition listed_keys_world : World :=
  mkworld (update (fun _ => None) "/home/.lumis/api_keys.json"
             (File (mkfile 2 "[]" true true)))
          false [] PNone [] [] [].

(** The world without a file. *)
Definition empty_world : World :=
  mkworld (fun _ => None) false [] PNone [] [] [].

Definition local_settings : pydict :=
  settings "opus" "local" "llama3" true false false true.

(* ================================================================== *)
(** * Sample inputs: two patches on one line *)
(* ================================================================== *)

(** Two patches that delete line 2, and an insertion before line 2 followed
    by a replacement of line 2, for the file ["/f"] of [patch_world]. *)
Definition delete_twice_call : pydict :=
  [("tool", PStr "patch_file"); ("path", PStr "/f");
   ("patches", PList [PDict [("line", PInt 2); ("action", PStr "delete")];
                      PDict [("line", PInt 2); ("action", PStr "delete")]])].

Definition insert_then_replace_call : pydict :=
  [("tool", PStr "patch_file"); ("path", PStr "/f");
   ("patches", PList [PDict [("line", PInt 2); ("action", PStr "insert_before");
                             ("content", PStr "Y")];
                      PDict [("line", PInt 2); ("action", PStr "replace");
                             ("content", PStr "Z")]])].

(** For the file ["a\nb"] of [unterminated_world]: a patch that is out of
    range together with a replacement of line 1, and two patches that
    delete line 1. *)
Definition far_and_first_patches : list pyval :=
  [PDict [("line", PInt 9); ("action", PStr "delete")];
   PDict [("line", PInt 1); ("action", PStr "replace"); ("content", PStr "X")]].

Definition far_and_first_call : pydict :=
  [("tool", PStr "patch_file"); ("path", PStr "/f");
   ("patches", PList far_and_first_patches)].

Definition delete_first_twice_call : pydict :=
  [("tool", PStr "patch_file"); ("path", PStr "/f");
   ("patches", PList [PDict [("line", PInt 1); ("action", PStr "delete")];
                      PDict [("line", PInt 1); ("action", PStr "delete")]])].

(* ================================================================== *)
(** * Sample inputs: a denial and what follows it *)
(* ================================================================== *)

(** The model answers with a [write_file] call, which the user denies, and
    a [run_command] call whose command is a number. *)
Definition two_calls_response : string :=
  (write_response ++ nl ++ "```json" ++ nl
     ++ dq "{'tool': 'run_command', 'command': 5}" ++ nl ++ "```")%string.

Definition sibling_world : World :=
  mkworld (fun _ => None) false [No] PNone ["k1"]
          [Responds (mkresponse 200 (Ok (choice_body (PStr two_calls_response))))] [].

(** The model answers every request with the [write_file] call and the user
    says "No" every time; the network has sixteen answers ready. *)
Definition always_denied_world : World :=
  mkworld (fun _ => None) false (repeat No 15) PNone ["k1"]
          (repeat (Responds (mkresponse 200 (Ok (choice_body (PStr write_response))))) 16)
          [].

(* ================================================================== *)
(** * Sample inputs: a text on which json.loads raises *)
(* ================================================================== *)




(* ################################################################## *)
(** * Part II: properties *)
(* ################################################################## *)

(* ================================================================== *)
(** ** Lists and slices *)
(* ================================================================== *)

Lemma len_nonneg {A} (l : list A) : (0 <= len l)%Z.
Proof. unfold len; lia. Qed.

Lemma most_recent_skipn {A} (k : nat) (l : list A) :
  most_recent k l = skipn (length l - k) l.
Proof.
  unfold most_recent.
  rewrite firstn_rev, rev_involutive. reflexivity.
Qed.

Lemma slice_from_neg_most_recent {A} (k : Z) (l : list A) :
  (0 < k)%Z -> slice_from (- k) l = most_recent (Z.to_nat k) l.
Proof.
  intros Hk. unfold slice_from.
  replace (- k <? 0)%Z with true by (symmetry; apply Z.ltb_lt; lia).
  rewrite most_recent_skipn. f_equal. unfold len. lia.
Qed.

Lemma filter_partition_length {A} (f : A -> bool) (l : list A) :
  length (filter f l) + length (filter (fun x => negb (f x)) l) = length l.
Proof.
  induction l as [|x l IH]; simpl; [reflexivity|].
  destruct (f x); simpl; lia.
Qed.

(* ================================================================== *)
(** ** Context trimming *)
(* ================================================================== *)

Lemma trim_context_short (messages : list message) (max_msgs : Z) :
  (len messages <= max_msgs)%Z -> trim_context messages max_msgs = messages.
Proof.
  intros H. unfold trim_context.
  apply Z.leb_le in H. rewrite H. reflexivity.
Qed.

Lemma trim_context_long (messages : list message) (max_msgs : Z) :
  (max_msgs < len messages)%Z ->
  trim_context messages max_msgs =
    filter is_system messages ++
    most_recent (Z.to_nat (Z.max (max_msgs - len (filter is_system messages)) 2))
                (filter non_system messages).
Proof.
  intros H. unfold trim_context.
  replace (len messages <=? max_msgs)%Z with false
    by (symmetry; apply Z.leb_gt; exact H).
  rewrite slice_from_neg_most_recent by lia. reflexivity.
Qed.

(** C7. A conversation of at most 40 messages is returned unchanged; a longer
    one becomes its system messages followed by the most recent
    [max(40 - system_count, 2)] non-system messages, the older non-system
    messages being dropped. With one system message and 50 others the result is
    the system message and the most recent 39 others (the oldest 11 are gone). *)
Theorem trim_context_keeps_system_and_recent :
  (forall msgs : list message,
      (len msgs <= 40)%Z -> trim_context msgs MAX_CONTEXT_MESSAGES = msgs) /\
  (forall msgs : list message,
      (40 < len msgs)%Z ->
      let system_count := len (filter is_system msgs) in
      trim_context msgs MAX_CONTEXT_MESSAGES =
        filter is_system msgs ++
        most_recent (Z.to_nat (Z.max (40 - system_count) 2))
                    (filter non_system msgs)) /\
  (forall (msgs : list message) (s : message),
      filter is_system msgs = [s] ->
      length (filter non_system msgs) = 50 ->
      trim_context msgs MAX_CONTEXT_MESSAGES =
        s :: skipn 11 (filter non_system msgs) /\
      length (skipn 11 (filter non_system msgs)) = 39) /\
  trim_context sample_conversation MAX_CONTEXT_MESSAGES =
    hd [] sample_conversation :: skipn 12 sample_conversation.
Proof.
  split; [|split; [|split]].
  - intros msgs H. apply trim_context_short. exact H.
  - intros msgs H. cbv zeta. apply trim_context_long. exact H.
  - intros msgs s Hs Ho.
    assert (Hlen : length msgs = 51).
    { rewrite <- (filter_partition_length is_system msgs).
      fold non_system. change (fun x => negb (is_system x)) with non_system.
      rewrite Hs, Ho. reflexivity. }
    split.
    + rewrite trim_context_long by (unfold len, MAX_CONTEXT_MESSAGES; lia).
      rewrite Hs. unfold len, MAX_CONTEXT_MESSAGES. simpl length.
      change (Z.to_nat (Z.max (40 - Z.of_nat 1) 2)) with 39.
      rewrite most_recent_skipn, Ho. reflexivity.
    + rewrite length_skipn, Ho. reflexivity.
  - vm_compute. reflexivity.
Qed.

(* ================================================================== *)
(** ** Strings *)
(* ================================================================== *)

Local Open Scope string_scope.

Lemma append_nil_r (s : string) : s ++ "" = s.
Proof. induction s as [|c s IH]; simpl; [reflexivity | now rewrite IH]. Qed.

Lemma append_assoc (a b c : string) : (a ++ b) ++ c = a ++ (b ++ c).
Proof. induction a as [|x a IH]; simpl; [reflexivity | now rewrite IH]. Qed.

Lemma length_append (a b : string) :
  String.length (a ++ b) = String.length a + String.length b.
Proof. induction a as [|x a IH]; simpl; [reflexivity | now rewrite IH]. Qed.

Lemma startswith_iff (p s : string) :
  startswith p s = true <-> exists t, s = p ++ t.
Proof.
  revert s; induction p as [|a p IH]; intros s; simpl.
  - split; [intros _; exists s; reflexivity | reflexivity].
  - destruct s as [|b s].
    + split; [discriminate | intros [t Ht]; discriminate].
    + rewrite andb_true_iff, Ascii.eqb_eq, IH. split.
      * intros [-> [t ->]]. exists t. reflexivity.
      * intros [t Ht]. injection Ht as -> ->. split; [reflexivity | now exists t].
Qed.

Lemma drop_append (p t : string) : drop (String.length p) (p ++ t) = t.
Proof. induction p as [|a p IH]; simpl; [now destruct t | exact IH]. Qed.

Lemma contains_iff (sub s : string) :
  contains sub s = true <-> exists pre post, s = pre ++ sub ++ post.
Proof.
  induction s as [|c s IH]; simpl.
  - destruct (startswith sub "") eqn:E.
    + split; [intros _ | reflexivity].
      apply startswith_iff in E as [t Ht]. exists "", t. exact Ht.
    + split; [discriminate|]. intros [pre [post Hs]].
      destruct pre; simpl in Hs.
      * assert (startswith sub "" = true) by (apply startswith_iff; now exists post).
        congruence.
      * discriminate.
  - destruct (startswith sub (String c s)) eqn:E.
    + split; [intros _ | reflexivity].
      apply startswith_iff in E as [t Ht]. exists "", t. exact Ht.
    + rewrite IH. split.
      * intros [pre [post ->]]. exists (String c pre), post. reflexivity.
      * intros [pre [post Hs]]. destruct pre as [|a pre]; simpl in Hs.
        -- assert (startswith sub (String c s) = true)
             by (apply startswith_iff; now exists post).
           congruence.
        -- injection Hs as _ ->. now exists pre, post.
Qed.

Lemma replace_first_absent (old new s : string) :
  contains old s = false -> replace_first old new s = s.
Proof.
  induction s as [|c s IH]; simpl.
  - destruct (startswith old ""); [discriminate | reflexivity].
  - destruct (startswith old (String c s)); [discriminate|].
    intros H. now rewrite IH.
Qed.

Lemma replace_first_present (old new s : string) :
  contains old s = true ->
  exists pre post,
    first_occurrence old s pre post /\ replace_first old new s = pre ++ new ++ post.
Proof.
  induction s as [|c s IH]; simpl.
  - destruct (startswith old "") eqn:E; [|discriminate]. intros _.
    apply startswith_iff in E as [t Ht]. exists "", t.
    split; [split; [exact Ht | intros; simpl; lia]|].
    simpl. rewrite Ht. now rewrite drop_append.
  - destruct (startswith old (String c s)) eqn:E.
    + intros _. apply startswith_iff in E as [t Ht]. exists "", t.
      split; [split; [exact Ht | intros; simpl; lia]|].
      simpl. rewrite Ht. now rewrite drop_append.
    + intros Hc. destruct (IH Hc) as [pre [post [[Hs Hmin] Hr]]].
      exists (String c pre), post. split; [split|].
      * simpl. now rewrite <- Hs.
      * intros pre' post' Hs'. destruct pre' as [|a pre']; simpl in Hs'.
        -- assert (startswith old (String c s) = true)
             by (apply startswith_iff; now exists post').
           congruence.
        -- injection Hs' as _ Hs'. simpl. apply le_n_S. now apply (Hmin pre' post').
      * simpl. now rewrite Hr.
Qed.

Local Open Scope list_scope.

(* ================================================================== *)
(** ** edit_file *)
(* ================================================================== *)

Lemma edit_step_pair `{Platform} (e : pyval) (f r c : string) (k : Z) :
  is_edit_pair e (f, r) ->
  (contains f c = true /\
   exists pre post, first_occurrence f c pre post /\
                    edit_step e c k = Ok ((pre ++ r ++ post)%string, (k + 1)%Z)) \/
  (contains f c = false /\ edit_step e c k = Ok (c, k)).
Proof.
  intros [d [-> [Hf [Hne Hr]]]]. simpl in *. unfold edit_step.
  rewrite Hf, Hr. simpl.
  destruct (String.eqb_spec f ""); [contradiction|]. simpl.
  destruct (contains f c) eqn:Hc.
  - left. split; [reflexivity|].
    destruct (replace_first_present f r c Hc) as [pre [post [Hfirst Hrep]]].
    exists pre, post. split; [exact Hfirst|]. now rewrite Hrep.
  - right. split; reflexivity.
Qed.

Lemma edit_loop_applies `{Platform} (es : list pyval) (pairs : list (string * string)) :
  Forall2 is_edit_pair es pairs ->
  forall (c : string) (k : Z),
  exists c' n, edit_loop es c k = Ok (c', (k + Z.of_nat n)%Z) /\
               applies_edits pairs c c' n.
Proof.
  induction 1 as [|e [f r] es pairs He _ IH]; intros c k.
  - exists c, 0. split; [simpl; f_equal; f_equal; lia | constructor].
  - destruct (edit_step_pair e f r c k He)
      as [[Hc [pre [post [Hfirst Hstep]]]] | [Hc Hstep]].
    + destruct (IH (pre ++ r ++ post)%string (k + 1)%Z) as [c' [n [Hloop Happ]]].
      exists c', (S n). split.
      * simpl. rewrite Hstep, Hloop. f_equal. f_equal. lia.
      * econstructor; eassumption.
    + destruct (IH c k) as [c' [n [Hloop Happ]]].
      exists c', n. split.
      * simpl. rewrite Hstep. exact Hloop.
      * apply edits_miss; [|exact Happ].
        intros Hex. apply contains_iff in Hex. congruence.
Qed.

Lemma truthy_PStr (s : string) : s <> "" -> truthy (PStr s) = true.
Proof. intros Hne. simpl. now destruct (String.eqb_spec s ""). Qed.

Lemma truthy_PList (l : list pyval) : l <> [] -> truthy (PList l) = true.
Proof. now destruct l. Qed.

(** What [edit_file] does on a readable regular file, given a list of edits. *)
Lemma edit_file_run `{Platform} (w : World) (call : pydict) (path : string)
      (f : file) (es : list pyval) :
  dict_get call "path" (PStr "") = PStr path -> path <> "" ->
  fs w (resolve path) = Some (File f) -> readable f = true ->
  dict_get call "edits" (PList []) = PList es -> es <> [] ->
  edit_file call w =
    match edit_loop es (universal_newlines (data f)) 0 with
    | Raise e => (Raise e, w)
    | Ok (content', changes) =>
        if (changes =? 0)%Z then (Ok (failure "No matches found"), w)
        else if writable f
        then (Ok (success ("Edited: " ++ resolve path ++ " ("
                             ++ str_of_Z changes ++ " changes)")),
              set_fs w (update (fs w) (resolve path)
                          (File (mkfile (utf8_len content') content' true true))))
        else (Ok (failure ("Permission denied: " ++ resolve path)), w)
    end.
Proof.
  intros Hpath Hne Hfs Hr Hedits Hes.
  unfold edit_file. rewrite Hpath, (truthy_PStr path Hne).
  unfold mbind, lift, to_path, try_except, read_text, write_text, ret, exists_.
  cbv beta iota delta [negb]. rewrite Hfs, Hedits, (truthy_PList es Hes).
  cbv beta iota. rewrite Hr. cbn [py_iter]. cbv beta iota.
  destruct (edit_loop es (universal_newlines (data f)) 0) as [[c' k]|e];
    [|reflexivity].
  destruct (k =? 0)%Z; [reflexivity|].
  rewrite Hfs, Hr. destruct (writable f); reflexivity.
Qed.

(** C9, as the code has it. On a readable file [edit_file] goes through the
    pairs of [edits] in list order; each pair whose find string occurs in the
    current content has its first occurrence replaced and counts one change.
    The call fails with "No matches found", writing nothing, when no pair
    matched; when at least one matched it writes the edited content and
    succeeds, unless the file may not be written, which is reported as a
    failure. *)
Theorem edit_file_first_occurrence_in_order `{Platform}
        (w : World) (call : pydict) (path : string) (f : file)
        (es : list pyval) (pairs : list (string * string)) :
  dict_get call "path" (PStr "") = PStr path -> path <> "" ->
  fs w (resolve path) = Some (File f) -> readable f = true ->
  dict_get call "edits" (PList []) = PList es -> es <> [] ->
  Forall2 is_edit_pair es pairs ->
  exists content' n,
    applies_edits pairs (universal_newlines (data f)) content' n /\
    edit_loop es (universal_newlines (data f)) 0 = Ok (content', Z.of_nat n) /\
    edit_file call w =
      if (n =? 0)%nat then (Ok (failure "No matches found"), w)
      else if writable f
      then (Ok (success ("Edited: " ++ resolve path ++ " ("
                           ++ str_of_Z (Z.of_nat n) ++ " changes)")),
            set_fs w (update (fs w) (resolve path)
                        (File (mkfile (utf8_len content') content' true true))))
      else (Ok (failure ("Permission denied: " ++ resolve path)), w).
Proof.
  intros Hpath Hne Hfs Hr Hedits Hes Hpairs.
  destruct (edit_loop_applies es pairs Hpairs (universal_newlines (data f)) 0%Z)
    as [c' [n [Hloop Happ]]].
  change (0 + Z.of_nat n)%Z with (Z.of_nat n) in Hloop.
  exists c', n. split; [exact Happ|]. split; [exact Hloop|].
  rewrite (edit_file_run w call path f es Hpath Hne Hfs Hr Hedits Hes), Hloop.
  destruct n as [|n]; [reflexivity|].
  replace (Z.of_nat (S n) =? 0)%Z with false by (symmetry; apply Z.eqb_neq; lia).
  reflexivity.
Qed.

(* ================================================================== *)
(** ** patch_file: the order of application *)
(* ================================================================== *)

Lemma insert_desc_perm (x : Z * pydict) (l : list (Z * pydict)) :
  Permutation (x :: l) (insert_desc x l).
Proof.
  induction l as [|y l IH]; simpl; [reflexivity|].
  destruct (fst x <? fst y)%Z; [|reflexivity].
  rewrite perm_swap. now apply perm_skip.
Qed.

Lemma sort_desc_perm (l : list (Z * pydict)) : Permutation l (sort_desc l).
Proof.
  induction l as [|x l IH]; simpl; [constructor|].
  rewrite <- insert_desc_perm. now apply perm_skip.
Qed.

Lemma insert_desc_sorted (x : Z * pydict) (l : list (Z * pydict)) :
  StronglySorted line_ge l -> StronglySorted line_ge (insert_desc x l).
Proof.
  induction 1 as [|y l Hs IH Hall]; simpl.
  - repeat constructor.
  - destruct (fst x <? fst y)%Z eqn:E.
    + constructor; [exact IH|].
      apply Forall_forall. intros z Hz.
      apply (Permutation_in _ (Permutation_sym (insert_desc_perm x l))) in Hz.
      destruct Hz as [<- | Hz].
      * unfold line_ge. apply Z.ltb_lt in E. lia.
      * rewrite Forall_forall in Hall. now apply Hall.
    + apply Z.ltb_ge in E. constructor; [now constructor|].
      constructor; [exact E|].
      eapply Forall_impl; [|exact Hall]. unfold line_ge. intros; lia.
Qed.

Lemma sort_desc_sorted (l : list (Z * pydict)) : StronglySorted line_ge (sort_desc l).
Proof.
  induction l as [|x l IH]; simpl; [constructor | now apply insert_desc_sorted].
Qed.

(** Stability: patches on one line keep the order of the call. *)
Lemma insert_desc_filter (k : Z) (x : Z * pydict) (l : list (Z * pydict)) :
  StronglySorted line_ge l ->
  filter (fun p => (fst p =? k)%Z) (insert_desc x l) =
  filter (fun p => (fst p =? k)%Z) (x :: l).
Proof.
  induction 1 as [|y l Hs IH Hall]; [reflexivity|].
  simpl insert_desc. destruct (fst x <? fst y)%Z eqn:E; [|reflexivity].
  apply Z.ltb_lt in E. simpl in *. rewrite IH.
  destruct (fst x =? k)%Z eqn:Ex, (fst y =? k)%Z eqn:Ey; try reflexivity.
  apply Z.eqb_eq in Ex, Ey. lia.
Qed.

Lemma sort_desc_stable (k : Z) (l : list (Z * pydict)) :
  filter (fun p => (fst p =? k)%Z) (sort_desc l) =
  filter (fun p => (fst p =? k)%Z) l.
Proof.
  induction l as [|x l IH]; [reflexivity|].
  simpl sort_desc. rewrite insert_desc_filter by apply sort_desc_sorted.
  simpl. now rewrite IH.
Qed.

(** With one patch per line the order of the call does not matter. *)
Lemma sorted_distinct_unique (l l' : list (Z * pydict)) :
  StronglySorted line_ge l -> StronglySorted line_ge l' ->
  NoDup (map fst l) -> Permutation l l' -> l = l'.
Proof.
  intros Hl. revert l'. induction Hl as [|x l Hs IH Hall]; intros l' Hl' Hnd Hp.
  - apply Permutation_nil in Hp. now subst.
  - destruct Hl' as [|y l' Hs' Hall'].
    + apply Permutation_sym, Permutation_nil in Hp. discriminate.
    + inversion Hnd as [|? ? Hnotin Hnd']; subst.
      assert (Hxy : x = y).
      { assert (Hx : In x (y :: l')) by (eapply Permutation_in; [exact Hp | now left]).
        assert (Hy : In y (x :: l))
          by (eapply Permutation_in; [exact (Permutation_sym Hp) | now left]).
        destruct Hx as [Hx | Hx]; [now symmetry|].
        destruct Hy as [Hy | Hy]; [exact Hy|].
        rewrite Forall_forall in Hall, Hall'.
        specialize (Hall _ Hy). specialize (Hall' _ Hx). unfold line_ge in *.
        exfalso. apply Hnotin. replace (fst x) with (fst y) by lia.
        now apply in_map. }
      subst y. f_equal. apply IH; [exact Hs' | exact Hnd' |].
      now apply Permutation_cons_inv in Hp.
Qed.

Lemma sort_desc_order_irrelevant (l l' : list (Z * pydict)) :
  NoDup (map fst l) -> Permutation l l' -> sort_desc l = sort_desc l'.
Proof.
  intros Hnd Hp. apply sorted_distinct_unique; try apply sort_desc_sorted.
  - eapply Permutation_NoDup; [|exact Hnd].
    apply Permutation_map, sort_desc_perm.
  - rewrite <- (sort_desc_perm l), <- (sort_desc_perm l'). exact Hp.
Qed.

(* ================================================================== *)
(** ** patch_file: what one patch leaves alone *)
(* ================================================================== *)

Lemma firstn_le_app {A} (i : nat) (a b : list A) :
  i <= length a -> firstn i (a ++ b) = firstn i a.
Proof.
  intros Hi. rewrite firstn_app.
  replace (i - length a) with 0 by lia. simpl. apply app_nil_r.
Qed.

Lemma firstn_firstn_le {A} (i j : nat) (l : list A) :
  i <= j -> firstn i (firstn j l) = firstn i l.
Proof. intros Hij. rewrite firstn_firstn. f_equal. lia. Qed.

Lemma firstn_weaken {A} (m i : nat) (l l' : list A) :
  m <= i -> firstn i l' = firstn i l -> firstn m l' = firstn m l.
Proof.
  intros Hm H. rewrite <- (firstn_firstn_le m i l'), <- (firstn_firstn_le m i l) by exact Hm.
  now rewrite H.
Qed.

Lemma in_range_spec {A} (i : Z) (l : list A) :
  in_range i l = true -> (0 <= i)%Z /\ Z.to_nat i < length l.
Proof.
  unfold in_range, len. rewrite andb_true_iff, Z.leb_le, Z.ltb_lt. lia.
Qed.

Lemma firstn_remove_at {A} (i : nat) (l : list A) :
  i < length l -> firstn i (remove_at i l) = firstn i l.
Proof.
  intros Hi. unfold remove_at.
  rewrite firstn_le_app by (rewrite length_firstn; lia).
  apply firstn_firstn_le. lia.
Qed.

Lemma firstn_set_at {A} (i : nat) (x : A) (l : list A) :
  i < length l -> firstn i (set_at i x l) = firstn i l.
Proof.
  intros Hi. unfold set_at.
  rewrite firstn_le_app by (rewrite length_firstn; lia).
  apply firstn_firstn_le. lia.
Qed.

Lemma firstn_insert_at {A} (i j : nat) (x : A) (l : list A) :
  i <= j -> j <= length l -> firstn i (insert_at j x l) = firstn i l.
Proof.
  intros Hij Hj. unfold insert_at.
  rewrite firstn_le_app by (rewrite length_firstn; lia).
  apply firstn_firstn_le. lia.
Qed.

(** A patch on line [line] leaves the lines before it as they are. *)
Lemma patch_step_frame (line : Z) (patch : pydict) (lines lines' : list pyval)
      (changes changes' : Z) :
  patch_step line patch lines changes = Ok (lines', changes') ->
  firstn (Z.to_nat (line - 1)) lines' = firstn (Z.to_nat (line - 1)) lines.
Proof.
  unfold patch_step.
  destruct (normalize_content _) as [pcontent|e]; [|discriminate].
  destruct (is_str _ "delete").
  - destruct (in_range _ lines) eqn:Hr; intros [= <- <-]; [|reflexivity].
    apply in_range_spec in Hr as [_ Hr]. now apply firstn_remove_at.
  - destruct (in_range _ lines) eqn:Hr.
    + apply in_range_spec in Hr as [H0 Hr].
      destruct (is_str _ "replace"); [intros [= <- <-]; now apply firstn_set_at|].
      destruct (is_str _ "insert_after");
        [intros [= <- <-]; apply firstn_insert_at; lia|].
      destruct (is_str _ "insert_before");
        [intros [= <- <-]; apply firstn_insert_at; lia|].
      now intros [= <- <-].
    + destruct (_ && _) eqn:Ha; intros [= <- <-]; [|reflexivity].
      apply andb_true_iff in Ha as [_ Ha]. apply Z.eqb_eq in Ha.
      rewrite Ha. unfold len. rewrite Nat2Z.id.
      rewrite firstn_le_app by lia. reflexivity.
Qed.

(** Patches on lines [L] and later leave the lines before [L] as they are. *)
Lemma patch_loop_frame (L : Z) (patches : list (Z * pydict)) :
  (forall q, In q patches -> (L <= fst q)%Z) ->
  forall (lines lines' : list pyval) (changes changes' : Z),
    patch_loop patches lines changes = Ok (lines', changes') ->
    firstn (Z.to_nat (L - 1)) lines' = firstn (Z.to_nat (L - 1)) lines.
Proof.
  induction patches as [|[line patch] rest IH]; intros HL lines lines' changes changes'.
  - now intros [= <- <-].
  - simpl. destruct (patch_step line patch lines changes) as [[mid ch]|e] eqn:Hstep;
      [|discriminate].
    intros Hloop.
    rewrite (IH (fun q Hq => HL q (or_intror Hq)) _ _ _ _ Hloop).
    apply patch_step_frame in Hstep.
    eapply firstn_weaken; [|exact Hstep].
    specialize (HL (line, patch) (or_introl eq_refl)). simpl in HL. lia.
Qed.

(** What a patch writes: a non-empty content ends with a newline. *)
Lemma normalize_content_newline (s : string) :
  s <> "" ->
  exists s', normalize_content (PStr s) = Ok (PStr s') /\
             ends_with_newline s' = true /\
             (s' = s \/ s' = (s ++ nl)%string).
Proof.
  intros Hne. unfold normalize_content. rewrite (truthy_PStr s Hne).
  destruct (ends_with_newline s) eqn:E.
  - exists s. auto.
  - exists (s ++ nl)%string. split; [reflexivity|]. split; [|now right].
    clear. induction s as [|c s IH]; [reflexivity|].
    simpl. destruct s; [reflexivity | exact IH].
Qed.

(* ================================================================== *)
(** ** patch_file: the handler *)
(* ================================================================== *)

(** What [patch_file] does on a readable regular file, given patches. *)
Lemma patch_file_run `{Platform} (w : World) (call : pydict) (path : string)
      (f : file) (patches : pyval) :
  dict_get call "path" (PStr "") = PStr path -> path <> "" ->
  fs w (resolve path) = Some (File f) -> readable f = true ->
  dict_get call "patches" (PList []) = patches -> truthy patches = true ->
  patch_file call w =
    match patch_content patches (universal_newlines (data f)) with
    | Raise e => (Raise e, w)
    | Ok (text, changes) =>
        if writable f
        then (Ok (success ("Patched: " ++ resolve path ++ " ("
                             ++ str_of_Z changes ++ " changes)")),
              set_fs w (update (fs w) (resolve path)
                          (File (mkfile (utf8_len text) text true true))))
        else (Ok (failure ("Permission denied: " ++ resolve path)), w)
    end.
Proof.
  intros Hpath Hne Hfs Hr Hpatches Htruthy.
  unfold patch_file. rewrite Hpath, (truthy_PStr path Hne).
  unfold mbind, lift, to_path, try_except, read_text, write_text, ret, exists_.
  cbv beta iota delta [negb]. rewrite Hfs, Hpatches, Htruthy.
  cbv beta iota. rewrite Hr. cbv beta iota.
  destruct (patch_content patches (universal_newlines (data f))) as [[text k]|e];
    [|reflexivity].
  rewrite Hfs, Hr. destruct (writable f); reflexivity.
Qed.

Lemma patch_step_lines (line : Z) (patch : pydict) (lines lines' : list pyval)
      (changes changes' : Z) (pcontent : pyval) :
  normalize_content (dict_get patch "content" (PStr "")) = Ok pcontent ->
  patch_step line patch lines changes = Ok (lines', changes') ->
  forall l, In l lines' -> In l lines \/ l = pcontent.
Proof.
  intros Hn. unfold patch_step. rewrite Hn.
  assert (Hfirst : forall i l, In l (firstn i lines) -> In l lines)
    by (intros i l Hl; rewrite <- (firstn_skipn i lines); apply in_or_app; now left).
  assert (Hskip : forall i l, In l (skipn i lines) -> In l lines)
    by (intros i l Hl; rewrite <- (firstn_skipn i lines); apply in_or_app; now right).
  assert (Hset : forall i j l, In l (firstn i lines ++ pcontent :: skipn j lines) ->
                               In l lines \/ l = pcontent).
  { intros i j l Hl. apply in_app_or in Hl as [Hl | [<- | Hl]]; eauto. }
  destruct (is_str _ "delete").
  - destruct (in_range _ lines); intros [= <- <-] l Hl; [|now left].
    unfold remove_at in Hl. apply in_app_or in Hl as [Hl | Hl]; eauto.
  - destruct (in_range _ lines).
    + destruct (is_str _ "replace"); [intros [= <- <-]; apply Hset|].
      destruct (is_str _ "insert_after"); [intros [= <- <-]; apply Hset|].
      destruct (is_str _ "insert_before"); [intros [= <- <-]; apply Hset|].
      intros [= <- <-] l Hl. now left.
    + destruct (_ && _); intros [= <- <-] l Hl; [|now left].
      apply in_app_or in Hl as [Hl | [<- | []]]; auto.
Qed.

(* ================================================================== *)
(** ** patch_file: line endings *)
(* ================================================================== *)

Local Open Scope string_scope.

Lemma ends_with_newline_last_is (s : string) :
  ends_with_newline s = last_is is_newline s.
Proof.
  induction s as [|c s IH]; [reflexivity|].
  simpl. destruct s; [reflexivity | exact IH].
Qed.

Lemma last_is_app (g : ascii -> bool) (a b : string) :
  b <> "" -> last_is g (a ++ b) = last_is g b.
Proof.
  intros Hb. induction a as [|c a IH]; [reflexivity|].
  simpl. rewrite IH. destruct (a ++ b) eqn:E; [|reflexivity].
  destruct a; simpl in E; [contradiction | discriminate].
Qed.

Lemma last_is_snoc (g : ascii -> bool) (a : string) (c : ascii) :
  last_is g (a ++ String c "") = g c.
Proof. rewrite last_is_app by discriminate. reflexivity. Qed.

Lemma lines_of_cons_char (g : ascii -> bool) (c : ascii) (l : string) (ls : list string) :
  l <> "" -> lines_of g (l :: ls) -> lines_of g (String c l :: ls).
Proof.
  intros Hl Hls. inversion Hls; subst.
  - now constructor.
  - constructor; [|assumption|assumption].
    simpl. destruct l; [contradiction | assumption].
Qed.

Lemma lines_of_head_nonempty (g : ascii -> bool) (l : string) (ls : list string) :
  lines_of g (l :: ls) -> l <> "".
Proof.
  intros Hls. inversion Hls; subst; [assumption|].
  intros ->. discriminate.
Qed.

Lemma concat_lines_cons (l : string) (ls : list string) :
  concat_lines (l :: ls) = l ++ concat_lines ls.
Proof. reflexivity. Qed.

Lemma splitlines_spec (g : ascii -> bool) (n : nat) :
  forall s, String.length s <= n ->
    string_all (fun c => implb (is_linebreak c) (g c)) s = true ->
    concat_lines (splitlines s) = s /\ lines_of g (splitlines s) /\
    (s <> "" -> splitlines s <> []).
Proof.
  induction n as [|n IH]; intros s Hlen Hall.
  - destruct s; [|simpl in Hlen; lia].
    split; [reflexivity | split; [constructor | congruence]].
  - destruct s as [|c s]; [split; [reflexivity | split; [constructor | congruence]]|].
    simpl in Hlen. simpl in Hall. apply andb_true_iff in Hall as [Hc Hall].
    assert (Hs : String.length s <= n) by lia.
    destruct (IH s Hs Hall) as [Hcat [Hlines Hne]].
    simpl splitlines. destruct (is_linebreak c) eqn:Hb.
    + simpl in Hc. destruct s as [|c2 s2].
      * split; [reflexivity | split; [constructor|]; discriminate].
      * specialize (Hne ltac:(discriminate)).
        destruct ((c =? CR)%char && (c2 =? newline)%char) eqn:Hcrlf.
        -- simpl in Hall. apply andb_true_iff in Hall as [Hc2 Hall2].
           assert (Hs2 : String.length s2 <= n) by (simpl in Hs; lia).
           destruct (IH s2 Hs2 Hall2) as [Hcat2 [Hlines2 Hne2]].
           apply andb_true_iff in Hcrlf as [_ Hnl]. apply Ascii.eqb_eq in Hnl. subst c2.
           assert (Hg : g newline = true).
           { destruct (is_linebreak newline) eqn:En; [exact Hc2 | discriminate En]. }
           split; [|split; [|discriminate]].
           ++ rewrite concat_lines_cons, Hcat2. reflexivity.
           ++ destruct (splitlines s2) eqn:E.
              ** constructor. discriminate.
              ** constructor; [exact Hg | discriminate | exact Hlines2].
        -- split; [|split; [|discriminate]].
           ++ rewrite concat_lines_cons, Hcat. reflexivity.
           ++ constructor; [exact Hc | exact Hne | exact Hlines].
    + destruct (splitlines s) as [|l ls] eqn:E.
      * destruct s; [|now specialize (Hne ltac:(discriminate))].
        split; [reflexivity | split; [constructor|]; discriminate].
      * split; [|split; [|discriminate]].
        -- rewrite concat_lines_cons. rewrite concat_lines_cons in Hcat.
           simpl. now rewrite Hcat.
        -- apply lines_of_cons_char; [|exact Hlines].
           eapply lines_of_head_nonempty; exact Hlines.
Qed.

Lemma string_all_trivial (s : string) :
  string_all (fun c => implb (is_linebreak c) (is_linebreak c)) s = true.
Proof.
  induction s as [|c s IH]; [reflexivity|].
  simpl. rewrite IH. now destruct (is_linebreak c).
Qed.

Lemma splitlines_concat (s : string) : concat_lines (splitlines s) = s.
Proof.
  apply (splitlines_spec is_linebreak (String.length s) s (le_n _)).
  apply string_all_trivial.
Qed.

(** After [normalize_last] the content has a newline at its end, and every
    line ends at a line boundary. *)
Lemma normalize_last_spec (g : ascii -> bool) (ls : list string) :
  g newline = true -> lines_of g ls ->
  Forall (fun l => last_is g l = true) (normalize_last ls) /\
  concat_lines (normalize_last ls) =
    if last_is is_newline (concat_lines ls) || match ls with [] => true | _ => false end
    then concat_lines ls else concat_lines ls ++ nl.
Proof.
  intros Hg. induction 1 as [|l Hl|l ls Hlast Hne Hls [IH1 IH2]].
  - split; [constructor | reflexivity].
  - simpl. rewrite append_nil_r, orb_false_r, ends_with_newline_last_is.
    destruct (last_is is_newline l) eqn:E; simpl; rewrite ?append_nil_r.
    + split; [|reflexivity]. constructor; [|constructor].
      clear Hl. induction l as [|c l IHl]; [discriminate|].
      simpl in *. destruct l; [|exact (IHl E)].
      unfold is_newline in E. apply Ascii.eqb_eq in E. now subst.
    + split; [|reflexivity]. constructor; [|constructor].
      unfold nl. now rewrite last_is_snoc.
  - destruct ls as [|l2 ls]; [contradiction|].
    change (normalize_last (l :: l2 :: ls)) with (l :: normalize_last (l2 :: ls)).
    split; [constructor; assumption|].
    change (concat_lines (l :: normalize_last (l2 :: ls)))
      with (l ++ concat_lines (normalize_last (l2 :: ls))).
    rewrite IH2. rewrite !orb_false_r.
    change (concat_lines (l :: l2 :: ls)) with (l ++ concat_lines (l2 :: ls)).
    assert (Hcat : concat_lines (l2 :: ls) <> "").
    { apply lines_of_head_nonempty in Hls. simpl. destruct l2; [contradiction | discriminate]. }
    rewrite (last_is_app _ l _ Hcat).
    destruct (last_is is_newline (concat_lines (l2 :: ls))); [reflexivity|].
    now rewrite append_assoc.
Qed.

Local Open Scope list_scope.

(* ================================================================== *)
(** ** patch_file: what the patched file ends with *)
(* ================================================================== *)

Lemma normalize_content_line_ok (g : ascii -> bool) (v p : pyval) :
  g newline = true -> normalize_content v = Ok p -> line_ok g p.
Proof.
  intros Hg. unfold normalize_content.
  destruct (truthy v) eqn:Ht.
  - destruct v; try discriminate. intros [= <-]. simpl. right.
    destruct (ends_with_newline s) eqn:E.
    + rewrite ends_with_newline_last_is in E. clear Ht.
      induction s as [|c s IH]; [discriminate|].
      simpl in *. destruct s; [|exact (IH E)].
      unfold is_newline in E. apply Ascii.eqb_eq in E. now subst.
    + unfold nl. now rewrite last_is_snoc.
  - intros [= <-]. destruct v; simpl; auto.
    left. simpl in Ht. now destruct (String.eqb_spec s "").
Qed.

Lemma patch_step_line_ok (g : ascii -> bool) (line : Z) (patch : pydict)
      (lines lines' : list pyval) (changes changes' : Z) :
  g newline = true ->
  patch_step line patch lines changes = Ok (lines', changes') ->
  Forall (line_ok g) lines -> Forall (line_ok g) lines'.
Proof.
  intros Hg Hstep Hall.
  destruct (normalize_content (dict_get patch "content" (PStr ""))) as [p|e] eqn:Hn.
  - apply Forall_forall. intros l Hl.
    destruct (patch_step_lines line patch lines lines' changes changes' p Hn Hstep l Hl)
      as [Hold | ->].
    + rewrite Forall_forall in Hall. now apply Hall.
    + eapply normalize_content_line_ok; eassumption.
  - unfold patch_step in Hstep. rewrite Hn in Hstep. discriminate.
Qed.

Lemma patch_loop_line_ok (g : ascii -> bool) (patches : list (Z * pydict)) :
  g newline = true ->
  forall (lines lines' : list pyval) (changes changes' : Z),
    patch_loop patches lines changes = Ok (lines', changes') ->
    Forall (line_ok g) lines -> Forall (line_ok g) lines'.
Proof.
  intros Hg. induction patches as [|[line patch] rest IH];
    intros lines lines' changes changes'.
  - now intros [= <- <-].
  - simpl. destruct (patch_step line patch lines changes) as [[mid ch]|e] eqn:Hstep;
      [|discriminate].
    intros Hloop Hall. eapply IH; [exact Hloop|].
    eapply patch_step_line_ok; eassumption.
Qed.

Lemma join_line_ok (g : ascii -> bool) (lines : list pyval) (text : string) :
  Forall (line_ok g) lines -> join lines = Ok text ->
  text = "" \/ last_is g text = true.
Proof.
  unfold join. revert text. induction lines as [|v lines IH]; intros text Hall.
  - intros [= <-]. now left.
  - inversion Hall as [|? ? Hv Hrest]; subst. cbn [strings_of].
    destruct v; try discriminate.
    destruct (strings_of lines) as [ss|] eqn:E; [|discriminate].
    intros Heq.
    assert (text = (s ++ concat_lines ss)%string) as ->
      by (injection Heq; intros <-; reflexivity).
    destruct (IH (concat_lines ss) Hrest eq_refl) as [Hempty | Hlast].
    + rewrite Hempty, append_nil_r. exact Hv.
    + right. rewrite last_is_app; [exact Hlast|].
      intros Hnil. rewrite Hnil in Hlast. discriminate.
Qed.

Lemma strings_of_map_PStr (ls : list string) : strings_of (map PStr ls) = Some ls.
Proof. induction ls as [|l ls IH]; [reflexivity|]. simpl. now rewrite IH. Qed.

Lemma Forall_line_ok_map (g : ascii -> bool) (ls : list string) :
  Forall (fun l => last_is g l = true) ls -> Forall (line_ok g) (map PStr ls).
Proof.
  induction 1; constructor; [simpl; now right | assumption].
Qed.

(** The change count goes up by one with each patch that changes the lines. *)
Lemma patch_step_changes (line : Z) (patch : pydict) (lines lines' : list pyval)
      (changes changes' : Z) :
  patch_step line patch lines changes = Ok (lines', changes') ->
  (changes' = changes /\ lines' = lines) \/ changes' = (changes + 1)%Z.
Proof.
  unfold patch_step.
  destruct (normalize_content _) as [pcontent|e]; [|discriminate].
  repeat match goal with
         | |- context [if ?b then _ else _] => destruct b
         end; intros [= <- <-]; auto.
Qed.

Lemma patch_loop_changes (patches : list (Z * pydict)) :
  forall (lines lines' : list pyval) (changes changes' : Z),
    patch_loop patches lines changes = Ok (lines', changes') ->
    (changes <= changes')%Z /\ (changes' = changes -> lines' = lines).
Proof.
  induction patches as [|[line patch] rest IH]; intros lines lines' changes changes'.
  - intros [= <- <-]. split; [lia | reflexivity].
  - simpl. destruct (patch_step line patch lines changes) as [[mid ch]|e] eqn:Hstep;
      [|discriminate].
    intros Hloop. destruct (IH _ _ _ _ Hloop) as [Hle Heq].
    destruct (patch_step_changes _ _ _ _ _ _ Hstep) as [[-> ->] | ->].
    + split; assumption.
    + split; [lia | intros; lia].
Qed.

(** The pieces of [patch_content]. *)
Lemma patch_content_inv (patches : pyval) (content text : string) (changes : Z) :
  patch_content patches content = Ok (text, changes) ->
  exists ps sorted lines',
    py_iter patches = Ok ps /\ sorted_patches ps = Ok sorted /\
    patch_loop sorted (map PStr (normalize_last (splitlines content))) 0
      = Ok (lines', changes) /\
    join lines' = Ok text.
Proof.
  unfold patch_content, bind.
  destruct (py_iter patches) as [ps|] eqn:E1; [|discriminate].
  destruct (sorted_patches ps) as [sorted|] eqn:E2; [|discriminate].
  destruct (patch_loop sorted _ 0) as [[lines' ch]|] eqn:E3; [|discriminate].
  cbn [fst snd]. destruct (join lines') as [t|] eqn:E4; [|discriminate].
  intros [= <- <-]. exists ps, sorted, lines'. auto.
Qed.

(* ================================================================== *)
(** ** patch_file: the lines after the patched ones *)
(* ================================================================== *)

Lemma remove_at_app {A} (i : nat) (a b : list A) :
  i < length a -> remove_at i (a ++ b) = remove_at i a ++ b.
Proof.
  intros Hi. unfold remove_at. rewrite firstn_app, skipn_app.
  replace (i - length a) with 0 by lia.
  replace (S i - length a) with 0 by lia.
  simpl. now rewrite app_nil_r, app_assoc.
Qed.

Lemma set_at_app {A} (i : nat) (x : A) (a b : list A) :
  i < length a -> set_at i x (a ++ b) = set_at i x a ++ b.
Proof.
  intros Hi. unfold set_at. rewrite firstn_app, skipn_app.
  replace (i - length a) with 0 by lia.
  replace (S i - length a) with 0 by lia.
  simpl. now rewrite app_nil_r, <- app_assoc.
Qed.

Lemma insert_at_app {A} (i : nat) (x : A) (a b : list A) :
  i <= length a -> insert_at i x (a ++ b) = insert_at i x a ++ b.
Proof.
  intros Hi. unfold insert_at. rewrite firstn_app, skipn_app.
  replace (i - length a) with 0 by lia.
  simpl. now rewrite app_nil_r, <- app_assoc.
Qed.

Lemma length_remove_at {A} (i : nat) (a : list A) :
  i < length a -> length (remove_at i a) = length a - 1.
Proof.
  intros Hi. unfold remove_at. rewrite length_app, length_firstn, length_skipn. lia.
Qed.

Lemma length_set_at {A} (i : nat) (x : A) (a : list A) :
  i < length a -> length (set_at i x a) = length a.
Proof.
  intros Hi. unfold set_at. rewrite length_app, length_firstn. cbn [length].
  rewrite length_skipn. lia.
Qed.

Lemma length_insert_at {A} (i : nat) (x : A) (a : list A) :
  i <= length a -> length (insert_at i x a) = S (length a).
Proof.
  intros Hi. unfold insert_at. rewrite length_app, length_firstn. cbn [length].
  rewrite length_skipn. lia.
Qed.

(** A patch on a line of [a] keeps what comes after [a]. *)
Lemma patch_step_tail (line : Z) (patch : pydict) (a b lines' : list pyval)
      (changes changes' : Z) :
  (line - 1 < len a)%Z ->
  patch_step line patch (a ++ b) changes = Ok (lines', changes') ->
  exists a', lines' = a' ++ b /\ (line - 1 <= len a')%Z.
Proof.
  intros Hline. unfold patch_step.
  destruct (normalize_content _) as [pcontent|e]; [|discriminate].
  assert (Hrange : in_range (line - 1) (a ++ b) = true ->
                   (0 <= line - 1)%Z /\ Z.to_nat (line - 1) < length a).
  { intros Hr. apply in_range_spec in Hr. unfold len in Hline. lia. }
  assert (Hout : in_range (line - 1) (a ++ b) = false -> (line - 1 < 0)%Z).
  { unfold in_range, len. rewrite andb_false_iff, Z.leb_gt, Z.ltb_ge, length_app.
    unfold len in Hline. lia. }
  assert (Hsame : exists a', a ++ b = a' ++ b /\ (line - 1 <= len a')%Z)
    by (exists a; split; [reflexivity | lia]).
  destruct (is_str _ "delete").
  - destruct (in_range _ (a ++ b)) eqn:Hr; intros [= <- <-]; [|exact Hsame].
    destruct (Hrange eq_refl) as [H0 Hi].
    exists (remove_at (Z.to_nat (line - 1)) a). split; [now apply remove_at_app|].
    unfold len. rewrite length_remove_at by exact Hi. lia.
  - destruct (in_range _ (a ++ b)) eqn:Hr.
    + destruct (Hrange eq_refl) as [H0 Hi].
      destruct (is_str _ "replace").
      { intros [= <- <-]. exists (set_at (Z.to_nat (line - 1)) pcontent a).
        split; [now apply set_at_app|].
        unfold len. rewrite length_set_at by exact Hi. lia. }
      destruct (is_str _ "insert_after").
      { intros [= <- <-]. exists (insert_at (Z.to_nat (line - 1 + 1)) pcontent a).
        split; [apply insert_at_app; lia|].
        unfold len. rewrite length_insert_at by lia. lia. }
      destruct (is_str _ "insert_before").
      { intros [= <- <-]. exists (insert_at (Z.to_nat (line - 1)) pcontent a).
        split; [apply insert_at_app; lia|].
        unfold len. rewrite length_insert_at by lia. lia. }
      intros [= <- <-]. exact Hsame.
    + specialize (Hout eq_refl).
      replace (line - 1 =? len (a ++ b))%Z with false
        by (symmetry; apply Z.eqb_neq; pose proof (len_nonneg (a ++ b)); lia).
      rewrite andb_false_r. intros [= <- <-]. exact Hsame.
Qed.

(** Patches on distinct lines of [a], highest first, keep what comes after [a]. *)
Lemma patch_loop_tail (patches : list (Z * pydict)) :
  StronglySorted (fun p q => (fst q < fst p)%Z) patches ->
  forall (a b lines' : list pyval) (changes changes' : Z),
    (forall q, In q patches -> (fst q - 1 < len a)%Z) ->
    patch_loop patches (a ++ b) changes = Ok (lines', changes') ->
    exists a', lines' = a' ++ b.
Proof.
  induction 1 as [|[line patch] rest Hs IH Hall]; intros a b lines' changes changes' Hlt.
  - intros [= <- <-]. now exists a.
  - simpl. destruct (patch_step line patch (a ++ b) changes) as [[mid ch]|e] eqn:Hstep;
      [|discriminate].
    intros Hloop.
    apply patch_step_tail in Hstep as [a' [-> Hlen]];
      [|exact (Hlt (line, patch) (or_introl eq_refl))].
    eapply IH; [|exact Hloop].
    intros q Hq. rewrite Forall_forall in Hall. specialize (Hall q Hq).
    simpl in Hall. lia.
Qed.

Lemma sorted_distinct_strict (l : list (Z * pydict)) :
  StronglySorted line_ge l -> NoDup (map fst l) ->
  StronglySorted (fun p q => (fst q < fst p)%Z) l.
Proof.
  induction 1 as [|x l Hs IH Hall]; intros Hnd; [constructor|].
  inversion Hnd as [|? ? Hnotin Hnd']; subst.
  constructor; [now apply IH|].
  apply Forall_forall. intros y Hy.
  rewrite Forall_forall in Hall. specialize (Hall y Hy). unfold line_ge in Hall.
  assert (fst y <> fst x) by (intros Heq; apply Hnotin; rewrite <- Heq; now apply in_map).
  lia.
Qed.

Lemma normalize_last_snoc (init : list string) (l : string) :
  normalize_last (init ++ [l]) =
  init ++ [if ends_with_newline l then l else (l ++ nl)%string].
Proof.
  induction init as [|x init IH]; simpl.
  - now destruct (ends_with_newline l).
  - rewrite <- IH. destruct (init ++ [l]) eqn:E; [|reflexivity].
    now destruct init.
Qed.

Lemma join_app_str (a : list pyval) (s text : string) :
  join (a ++ [PStr s]) = Ok text -> exists before, text = (before ++ s)%string.
Proof.
  unfold join. revert text. induction a as [|v a IH]; intros text.
  - intros Heq. exists ""%string.
    assert (text = (s ++ "")%string) as -> by (injection Heq; intros <-; reflexivity).
    now rewrite append_nil_r.
  - cbn [app strings_of]. destruct v; try discriminate.
    destruct (strings_of (a ++ [PStr s])) as [ss|] eqn:E; [|discriminate].
    intros Heq.
    assert (text = (s0 ++ concat_lines ss)%string) as ->
      by (injection Heq; intros <-; reflexivity).
    destruct (IH (concat_lines ss) eq_refl) as [before ->].
    exists (s0 ++ before)%string. now rewrite append_assoc.
Qed.
(* ================================================================== *)
(** ** patch_file: patches on distinct lines, line by line *)
(* ================================================================== *)

Lemma patch_on_cons (L : Z) (p : pydict) (rest : list (Z * pydict)) (i : Z) :
  patch_on ((L, p) :: rest) i = if (L =? i)%Z then Some p else patch_on rest i.
Proof. unfold patch_on. cbn [find fst]. now destruct (L =? i)%Z. Qed.

Lemma patch_on_none (patches : list (Z * pydict)) (i : Z) :
  (forall q, In q patches -> fst q <> i) -> patch_on patches i = None.
Proof.
  intros Hnone. unfold patch_on.
  destruct (find _ patches) as [q|] eqn:Hfind; [|reflexivity].
  apply find_some in Hfind as [Hin Hq]. apply Z.eqb_eq in Hq.
  now destruct (Hnone q Hin).
Qed.

(** Patches on lines before [i] have no say on the lines from [i] on. *)
Lemma each_line_patched_none (patches : list (Z * pydict)) (lines : list pyval) :
  forall i : Z,
    (forall q, In q patches -> (fst q < i)%Z) ->
    each_line_patched patches i lines = lines.
Proof.
  induction lines as [|l rest IH]; intros i Hlow; cbn [each_line_patched];
    rewrite patch_on_none by (intros q Hq; specialize (Hlow q Hq); lia).
  - reflexivity.
  - cbn [app]. f_equal. apply IH. intros q Hq. specialize (Hlow q Hq). lia.
Qed.

Lemma written_normalized (patch : pydict) (pcontent : pyval) :
  normalize_content (dict_get patch "content" (PStr "")) = Ok pcontent ->
  written patch = pcontent.
Proof. unfold written. now intros ->. Qed.

Lemma in_range_cons {A} (k : Z) (l : A) (ls : list A) :
  (1 <= k)%Z -> in_range k (l :: ls) = in_range (k - 1) ls.
Proof.
  intros Hk. unfold in_range, len. cbn [length]. rewrite Nat2Z.inj_succ.
  destruct (Z.leb_spec 0 k), (Z.leb_spec 0 (k - 1)); try lia.
  cbn [andb]. destruct (Z.ltb_spec k (Z.succ (Z.of_nat (length ls)))),
                (Z.ltb_spec (k - 1) (Z.of_nat (length ls))); try lia; reflexivity.
Qed.

Lemma to_nat_pred (k : Z) : (1 <= k)%Z -> Z.to_nat k = S (Z.to_nat (k - 1)).
Proof. intros Hk. lia. Qed.

(** A patch on a line after the first one works on the lines after the
    first one. *)
Lemma patch_step_cons (line : Z) (patch : pydict) (l : pyval) (ls : list pyval)
      (changes : Z) :
  (2 <= line)%Z ->
  patch_step line patch (l :: ls) changes =
    match patch_step (line - 1) patch ls changes with
    | Ok (ls', changes') => Ok (l :: ls', changes')
    | Raise e => Raise e
    end.
Proof.
  intros Hline. unfold patch_step.
  destruct (normalize_content _) as [pcontent|e]; [|reflexivity].
  rewrite (in_range_cons (line - 1) l ls) by lia.
  assert (Hlen : (line - 1 =? len (l :: ls))%Z = (line - 1 - 1 =? len ls)%Z).
  { unfold len. cbn [length]. rewrite Nat2Z.inj_succ.
    destruct (Z.eqb_spec (line - 1) (Z.succ (Z.of_nat (length ls)))),
             (Z.eqb_spec (line - 1 - 1) (Z.of_nat (length ls))); lia || reflexivity. }
  rewrite Hlen.
  assert (Hn : Z.to_nat (line - 1) = S (Z.to_nat (line - 1 - 1))) by lia.
  assert (Hn1 : Z.to_nat (line - 1 + 1) = S (Z.to_nat (line - 1 - 1 + 1))) by lia.
  unfold remove_at, set_at, insert_at. rewrite Hn, Hn1. cbn [firstn skipn app].
  repeat match goal with
         | |- context [if ?b then _ else _] => destruct b
         end; reflexivity.
Qed.

(** A patch on the first line. *)
Lemma patch_step_head (patch : pydict) (l : pyval) (ls lines' : list pyval)
      (changes changes' : Z) :
  patch_step 1 patch (l :: ls) changes = Ok (lines', changes') ->
  lines' = patched_line patch l ++ ls.
Proof.
  unfold patch_step, patched_line.
  destruct (normalize_content _) as [pcontent|e] eqn:Hn; [|discriminate].
  rewrite (written_normalized patch pcontent Hn).
  change (in_range (1 - 1) (l :: ls)) with (0 <? len (l :: ls))%Z.
  replace (0 <? len (l :: ls))%Z with true
    by (symmetry; apply Z.ltb_lt; unfold len; cbn [length]; lia).
  repeat match goal with
         | |- context [if ?b then _ else _] => destruct b
         end; now intros [= <- <-].
Qed.

(** A patch for a file that has no lines left. *)
Lemma patch_step_nil (line : Z) (patch : pydict) (lines' : list pyval)
      (changes changes' : Z) :
  patch_step line patch [] changes = Ok (lines', changes') ->
  lines' = if (line =? 1)%Z then appended patch else [].
Proof.
  unfold patch_step, appended.
  destruct (normalize_content _) as [pcontent|e] eqn:Hn; [|discriminate].
  rewrite (written_normalized patch pcontent Hn).
  assert (Hr : in_range (line - 1) (@nil pyval) = false).
  { unfold in_range, len. cbn [length].
    destruct (Z.leb_spec 0 (line - 1)), (Z.ltb_spec (line - 1) (Z.of_nat 0));
      try reflexivity; lia. }
  rewrite Hr.
  assert (Hl : (line - 1 =? len (@nil pyval))%Z = (line =? 1)%Z).
  { unfold len. cbn [length].
    destruct (Z.eqb_spec (line - 1) (Z.of_nat 0)), (Z.eqb_spec line 1);
      try reflexivity; lia. }
  rewrite Hl.
  destruct (is_str _ "delete") eqn:Hd.
  - intros [= <- <-].
    assert (Ha : is_str (dict_get patch "action" (PStr "replace")) "insert_after" = false
                 /\ is_str (dict_get patch "action" (PStr "replace")) "insert_before"
                    = false).
    { unfold is_str in *. destruct (dict_get patch "action" (PStr "replace"));
        try (split; reflexivity).
      apply String.eqb_eq in Hd. subst. split; reflexivity. }
    destruct Ha as [-> ->]. now destruct (line =? 1)%Z.
  - destruct (_ || _), (line =? 1)%Z; now intros [= <- <-].
Qed.

(** A patch on line 0 or before changes nothing. *)
Lemma patch_step_below (line : Z) (patch : pydict) (lines lines' : list pyval)
      (changes changes' : Z) :
  (line < 1)%Z ->
  patch_step line patch lines changes = Ok (lines', changes') ->
  lines' = lines /\ changes' = changes.
Proof.
  intros Hline. unfold patch_step.
  destruct (normalize_content _) as [pcontent|e]; [|discriminate].
  assert (Hr : in_range (line - 1) lines = false).
  { unfold in_range. destruct (Z.leb_spec 0 (line - 1)); [lia | reflexivity]. }
  rewrite Hr.
  replace (line - 1 =? len lines)%Z with false
    by (symmetry; apply Z.eqb_neq; pose proof (len_nonneg lines); lia).
  rewrite andb_false_r.
  destruct (is_str _ "delete"); now intros [= <- <-].
Qed.

(** The patch on line [L] goes first; the patches on the lines before [L]
    then find every line where it was. *)
Lemma each_line_patched_step (L : Z) (p : pydict) (rest : list (Z * pydict))
      (lines : list pyval) :
  (forall q, In q rest -> (fst q < L)%Z) ->
  forall (i : Z) (lines1 : list pyval) (changes changes1 : Z),
    (i <= L)%Z ->
    patch_step (L - i + 1) p lines changes = Ok (lines1, changes1) ->
    each_line_patched rest i lines1 = each_line_patched ((L, p) :: rest) i lines.
Proof.
  intros Hrest. induction lines as [|l ls IH]; intros i lines1 changes changes1 Hi Hstep.
  - apply patch_step_nil in Hstep. cbn [each_line_patched].
    rewrite patch_on_cons.
    destruct (Z.eqb_spec L i) as [->|Hne].
    + replace (i - i + 1 =? 1)%Z with true in Hstep by (symmetry; apply Z.eqb_eq; lia).
      subst lines1. apply each_line_patched_none. exact Hrest.
    + replace (L - i + 1 =? 1)%Z with false in Hstep by (symmetry; apply Z.eqb_neq; lia).
      subst lines1. reflexivity.
  - cbn [each_line_patched]. rewrite patch_on_cons.
    destruct (Z.eqb_spec L i) as [->|Hne].
    + replace (i - i + 1)%Z with 1%Z in Hstep by lia.
      apply patch_step_head in Hstep. subst lines1.
      rewrite each_line_patched_none by exact Hrest.
      f_equal. symmetry. apply each_line_patched_none.
      intros q [<-|Hq]; [simpl; lia | specialize (Hrest q Hq); lia].
    + rewrite patch_step_cons in Hstep by lia.
      destruct (patch_step (L - i + 1 - 1) p ls changes) as [[ls' c']|e] eqn:Hls;
        [|discriminate].
      injection Hstep as <- <-. cbn [each_line_patched]. f_equal.
      apply (IH (i + 1)%Z ls' changes c'); [lia|].
      replace (L - (i + 1) + 1)%Z with (L - i + 1 - 1)%Z by lia. exact Hls.
Qed.

(** Patches on distinct lines, highest first: the loop gives every line
    with its own patch applied to it. *)
Lemma patch_loop_each_line (patches : list (Z * pydict)) :
  StronglySorted (fun p q => (fst q < fst p)%Z) patches ->
  forall (lines lines' : list pyval) (changes changes' : Z),
    patch_loop patches lines changes = Ok (lines', changes') ->
    lines' = each_line_patched patches 1 lines.
Proof.
  induction 1 as [|[L p] rest Hs IH Hall]; intros lines lines' changes changes'.
  - intros [= <- <-]. symmetry. apply each_line_patched_none. intros q [].
  - cbn [patch_loop].
    destruct (patch_step L p lines changes) as [[mid ch]|e] eqn:Hstep; [|discriminate].
    intros Hloop. rewrite (IH _ _ _ _ Hloop).
    rewrite Forall_forall in Hall.
    destruct (Z.le_gt_cases 1 L) as [Hpos|Hlow].
    + apply (each_line_patched_step L p rest lines Hall 1%Z mid changes ch Hpos).
      replace (L - 1 + 1)%Z with L by lia. exact Hstep.
    + apply patch_step_below in Hstep as [-> _]; [|lia].
      rewrite !each_line_patched_none; [reflexivity | |].
      * intros q [<-|Hq]; [simpl; lia | specialize (Hall q Hq); simpl in Hall; lia].
      * intros q Hq. specialize (Hall q Hq). simpl in Hall. lia.
Qed.

Lemma find_line_perm (i : Z) (l l' : list (Z * pydict)) :
  Permutation l l' -> NoDup (map fst l) ->
  find (fun q => (fst q =? i)%Z) l = find (fun q => (fst q =? i)%Z) l'.
Proof.
  induction 1 as [|x l l' Hp IH|x y l|l l' l'' Hp1 IH1 Hp2 IH2]; intros Hnd.
  - reflexivity.
  - cbn [find]. destruct (fst x =? i)%Z; [reflexivity|].
    apply IH. now inversion Hnd.
  - cbn [find]. destruct (Z.eqb_spec (fst y) i) as [Hy|Hy];
      destruct (Z.eqb_spec (fst x) i) as [Hx|Hx]; try reflexivity.
    exfalso. inversion Hnd as [|? ? Hnotin _]; subst. apply Hnotin.
    cbn [map]. left. congruence.
  - rewrite IH1 by exact Hnd. apply IH2.
    eapply Permutation_NoDup; [|exact Hnd]. now apply Permutation_map.
Qed.

Lemma each_line_patched_ext (a b : list (Z * pydict)) (lines : list pyval) :
  (forall i, patch_on a i = patch_on b i) ->
  forall i, each_line_patched a i lines = each_line_patched b i lines.
Proof.
  intros Hab. induction lines as [|l rest IH]; intros i; cbn [each_line_patched];
    rewrite Hab; [reflexivity|]. now rewrite IH.
Qed.

(** One patch per line: the lines written are those of the call, whatever
    its order. *)
Lemma patch_loop_distinct_lines (keyed : list (Z * pydict)) :
  NoDup (map fst keyed) ->
  forall (lines lines' : list pyval) (changes changes' : Z),
    patch_loop (sort_desc keyed) lines changes = Ok (lines', changes') ->
    lines' = each_line_patched keyed 1 lines.
Proof.
  intros Hnd lines lines' changes changes' Hloop.
  assert (Hperm : Permutation keyed (sort_desc keyed)) by apply sort_desc_perm.
  rewrite (each_line_patched_ext keyed (sort_desc keyed) lines).
  - eapply patch_loop_each_line; [|exact Hloop].
    apply sorted_distinct_strict; [apply sort_desc_sorted|].
    eapply Permutation_NoDup; [|exact Hnd]. now apply Permutation_map.
  - intros i. unfold patch_on. now rewrite (find_line_perm i keyed (sort_desc keyed)).
Qed.
(** C8, as the code has it. [patch_file] applies the patches sorted by line,
    highest line first, whatever the order of the call; patches on one line
    keep the order of the call. A patch on line [L] leaves the lines before
    [L] untouched. When no two patches are on one line, no patch shifts the
    line another one is applied to: the lines written are the lines of the
    file, each with the patch on its number applied to it alone, and after
    the last line what a patch on the next number inserts. (Two patches on
    one line are another matter: the first can move the line the second is
    applied to.) A non-empty content is written with a newline at its end,
    and a patch adds nothing but its content to the lines. The patches
    [[{line:2, delete}, {line:1, replace, "X"}]] turn ["a\n", "b\n", "c\n"]
    into ["X\n", "c\n"]. *)
Theorem patch_file_applies_descending `{Platform} :
  (forall (w : World) (call : pydict) (path : string) (f : file) (ps : list pyval),
      dict_get call "path" (PStr "") = PStr path -> path <> "" ->
      fs w (resolve path) = Some (File f) -> readable f = true ->
      dict_get call "patches" (PList []) = PList ps -> ps <> [] ->
      forall keyed : list (Z * pydict),
        patch_keys ps = Ok (map (fun q => (PInt (fst q), snd q)) keyed) ->
        let lines := map PStr (normalize_last (splitlines (universal_newlines (data f)))) in
        patch_file call w =
          match patch_loop (sort_desc keyed) lines 0 with
          | Raise e => (Raise e, w)
          | Ok (lines', changes) =>
              match join lines' with
              | Raise e => (Raise e, w)
              | Ok text =>
                  if writable f
                  then (Ok (success ("Patched: " ++ resolve path ++ " ("
                                       ++ str_of_Z changes ++ " changes)")),
                        set_fs w (update (fs w) (resolve path)
                                    (File (mkfile (utf8_len text) text true true))))
                  else (Ok (failure ("Permission denied: " ++ resolve path)), w)
              end
          end) /\
  (forall keyed : list (Z * pydict),
      Permutation keyed (sort_desc keyed) /\
      StronglySorted line_ge (sort_desc keyed) /\
      (forall k, filter (fun p => (fst p =? k)%Z) (sort_desc keyed) =
                 filter (fun p => (fst p =? k)%Z) keyed) /\
      (forall keyed', NoDup (map fst keyed) -> Permutation keyed keyed' ->
                      sort_desc keyed' = sort_desc keyed)) /\
  (forall (L : Z) (applied : list (Z * pydict)) (lines lines' : list pyval)
          (changes changes' : Z),
      (forall q, In q applied -> (L <= fst q)%Z) ->
      patch_loop applied lines changes = Ok (lines', changes') ->
      firstn (Z.to_nat (L - 1)) lines' = firstn (Z.to_nat (L - 1)) lines) /\
  (forall (keyed : list (Z * pydict)) (lines lines' : list pyval) (changes changes' : Z),
      NoDup (map fst keyed) ->
      patch_loop (sort_desc keyed) lines changes = Ok (lines', changes') ->
      lines' = each_line_patched keyed 1 lines) /\
  (forall (line : Z) (patch : pydict) (s : string),
      dict_get patch "content" (PStr "") = PStr s -> s <> "" ->
      exists s', ends_with_newline s' = true /\
                 (s' = s \/ s' = (s ++ nl)%string) /\
                 forall lines lines' changes changes',
                   patch_step line patch lines changes = Ok (lines', changes') ->
                   forall l, In l lines' -> In l lines \/ l = PStr s') /\
  patch_content sample_patches sample_abc = Ok (("X" ++ nl ++ "c" ++ nl)%string, 2%Z).
Proof.
  split; [|split; [|split; [|split; [|split]]]].
  - intros w call path f ps Hpath Hne Hfs Hr Hps Hnil keyed Hkeys lines.
    rewrite (patch_file_run w call path f (PList ps) Hpath Hne Hfs Hr Hps
               (truthy_PList ps Hnil)).
    unfold patch_content, sorted_patches. simpl py_iter. unfold bind at 1.
    rewrite Hkeys.
    assert (Hint : int_keys (map (fun q => (PInt (fst q), snd q)) keyed) = Some keyed).
    { clear. induction keyed as [|[z d] l IH]; [reflexivity|].
      simpl. now rewrite IH. }
    rewrite Hint. unfold bind at 1. fold lines.
    destruct (patch_loop (sort_desc keyed) lines 0) as [[lines' changes]|e];
      [|reflexivity].
    simpl. destruct (join lines'); reflexivity.
  - intros keyed. split; [apply sort_desc_perm|].
    split; [apply sort_desc_sorted|].
    split; [intros k; apply sort_desc_stable|].
    intros keyed' Hnd Hp. symmetry. now apply sort_desc_order_irrelevant.
  - intros L applied lines lines' changes changes' HL Hloop.
    exact (patch_loop_frame L applied HL lines lines' changes changes' Hloop).
  - intros keyed lines lines' changes changes' Hnd Hloop.
    exact (patch_loop_distinct_lines keyed Hnd lines lines' changes changes' Hloop).
  - intros line patch s Hc Hne.
    destruct (normalize_content_newline s Hne) as [s' [Hn [Hend Hs']]].
    exists s'. split; [exact Hend|]. split; [exact Hs'|].
    intros lines lines' changes changes' Hstep.
    eapply patch_step_lines; [|exact Hstep]. now rewrite Hc.
  - vm_compute. reflexivity.
Qed.
(* ================================================================== *)
(** ** patch_file: the final line and the patches around it *)
(* ================================================================== *)

Lemma universal_newlines_no_cr (n : nat) :
  forall s : string,
    String.length s <= n ->
    string_all (fun c => negb (c =? CR)%char) (universal_newlines s) = true.
Proof.
  induction n as [|n IH]; intros s Hlen.
  - destruct s; [reflexivity | simpl in Hlen; lia].
  - destruct s as [|c s]; [reflexivity|]. simpl in Hlen.
    cbn [universal_newlines]. destruct (c =? CR)%char eqn:Hc.
    + destruct s as [|c2 s2]; [reflexivity|].
      destruct (c2 =? newline)%char; cbn [string_all];
        (rewrite IH by (simpl in *; lia)); reflexivity.
    + cbn [string_all]. rewrite Hc. cbn [negb andb]. apply IH. lia.
Qed.

Lemma string_all_impl (f g : ascii -> bool) (s : string) :
  (forall c, f c = true -> g c = true) ->
  string_all f s = true -> string_all g s = true.
Proof.
  intros Hfg. induction s as [|c s IH]; [reflexivity|].
  cbn [string_all]. rewrite !andb_true_iff. intros [Hc Hs]. auto.
Qed.

(** In a text read with universal newlines every line boundary is one of
    those that are left. *)
Lemma universal_newlines_boundaries (s : string) :
  string_all (fun c => implb (is_linebreak c) (is_linebreak_read c))
             (universal_newlines s) = true.
Proof.
  apply (string_all_impl (fun c => negb (c =? CR)%char)).
  - intros c Hc. unfold is_linebreak_read. rewrite Hc, andb_true_r.
    now destruct (is_linebreak c).
  - apply (universal_newlines_no_cr (String.length s)). lia.
Qed.

(** The line boundaries that are left, one by one. *)
Lemma is_linebreak_read_chars (c : ascii) :
  is_linebreak_read c = true <->
  In (nat_of_ascii c) [10; 11; 12; 28; 29; 30; 133].
Proof.
  destruct c as [[|] [|] [|] [|] [|] [|] [|] [|]]; vm_compute;
    (split; [intros H; first [discriminate H | tauto]
            | intros H; first [reflexivity | exfalso; intuition discriminate]]).
Qed.

Lemma patch_loop_app (upper lower : list (Z * pydict)) :
  forall (lines lines' : list pyval) (changes changes' : Z),
    patch_loop (upper ++ lower) lines changes = Ok (lines', changes') ->
    exists mid ch,
      patch_loop upper lines changes = Ok (mid, ch) /\
      patch_loop lower mid ch = Ok (lines', changes').
Proof.
  induction upper as [|[line patch] upper IH]; intros lines lines' changes changes'.
  - intros Hloop. now exists lines, changes.
  - cbn [app patch_loop].
    destruct (patch_step line patch lines changes) as [[mid ch]|e]; [|discriminate].
    apply IH.
Qed.

(** A list in descending order is the patches on the lines after [n], then
    those on the lines up to [n]. *)
Lemma sorted_split (n : Z) (l : list (Z * pydict)) :
  StronglySorted line_ge l ->
  exists upper lower,
    l = upper ++ lower /\
    (forall q, In q upper -> (n < fst q)%Z) /\
    (forall q, In q lower -> (fst q <= n)%Z) /\
    StronglySorted line_ge lower.
Proof.
  induction 1 as [|x l Hs IH Hall].
  - exists [], []. repeat split; try (intros q []); constructor.
  - destruct (Z.lt_ge_cases n (fst x)) as [Hup|Hlow].
    + destruct IH as [upper [lower [-> [Hu [Hl Hsl]]]]].
      exists (x :: upper), lower. repeat split; try assumption.
      intros q [<-|Hq]; [exact Hup | now apply Hu].
    + exists [], (x :: l). repeat split.
      * intros q [].
      * rewrite Forall_forall in Hall.
        intros q [<-|Hq]; [lia | specialize (Hall q Hq); unfold line_ge in Hall; lia].
      * now constructor.
Qed.

Lemma filter_none {A} (f : A -> bool) (l : list A) :
  (forall x, In x l -> f x = false) -> filter f l = [].
Proof.
  induction l as [|x l IH]; intros Hnone; [reflexivity|].
  cbn [filter]. rewrite (Hnone x (or_introl eq_refl)).
  apply IH. intros y Hy. apply Hnone. now right.
Qed.

(** A patch on a line after the one that follows the last changes nothing. *)
Lemma patch_step_beyond (line : Z) (patch : pydict) (lines lines' : list pyval)
      (changes changes' : Z) :
  (len lines + 1 < line)%Z ->
  patch_step line patch lines changes = Ok (lines', changes') ->
  lines' = lines /\ changes' = changes.
Proof.
  intros Hline. unfold patch_step.
  destruct (normalize_content _) as [pcontent|e]; [|discriminate].
  assert (Hr : in_range (line - 1) lines = false).
  { unfold in_range. destruct (Z.ltb_spec (line - 1) (len lines)); [lia|].
    apply andb_false_r. }
  rewrite Hr.
  replace (line - 1 =? len lines)%Z with false by (symmetry; apply Z.eqb_neq; lia).
  rewrite andb_false_r.
  destruct (is_str _ "delete"); now intros [= <- <-].
Qed.

Lemma patch_loop_beyond (patches : list (Z * pydict)) :
  forall (lines lines' : list pyval) (changes changes' : Z),
    (forall q, In q patches -> (len lines + 1 < fst q)%Z) ->
    patch_loop patches lines changes = Ok (lines', changes') ->
    lines' = lines.
Proof.
  induction patches as [|[line patch] rest IH]; intros lines lines' changes changes' Hfar.
  - now intros [= <- <-].
  - cbn [patch_loop].
    destruct (patch_step line patch lines changes) as [[mid ch]|e] eqn:Hstep;
      [|discriminate].
    apply patch_step_beyond in Hstep as [-> ->];
      [|exact (Hfar (line, patch) (or_introl eq_refl))].
    apply IH. intros q Hq. apply Hfar. now right.
Qed.

(** Patches on lines of [a], highest first and no two on one line of the
    file, keep what comes after [a]. *)
Lemma patch_loop_tail_low (patches : list (Z * pydict)) :
  StronglySorted line_ge patches ->
  NoDup (map fst (filter (fun q => (0 <? fst q)%Z) patches)) ->
  forall (a b lines' : list pyval) (changes changes' : Z),
    (forall q, In q patches -> (fst q - 1 < len a)%Z) ->
    patch_loop patches (a ++ b) changes = Ok (lines', changes') ->
    exists a', lines' = a' ++ b.
Proof.
  induction 1 as [|[line patch] rest Hs IH Hall];
    intros Hnd a b lines' changes changes' Hlt.
  - intros [= <- <-]. now exists a.
  - cbn [patch_loop].
    destruct (patch_step line patch (a ++ b) changes) as [[mid ch]|e] eqn:Hstep;
      [|discriminate].
    intros Hloop. cbn [filter fst] in Hnd. rewrite Forall_forall in Hall.
    destruct (Z.ltb_spec 0 line) as [Hpos|Hlow].
    + cbn [map fst] in Hnd. inversion Hnd as [|? ? Hnotin Hnd']; subst.
      apply patch_step_tail in Hstep as [a' [-> Hlen]];
        [|exact (Hlt (line, patch) (or_introl eq_refl))].
      apply (IH Hnd' a' b lines' ch changes'); [|exact Hloop].
      intros q Hq. specialize (Hall q Hq). unfold line_ge in Hall. cbn [fst] in Hall.
      destruct (Z.ltb_spec 0 (fst q)) as [Hq0|Hq0]; [|pose proof (len_nonneg a'); lia].
      assert (fst q <> line).
      { intros Heq. apply Hnotin. rewrite <- Heq. apply in_map.
        apply filter_In. split; [exact Hq|]. now apply Z.ltb_lt. }
      lia.
    + apply patch_step_below in Hstep as [-> ->]; [|lia].
      apply (IH Hnd a b lines' changes changes'); [|exact Hloop].
      intros q Hq. apply Hlt. now right.
Qed.

Lemma join_app (a b : list pyval) (text : string) :
  join (a ++ b) = Ok text ->
  exists before after,
    join a = Ok before /\ join b = Ok after /\ text = (before ++ after)%string.
Proof.
  unfold join. revert text. induction a as [|v a IH]; intros text.
  - cbn [app]. destruct (strings_of b) as [ss|]; [|discriminate].
    intros Heq. exists ""%string, (concat_lines ss).
    repeat split. now injection Heq as <-.
  - cbn [app strings_of]. destruct v; try discriminate.
    destruct (strings_of (a ++ b)) as [ss|] eqn:E; [|discriminate].
    intros Heq.
    assert (text = (s ++ concat_lines ss)%string) as ->
      by (injection Heq; intros <-; reflexivity).
    destruct (IH (concat_lines ss) eq_refl) as [before [after [Ha [Hb ->]]]].
    destruct (strings_of a) as [sa|]; [|discriminate].
    exists (s ++ before)%string, after. split; [|split; [exact Hb|]].
    + injection Ha as <-. reflexivity.
    + now rewrite append_assoc.
Qed.

(** The final line, with its newline, stays in the file when no patch is on
    it and no two patches are on one of the lines before it; nothing comes
    after it unless a patch is on the line that follows it. *)
Lemma patch_loop_keeps_final_line (sorted : list (Z * pydict)) (init : list pyval)
      (final : string) (lines' : list pyval) (changes changes' : Z) (text : string) :
  StronglySorted line_ge sorted ->
  (forall q, In q sorted -> fst q <> len init + 1)%Z ->
  NoDup (map fst (filter (before_line (len init + 1)) sorted)) ->
  patch_loop sorted (init ++ [PStr final]) changes = Ok (lines', changes') ->
  join lines' = Ok text ->
  exists before after,
    text = (before ++ final ++ after)%string /\
    ((forall q, In q sorted -> fst q <> len init + 2)%Z -> after = ""%string).
Proof.
  intros Hsorted Hnone Hnd Hloop Hjoin.
  set (n := (len init + 1)%Z) in *.
  destruct (sorted_split n sorted Hsorted) as [upper [lower [-> [Hup [Hlow Hsl]]]]].
  apply patch_loop_app in Hloop as [mid [ch [Hupper Hlower]]].
  assert (Hlen : len (init ++ [PStr final]) = n).
  { unfold n, len. rewrite length_app. cbn [length]. lia. }
  assert (Hmid : exists b, mid = init ++ PStr final :: b /\
                           ((forall q, In q upper -> fst q <> n + 1)%Z -> b = [])).
  { pose proof (patch_loop_frame (n + 1) upper
                  (fun q Hq => ltac:(specialize (Hup q Hq); lia))
                  _ _ _ _ Hupper) as Hframe.
    replace (Z.to_nat (n + 1 - 1)) with (length (init ++ [PStr final])) in Hframe
      by (unfold len in Hlen; lia).
    rewrite (firstn_all (init ++ [PStr final])) in Hframe.
    exists (skipn (length (init ++ [PStr final])) mid). split.
    - rewrite <- (firstn_skipn (length (init ++ [PStr final])) mid) at 1.
      rewrite Hframe, <- app_assoc. reflexivity.
    - intros Hnext.
      rewrite (patch_loop_beyond upper _ _ _ _
                 (fun q Hq => ltac:(specialize (Hup q Hq); specialize (Hnext q Hq);
                                    rewrite Hlen; lia))
                 Hupper).
      now rewrite skipn_all. }
  destruct Hmid as [b [-> Hb]].
  assert (Hlt : forall q, In q lower -> (fst q < n)%Z).
  { intros q Hq. specialize (Hlow q Hq).
    specialize (Hnone q (in_or_app _ _ _ (or_intror Hq))). lia. }
  apply patch_loop_tail_low in Hlower as [a' ->]; [|exact Hsl| |].
  - apply join_app in Hjoin as [before [rest [_ [Hrest ->]]]].
    change (PStr final :: b) with ([PStr final] ++ b) in Hrest.
    apply join_app in Hrest as [mine [after [Hmine [Hafter ->]]]].
    injection Hmine as <-. rewrite append_nil_r.
    exists before, after. split; [reflexivity|].
    intros Hnext. rewrite Hb in Hafter.
    + now injection Hafter as <-.
    + intros q Hq. specialize (Hnext q (in_or_app _ _ _ (or_introl Hq))).
      unfold n. lia.
  - rewrite filter_app, map_app in Hnd. apply NoDup_app_remove_l in Hnd.
    erewrite filter_ext_in; [exact Hnd|].
    intros q Hq. unfold before_line. specialize (Hlt q Hq).
    destruct (Z.ltb_spec (fst q) n); [|lia]. now rewrite andb_true_r.
  - intros q Hq. specialize (Hlt q Hq). unfold n in Hlt. lia.
Qed.

(** One patch and the final line [x]: the line stays in the file unless the
    patch is a deletion or a replacement on the very line where [x] stands. *)
Lemma patch_step_final (line : Z) (patch : pydict) (a b lines' : list pyval)
      (x : pyval) (changes changes' : Z) :
  patch_step line patch (a ++ x :: b) changes = Ok (lines', changes') ->
  (exists a' b', lines' = a' ++ x :: b') \/
  (line = (len a + 1)%Z /\
   (is_str (dict_get patch "action" (PStr "replace")) "delete" = true \/
    is_str (dict_get patch "action" (PStr "replace")) "replace" = true)).
Proof.
  intros Hstep.
  destruct (Z.lt_trichotomy (line - 1) (len a)) as [Hlt | [Heq | Hgt]].
  - left. apply patch_step_tail in Hstep as [a' [-> _]]; [|exact Hlt].
    now exists a', b.
  - unfold len in Heq.
    assert (Hline : Z.to_nat (line - 1) = length a) by lia.
    assert (Hr : in_range (line - 1) (a ++ x :: b) = true).
    { unfold in_range, len. rewrite length_app. cbn [length].
      apply andb_true_iff. split; [apply Z.leb_le | apply Z.ltb_lt]; lia. }
    unfold patch_step in Hstep.
    destruct (normalize_content _) as [pcontent|e]; [|discriminate].
    rewrite Hr in Hstep. unfold len.
    destruct (is_str _ "delete"); [right; split; [lia | now left]|].
    destruct (is_str _ "replace"); [right; split; [lia | now right]|].
    left.
    destruct (is_str _ "insert_after").
    { injection Hstep as <- _. exists a, (pcontent :: b).
      replace (Z.to_nat (line - 1 + 1)) with (S (length a)) by lia.
      unfold insert_at. rewrite firstn_app, skipn_app, firstn_all2, skipn_all2 by lia.
      replace (S (length a) - length a) with 1 by lia.
      cbn [firstn skipn app]. now rewrite <- app_assoc. }
    destruct (is_str _ "insert_before").
    { injection Hstep as <- _. exists (a ++ [pcontent]), b.
      rewrite Hline. unfold insert_at.
      rewrite firstn_app, skipn_app, firstn_all, skipn_all, Nat.sub_diag.
      cbn [firstn skipn app]. now rewrite app_nil_r, <- app_assoc. }
    injection Hstep as <- _. now exists a, b.
  - left. apply patch_step_frame in Hstep.
    apply (firstn_weaken (S (length a))) in Hstep; [|unfold len in Hgt; lia].
    rewrite (firstn_app (S (length a)) a (x :: b)) in Hstep.
    rewrite (firstn_all2 a) in Hstep by lia.
    replace (S (length a) - length a) with 1 in Hstep by lia.
    change (firstn 1 (x :: b)) with [x] in Hstep.
    exists a, (skipn (S (length a)) lines').
    rewrite <- (firstn_skipn (S (length a)) lines') at 1.
    rewrite Hstep, <- app_assoc. reflexivity.
Qed.

(** The loop and the final line: the line stays in the file unless, when a
    patch is applied, it is a deletion or a replacement on the very line
    where the final line then stands. *)
Lemma patch_loop_final (patches : list (Z * pydict)) :
  forall (a b lines' : list pyval) (x : pyval) (changes changes' : Z),
    patch_loop patches (a ++ x :: b) changes = Ok (lines', changes') ->
    (exists a' b', lines' = a' ++ x :: b') \/
    (exists pre q post above below ch,
        patches = pre ++ q :: post /\
        patch_loop pre (a ++ x :: b) changes = Ok (above ++ x :: below, ch) /\
        fst q = (len above + 1)%Z /\
        (is_str (dict_get (snd q) "action" (PStr "replace")) "delete" = true \/
         is_str (dict_get (snd q) "action" (PStr "replace")) "replace" = true)).
Proof.
  induction patches as [|[line patch] rest IH]; intros a b lines' x changes changes'.
  - intros [= <- <-]. left. now exists a, b.
  - cbn [patch_loop].
    destruct (patch_step line patch (a ++ x :: b) changes) as [[mid ch]|e] eqn:Hstep;
      [|discriminate].
    intros Hloop.
    destruct (patch_step_final _ _ _ _ _ _ _ _ Hstep) as [[a1 [b1 ->]] | [Hline Hact]].
    + destruct (IH _ _ _ _ _ _ Hloop)
        as [Hkept | (pre & q & post & above & below & c1 & -> & Hpre & Hq & Hact)].
      * now left.
      * right. exists ((line, patch) :: pre), q, post, above, below, c1.
        split; [reflexivity|]. split; [|now split].
        cbn [patch_loop]. now rewrite Hstep.
    + right. exists [], (line, patch), rest, a, b, changes.
      split; [reflexivity|]. split; [reflexivity|]. now split.
Qed.

Lemma sorted_patches_sorted (ps : list pyval) (sorted : list (Z * pydict)) :
  sorted_patches ps = Ok sorted -> StronglySorted line_ge sorted.
Proof.
  unfold sorted_patches.
  destruct (patch_keys ps) as [keyed|]; [|discriminate].
  destruct (int_keys keyed) as [l|]; [|discriminate].
  intros [= <-]. apply sort_desc_sorted.
Qed.

Lemma splitlines_last (content : string) :
  content <> ""%string ->
  exists init l, splitlines content = init ++ [l] /\
                 ends_with_newline l = ends_with_newline content.
Proof.
  intros Hne.
  destruct (splitlines_spec is_linebreak (String.length content) content (le_n _)
              (string_all_trivial content)) as [Hcat [Hlines Hnonnil]].
  specialize (Hnonnil Hne).
  destruct (exists_last Hnonnil) as [init [l Hsplit]].
  exists init, l. split; [exact Hsplit|].
  rewrite Hsplit in Hcat, Hlines.
  assert (Hl : l <> ""%string).
  { clear -Hlines. induction init as [|x init IH]; simpl in Hlines.
    - now apply lines_of_head_nonempty in Hlines.
    - inversion Hlines; subst; [now destruct init|]. now apply IH. }
  rewrite <- Hcat, !ends_with_newline_last_is.
  clear -Hl. induction init as [|x init IH]; simpl.
  - now rewrite append_nil_r.
  - rewrite last_is_app; [exact IH|].
    clear -Hl. induction init as [|y init IH]; simpl.
    + rewrite append_nil_r. exact Hl.
    + destruct y; [exact IH | discriminate].
Qed.

(** C10, as the code has it. On a successful [patch_file] call the lines the
    patches are applied to are those of the content with a newline added to a
    final line that lacks one. So a call that changes nothing writes the
    content with that newline. The final line is written with that newline
    unless, when a patch is applied, it is a deletion or a replacement on
    the very line where the final line then stands. In particular it is
    written when no patch is on the final line and no two patches are on
    one of the lines before it, whatever patches there are on the lines
    after it; and nothing comes after it unless a patch is on the line that
    follows it. The text written is empty or ends with a line boundary of
    the text read, which is never "\r"; it ends with a newline when newlines
    are the only line boundaries of the content. *)
Theorem patch_file_final_line_terminated `{Platform}
        (w : World) (call : pydict) (path : string) (f : file)
        (patches : pyval) (text : string) (changes : Z) :
  dict_get call "path" (PStr "") = PStr path -> path <> "" ->
  fs w (resolve path) = Some (File f) ->
  readable f = true -> writable f = true ->
  dict_get call "patches" (PList []) = patches -> truthy patches = true ->
  patch_content patches (universal_newlines (data f)) = Ok (text, changes) ->
  let content := universal_newlines (data f) in
  patch_file call w =
    (Ok (success ("Patched: " ++ resolve path ++ " (" ++ str_of_Z changes ++ " changes)")),
     set_fs w (update (fs w) (resolve path)
                 (File (mkfile (utf8_len text) text true true)))) /\
  (content <> ""%string -> ends_with_newline content = false ->
   concat_lines (normalize_last (splitlines content)) = (content ++ nl)%string /\
   (changes = 0%Z -> text = (content ++ nl)%string) /\
   (forall ps sorted,
       py_iter patches = Ok ps -> sorted_patches ps = Ok sorted ->
       exists init l,
         splitlines content = init ++ [l] /\
         ((exists before after, text = (before ++ l ++ nl ++ after)%string) \/
          (exists pre q post above below ch,
              sorted = pre ++ q :: post /\
              patch_loop pre (map PStr (init ++ [(l ++ nl)%string])) 0
              = Ok (above ++ PStr (l ++ nl) :: below, ch) /\
              fst q = (len above + 1)%Z /\
              (is_str (dict_get (snd q) "action" (PStr "replace")) "delete" = true \/
               is_str (dict_get (snd q) "action" (PStr "replace")) "replace" = true))) /\
         ((forall q, In q sorted -> fst q <> len (splitlines content)) ->
          NoDup (map fst (filter (before_line (len (splitlines content))) sorted)) ->
          exists before after,
            text = (before ++ l ++ nl ++ after)%string /\
            ((forall q, In q sorted -> fst q <> (len (splitlines content) + 1)%Z) ->
             after = ""%string)))) /\
  (text = ""%string \/ last_is is_linebreak_read text = true) /\
  (plain_newlines content = true -> text = ""%string \/ ends_with_newline text = true).
Proof.
  intros Hpath Hne Hfs Hr Hw Hpatches Htruthy Hcontent content.
  destruct (patch_content_inv _ _ _ _ Hcontent) as [ps [sorted [lines' [Hiter [Hsort [Hloop Hjoin]]]]]].
  fold content in Hloop.
  split; [|split; [|split]].
  - rewrite (patch_file_run w call path f patches Hpath Hne Hfs Hr Hpatches Htruthy).
    rewrite Hcontent, Hw. reflexivity.
  - intros Hnonempty Hnonl.
    destruct (splitlines_spec is_linebreak (String.length content) content (le_n _)
                (string_all_trivial content)) as [Hcat [Hlines Hnonnil]].
    destruct (normalize_last_spec is_linebreak (splitlines content) eq_refl Hlines)
      as [_ Hnorm].
    assert (Hfull : concat_lines (normalize_last (splitlines content))
                    = (content ++ nl)%string).
    { rewrite Hnorm, Hcat, <- ends_with_newline_last_is, Hnonl.
      destruct (splitlines content); [now specialize (Hnonnil Hnonempty) | reflexivity]. }
    split; [exact Hfull|]. split.
    + intros ->. destruct (patch_loop_changes _ _ _ _ _ Hloop) as [_ Hsame].
      rewrite (Hsame eq_refl) in Hjoin. unfold join in Hjoin.
      rewrite strings_of_map_PStr in Hjoin. injection Hjoin as <-. exact Hfull.
    + intros ps' sorted' Hiter' Hsort'.
      rewrite Hiter in Hiter'. injection Hiter' as <-.
      rewrite Hsort in Hsort'. injection Hsort' as <-.
      destruct (splitlines_last content Hnonempty) as [init [l [Hsplit Hend]]].
      rewrite Hsplit, normalize_last_snoc, Hend, Hnonl in Hloop.
      exists init, l. split; [exact Hsplit|]. split.
      * rewrite map_app in Hloop. cbn [map] in Hloop.
        destruct (patch_loop_final sorted _ _ _ _ _ _ Hloop)
          as [[a' [b' ->]] | (pre & q & post & above & below & ch & Hq)].
        -- left. apply join_app in Hjoin as [before [rest [_ [Hrest ->]]]].
           change (PStr (l ++ nl) :: b') with ([PStr (l ++ nl)%string] ++ b') in Hrest.
           apply join_app in Hrest as [mine [after [Hmine [_ ->]]]].
           injection Hmine as <-. exists before, after.
           now rewrite append_nil_r, append_assoc.
        -- right. exists pre, q, post, above, below, ch.
           rewrite map_app. exact Hq.
      * intros Hnone Hnd. rewrite map_app in Hloop. cbn [map] in Hloop.
        assert (Hn : len (splitlines content) = (len (map PStr init) + 1)%Z).
        { rewrite Hsplit. unfold len. rewrite length_app, length_map. cbn [length]. lia. }
        rewrite Hn in Hnone, Hnd.
        destruct (patch_loop_keeps_final_line sorted (map PStr init) (l ++ nl) lines'
                    0 changes text (sorted_patches_sorted ps sorted Hsort)
                    Hnone Hnd Hloop Hjoin) as [before [after [-> Hafter]]].
        exists before, after. split; [now rewrite append_assoc|].
        intros Hnext. apply Hafter. intros q Hq. specialize (Hnext q Hq).
        rewrite Hn in Hnext. lia.
  - eapply join_line_ok; [|exact Hjoin].
    eapply patch_loop_line_ok; [reflexivity | exact Hloop |].
    apply Forall_line_ok_map.
    apply normalize_last_spec; [reflexivity|].
    apply (splitlines_spec is_linebreak_read (String.length content) content (le_n _)).
    apply universal_newlines_boundaries.
  - intros Hplain. rewrite ends_with_newline_last_is.
    eapply join_line_ok; [|exact Hjoin].
    eapply patch_loop_line_ok; [reflexivity | exact Hloop |].
    apply Forall_line_ok_map.
    apply normalize_last_spec; [reflexivity|].
    apply (splitlines_spec is_newline (String.length content) content (le_n _)).
    exact Hplain.
Qed.

(* ================================================================== *)
(** ** read_file *)
(* ================================================================== *)

Lemma read_file_large `{Platform} (w : World) (call : pydict) (path : string) (f : file) :
  dict_get call "path" (PStr "") = PStr path -> path <> "" ->
  fs w (resolve path) = Some (File f) ->
  (400000 < st_size f)%Z ->
  dict_get call "start_line" PNone = PNone ->
  read_file call w = (Ok (failure large_file_error), w).
Proof.
  intros Hpath Hne Hfs Hsize Hstart.
  unfold read_file. rewrite Hpath, (truthy_PStr path Hne).
  unfold mbind, lift, to_path. cbv beta iota delta [negb]. rewrite Hfs, Hstart.
  unfold try_except, read_file_body.
  replace (st_size f >? 400000)%Z with true by (symmetry; apply Z.gtb_lt; lia).
  reflexivity.
Qed.

Lemma read_file_never_truncates `{Platform} (w w' : World) (call : pydict) (r : pyval) :
  read_file call w = (Ok r, w') -> field r "truncated" = None.
Proof.
  assert (Hcaught : forall (e : exn) (p : string),
             (if exn_class_eqb (exn_cls e) PermissionError
              then ret (failure ("Permission denied: " ++ p)) w
              else (Raise e, w)) = (Ok r, w') -> field r "truncated" = None).
  { intros e p. destruct (exn_class_eqb _ _); [now intros [= <- <-] | discriminate]. }
  unfold read_file.
  destruct (negb (truthy (dict_get call "path" (PStr "")))); [now intros [= <- <-]|].
  unfold mbind, lift.
  destruct (to_path (dict_get call "path" (PStr ""))) as [p|e]; [|discriminate].
  destruct (fs w p) as [[|f]|] eqn:Hfs; try (now intros [= <- <-]).
  unfold try_except, read_file_body.
  destruct (is_none (dict_get call "start_line" PNone)) eqn:Hnone.
  - rewrite andb_true_r. destruct (st_size f >? 400000)%Z eqn:Hsize;
      [now intros [= <- <-]|].
    unfold mbind, read_text. rewrite Hfs.
    destruct (readable f); [|apply Hcaught].
    cbv beta iota delta [negb].
    replace (st_size f >? MAX_FILE_SIZE)%Z with false; [now intros [= <- <-]|].
    symmetry. rewrite Z.gtb_ltb in *. apply Z.ltb_ge. apply Z.ltb_ge in Hsize.
    unfold MAX_FILE_SIZE. lia.
  - rewrite andb_false_r. unfold mbind, read_text. rewrite Hfs.
    destruct (readable f); [|apply Hcaught].
    cbv beta iota delta [negb]. unfold lift.
    destruct (py_int (dict_get call "start_line" PNone)) as [s|e]; [|apply Hcaught].
    destruct (is_none (dict_get call "end_line" PNone)); cbv beta iota.
    + unfold ret. destruct (_ >=? _)%Z; now intros [= <- <-].
    + destruct (bind _ _) as [e|x]; [|apply Hcaught].
      destruct (_ >=? _)%Z; now intros [= <- <-].
Qed.

(** C1, as the code has it. A whole-file read of a regular file of more than
    400,000 bytes (one of 500,001 bytes among them) is refused: the result is
    the failure that points the caller to line ranges, the file is not read,
    and the world is as it was. No call of [read_file] gives a result with a
    [truncated] field. *)
Theorem read_file_large_whole_read_refused `{Platform}
        (w : World) (call : pydict) (path : string) (f : file) :
  dict_get call "path" (PStr "") = PStr path -> path <> "" ->
  fs w (resolve path) = Some (File f) ->
  (400000 < st_size f)%Z ->
  dict_get call "start_line" PNone = PNone ->
  read_file call w = (Ok (failure large_file_error), w) /\
  field (failure large_file_error) "ok" = Some (PBool false) /\
  (forall (call' : pydict) (w1 w2 : World) (r : pyval),
      read_file call' w1 = (Ok r, w2) -> field r "truncated" = None).
Proof.
  intros Hpath Hne Hfs Hsize Hstart.
  split; [now apply (read_file_large w call path f)|].
  split; [reflexivity|].
  intros call' w1 w2 r. apply read_file_never_truncates.
Qed.

Lemma read_file_large_whole_read_refused_witness :
  read_file big_call big_world = (Ok (failure large_file_error), big_world) /\
  field (failure large_file_error) "ok" = Some (PBool false) /\
  (forall (call' : pydict) (w1 w2 : World) (r : pyval),
      read_file call' w1 = (Ok r, w2) -> field r "truncated" = None).
Proof.
  apply (read_file_large_whole_read_refused big_world big_call "/big"
           (mkfile 500001 big_text true true)).
  - reflexivity.
  - discriminate.
  - reflexivity.
  - reflexivity.
  - reflexivity.
Defined.

(** C1 as stated fails: the file ["/big"] is a readable regular file of
    exactly 500,001 bytes, the call has no line range, and the result is a
    failure without [truncated] and without content. *)
Lemma read_file_500001_bytes_is_refused :
  fs big_world "/big" = Some (File (mkfile 500001 big_text true true)) /\
  utf8_len big_text = 500001%Z /\
  lookup big_call "start_line" = None /\ lookup big_call "end_line" = None /\
  exists r : pyval,
    read_file big_call big_world = (Ok r, big_world) /\
    field r "ok" = Some (PBool false) /\
    field r "truncated" = None /\
    field r "result" = None.
Proof.
  split; [reflexivity|].
  split; [vm_compute; reflexivity|].
  split; [reflexivity|]. split; [reflexivity|].
  exists (failure large_file_error).
  split; [|repeat split].
  apply (read_file_large big_world big_call "/big" (mkfile 500001 big_text true true));
    try reflexivity.
  discriminate.
Qed.

(* ================================================================== *)
(** ** execute_tool and the permission gate *)
(* ================================================================== *)

Lemma permission_prompt_denied (w : World) :
  trust_session w = false -> denies (answers w) = true ->
  permission_prompt w = (Ok false, set_answers w (tl (answers w))).
Proof.
  intros Ht Hd. unfold permission_prompt. rewrite Ht.
  destruct w as [f t a s k n se]. simpl in *.
  destruct a as [|[| | |] rest]; try discriminate; reflexivity.
Qed.

Lemma execute_tool_denied `{Platform} (w : World) (d : pydict) (target : pyval) :
  destructive (dict_get d "tool" (PStr "")) = true ->
  (if truthy (dict_get d "path" (PStr "")) then Ok (dict_get d "path" (PStr ""))
   else first_60 (dict_get d "command" (PStr ""))) = Ok target ->
  trust_session w = false -> denies (answers w) = true ->
  execute_tool (PDict d) w =
    (Ok (denied (dict_get d "tool" (PStr ""))), set_answers w (tl (answers w))).
Proof.
  intros Hdes Htarget Ht Hd. unfold execute_tool. rewrite Hdes, Htarget.
  unfold mbind, lift. rewrite (permission_prompt_denied w Ht Hd). reflexivity.
Qed.

(** C2 at its failing input: a [run_command] call whose command is the number
    5 makes [execute_tool] raise the [TypeError] of [5[:60]], in any world. *)
Theorem execute_tool_raises_on_numeric_command `{Platform} :
  forall w : World,
    execute_tool numeric_command w = (Raise (Exn TypeError "getitem" [PInt 5]), w).
Proof. intros w. reflexivity. Qed.

(** X1. [execute_tool] returns a result, whatever the handler does, for every
    payload but the destructive calls with no path and a command that cannot
    be sliced. *)
Theorem execute_tool_returns `{Platform} (call : pyval) (w : World) :
  (forall d, call = PDict d ->
             destructive (dict_get d "tool" (PStr "")) = true ->
             truthy (dict_get d "path" (PStr "")) = false ->
             exists v, first_60 (dict_get d "command" (PStr "")) = Ok v) ->
  exists r w', execute_tool call w = (Ok r, w').
Proof.
  intros Hsafe. destruct call as [| | | | |d]; try (eexists; eexists; reflexivity).
  unfold execute_tool, mbind, lift.
  assert (Hinner : forall w0, exists r w',
    (match execute_tool_inner (dict_get d "tool" (PStr "")) d w0 with
     | (Ok result, w') => (Ok result, w')
     | (Raise e, w') =>
         (Ok (PDict [("ok", PBool false); ("error", PStr (exn_str e));
                     ("tool", dict_get d "tool" (PStr ""))]), w')
     end) = (Ok r, w')).
  { intros w0. destruct (execute_tool_inner _ d w0) as [[r|e] w'];
      eexists; eexists; reflexivity. }
  destruct (destructive (dict_get d "tool" (PStr ""))) eqn:Hdes.
  - assert (Htarget : exists v,
       (if truthy (dict_get d "path" (PStr "")) then Ok (dict_get d "path" (PStr ""))
        else first_60 (dict_get d "command" (PStr ""))) = Ok v).
    { destruct (truthy (dict_get d "path" (PStr ""))) eqn:Hp; [eauto|].
      exact (Hsafe d eq_refl Hdes Hp). }
    destruct Htarget as [v ->].
    destruct (permission_prompt w) as [[[|]|e] w1] eqn:Hgate.
    + apply Hinner.
    + eexists; eexists; reflexivity.
    + unfold permission_prompt in Hgate.
      destruct (trust_session w); [discriminate|].
      destruct (answers w) as [|[| | |] rest]; discriminate.
  - unfold ret. apply Hinner.
Qed.

(* ================================================================== *)
(** ** A denied call in the agent loop *)
(* ================================================================== *)

Lemma destructive_tool_present (d : pydict) (default : pyval) :
  destructive (dict_get d "tool" (PStr "")) = true ->
  dict_get d "tool" default = dict_get d "tool" (PStr "").
Proof.
  unfold dict_get. destruct (lookup d "tool"); [reflexivity | discriminate].
Qed.

Lemma run_tools_cons `{Platform} (call : pyval) (others : list pyval) (w w' : World)
      (tool_name result : pyval) (entry : string) :
  py_get call "tool" (PStr "action") = Ok tool_name ->
  execute_tool call w = (Ok result, w') ->
  format_tool_result result = Ok tt ->
  tool_result_entry tool_name result = Ok entry ->
  run_tools (call :: others) w =
    match run_tools others w' with
    | (Ok entries, w'') => (Ok (entry :: entries), w'')
    | (Raise e, w'') => (Raise e, w'')
    end.
Proof.
  intros Hname Hexec Hformat Hentry. cbn [run_tools]. unfold mbind, lift.
  rewrite Hname, Hexec, Hformat, Hentry.
  destruct (run_tools others w') as [[entries|e] w'']; reflexivity.
Qed.

Lemma run_tools_app `{Platform} (before after : list pyval) :
  forall (w w' : World) (entries : list string),
    run_tools before w = (Ok entries, w') ->
    run_tools (before ++ after) w =
      match run_tools after w' with
      | (Ok entries', w'') => (Ok (entries ++ entries'), w'')
      | (Raise e, w'') => (Raise e, w'')
      end.
Proof.
  induction before as [|call before IH]; intros w w' entries.
  - intros [= <- <-]. cbn [app]. destruct (run_tools after w) as [[es|e] w'']; reflexivity.
  - cbn [app run_tools]. unfold mbind, lift.
    destruct (py_get call "tool" (PStr "action")) as [name|e]; [|discriminate].
    destruct (execute_tool call w) as [[result|e] w1]; [|discriminate].
    destruct (format_tool_result result) as [[]|e]; [|discriminate].
    destruct (tool_result_entry name result) as [entry|e]; [|discriminate].
    destruct (run_tools before w1) as [[es|e] w2] eqn:Hbefore; [|discriminate].
    intros [= <- <-]. rewrite (IH w1 w2 es Hbefore).
    destruct (run_tools after w2) as [[es'|e] w3]; reflexivity.
Qed.

(** After [k] iterations that went on, the loop has what is left of its
    iterations to run. *)
Lemma iterations_loop `{Platform} (k : nat) (settings : pydict) :
  forall (messages0 messages : list message) (w0 w : World),
    iterations k settings messages0 w0 = Some (messages, w) ->
    forall n : nat,
      agent_loop_for (k + n) settings messages0 w0 = agent_loop_for n settings messages w.
Proof.
  induction k as [|k IH]; intros messages0 messages w0 w.
  - now intros [= <- <-].
  - cbn [iterations]. intros Hk n. cbn [Nat.add agent_loop_for]. unfold mbind at 1.
    destruct (agent_step settings messages0 w0) as [[[m|m]|e] w1]; try discriminate.
    now apply IH.
Qed.

Lemma join_with_holds (sep x : string) (l : list string) :
  In x l -> exists pre post, join_with sep l = (pre ++ x ++ post)%string.
Proof.
  induction l as [|y l IH]; [intros []|].
  intros [->|Hin].
  - destruct l as [|z l].
    + exists ""%string, ""%string. cbn [join_with]. now rewrite append_nil_r.
    + exists ""%string, (sep ++ join_with sep (z :: l))%string. reflexivity.
  - destruct l as [|z l]; [destruct Hin|].
    destruct (IH Hin) as [pre [post Hjoin]].
    exists (y ++ sep ++ pre)%string, post.
    change (join_with sep (y :: z :: l)) with (y ++ sep ++ join_with sep (z :: l))%string.
    now rewrite Hjoin, !append_assoc.
Qed.

(** C6, as the code has it. A destructive call that the gate denies comes
    back from [execute_tool] as the failure "Denied by user"; no handler
    runs, and the world is as before but for the answer the user gave. What
    the agent loop then does depends on the calls of the response that come
    after it. When they raise nothing, the iteration adds two turns to the
    conversation: the model's text, as the assistant, and, as the user, the
    tool results, which hold the denial; the loop then goes on to the next
    iteration, which starts from that conversation, unless the iteration was
    the last of the [MAX_TOOL_LOOPS]: then the loop ends and returns that
    conversation. When one of them raises, the iteration and the loop raise
    its exception, and no turn is added. *)
Theorem denied_call_is_reported_and_loop_goes_on `{Platform}
        (settings : pydict) (messages : list message) (w w1 wb w3 : World)
        (result : pydict) (text : string)
        (before after : list pyval) (d : pydict) (target : pyval)
        (entries_before : list string) (others : res (list string)) :
  chat settings w = (Ok (PDict result), w1) ->
  truthy (dict_get result "ok" PNone) = true ->
  dict_get result "content" (PStr "") = PStr text ->
  extract_tool_calls text = before ++ PDict d :: after ->
  run_tools before w1 = (Ok entries_before, wb) ->
  destructive (dict_get d "tool" (PStr "")) = true ->
  (if truthy (dict_get d "path" (PStr "")) then Ok (dict_get d "path" (PStr ""))
   else first_60 (dict_get d "command" (PStr ""))) = Ok target ->
  trust_session wb = false -> denies (answers wb) = true ->
  run_tools after (set_answers wb (tl (answers wb))) = (others, w3) ->
  let tool := dict_get d "tool" (PStr "") in
  let w2 := set_answers wb (tl (answers wb)) in
  execute_tool (PDict d) wb = (Ok (denied tool), w2) /\
  field (denied tool) "ok" = Some (PBool false) /\
  field (denied tool) "error" = Some (PStr "Denied by user") /\
  fs w2 = fs wb /\ session_todo w2 = session_todo wb /\
  trust_session w2 = false /\ net w2 = net wb /\ sent w2 = sent wb /\
  match others with
  | Ok entries_after =>
      let denial := ("[" ++ str_of tool ++ "] Error: Denied by user")%string in
      let results := ("Tool results:" ++ nl
                        ++ join_with (nl ++ nl)
                             (entries_before ++ denial :: entries_after))%string in
      let messages' :=
        trim_context messages MAX_CONTEXT_MESSAGES ++
        [[("role", PStr "assistant"); ("content", PStr text)];
         [("role", PStr "user"); ("content", PStr results)]] in
      contains denial results = true /\
      contains "Denied by user" results = true /\
      agent_step settings messages w = (Ok (Continue messages'), w3) /\
      (forall n : nat,
          agent_loop_for (S n) settings messages w
          = agent_loop_for n settings messages' w3) /\
      (forall (k : nat) (messages0 : list message) (w0 : World),
          iterations k settings messages0 w0 = Some (messages, w) ->
          (k + 1 < MAX_TOOL_LOOPS ->
           agent_loop settings messages0 w0 =
             (s <- agent_step settings messages' ;;
              match s with
              | Continue m => agent_loop_for (MAX_TOOL_LOOPS - (k + 2)) settings m
              | Return m => ret m
              end)%M w3) /\
          (k + 1 = MAX_TOOL_LOOPS ->
           agent_loop settings messages0 w0 = (Ok messages', w3)))
  | Raise e =>
      agent_step settings messages w = (Raise e, w3) /\
      (forall n : nat, agent_loop_for (S n) settings messages w = (Raise e, w3)) /\
      (forall (k : nat) (messages0 : list message) (w0 : World),
          iterations k settings messages0 w0 = Some (messages, w) ->
          k + 1 <= MAX_TOOL_LOOPS ->
          agent_loop settings messages0 w0 = (Raise e, w3))
  end.
Proof.
  intros Hchat Hok Hcontent Hextract Hbefore Hdes Htarget Htrust Hdeny Hafter tool w2.
  assert (Hexec : execute_tool (PDict d) wb = (Ok (denied tool), w2))
    by (now apply (execute_tool_denied wb d target)).
  assert (Htext : truthy (PStr text) = true).
  { apply truthy_PStr. intros ->. now destruct before. }
  set (denial := ("[" ++ str_of tool ++ "] Error: Denied by user")%string).
  assert (Hrun : run_tools (before ++ PDict d :: after) w1
                 = match others with
                   | Ok entries_after =>
                       (Ok (entries_before ++ denial :: entries_after), w3)
                   | Raise e => (Raise e, w3)
                   end).
  { rewrite (run_tools_app before (PDict d :: after) w1 wb entries_before Hbefore).
    rewrite (run_tools_cons (PDict d) after wb w2 tool (denied tool) denial).
    - fold w2 in Hafter. rewrite Hafter. now destruct others.
    - cbn [py_get]. f_equal. now apply destructive_tool_present.
    - exact Hexec.
    - reflexivity.
    - reflexivity. }
  assert (Hstep : agent_step settings messages w =
                  match run_tools (before ++ PDict d :: after) w1 with
                  | (Ok tool_results, w') =>
                      (Ok (Continue
                             (trim_context messages MAX_CONTEXT_MESSAGES ++
                              [turn "assistant" (PStr text);
                               turn "user"
                                 (PStr ("Tool results:" ++ nl
                                          ++ join_with (nl ++ nl) tool_results))])), w')
                  | (Raise e, w') => (Raise e, w')
                  end).
  { unfold agent_step, mbind. rewrite Hchat. unfold lift. cbn [py_get].
    rewrite Hok, Hcontent. cbv beta iota delta [negb].
    unfold extract_from. rewrite Htext. cbv beta iota delta [negb].
    rewrite Hextract.
    destruct (before ++ PDict d :: after) as [|c rest] eqn:Hcalls;
      [now destruct before|].
    cbv beta iota.
    destruct (run_tools (c :: rest) w1) as [[tool_results|e] w']; reflexivity. }
  rewrite Hrun in Hstep.
  repeat match goal with |- _ /\ _ => split end;
    try assumption; try reflexivity.
  destruct others as [entries_after|e].
  - cbv zeta.
    set (results := ("Tool results:" ++ nl
                       ++ join_with (nl ++ nl)
                            (entries_before ++ denial :: entries_after))%string).
    set (messages' := trim_context messages MAX_CONTEXT_MESSAGES ++
                      [[("role", PStr "assistant"); ("content", PStr text)];
                       [("role", PStr "user"); ("content", PStr results)]]).
    assert (Hnext : forall n : nat,
               agent_loop_for (S n) settings messages w
               = agent_loop_for n settings messages' w3).
    { intros n. cbn [agent_loop_for]. unfold mbind at 1. rewrite Hstep. reflexivity. }
    assert (Hholds : exists pre post, results = (pre ++ denial ++ post)%string).
    { destruct (join_with_holds (nl ++ nl) denial
                  (entries_before ++ denial :: entries_after))
        as [pre [post Hjoin]]; [apply in_or_app; right; now left|].
      exists ("Tool results:" ++ nl ++ pre)%string, post.
      unfold results. now rewrite Hjoin, !append_assoc. }
    split; [now apply contains_iff|]. split.
    { destruct Hholds as [pre [post Hres]]. apply contains_iff.
      exists (pre ++ "[" ++ str_of tool ++ "] Error: ")%string, post.
      rewrite Hres. unfold denial. now rewrite !append_assoc. }
    split; [exact Hstep|]. split; [exact Hnext|].
    intros k messages0 w0 Hk. split.
    + intros Hmore. unfold agent_loop.
      replace MAX_TOOL_LOOPS with (k + S (S (MAX_TOOL_LOOPS - (k + 2)))) at 1 by lia.
      rewrite (iterations_loop k settings messages0 messages w0 w Hk), Hnext.
      reflexivity.
    + intros Hlast. unfold agent_loop.
      replace MAX_TOOL_LOOPS with (k + 1) at 1 by lia.
      rewrite (iterations_loop k settings messages0 messages w0 w Hk), Hnext.
      reflexivity.
  - assert (Hnext : forall n : nat,
               agent_loop_for (S n) settings messages w = (Raise e, w3)).
    { intros n. cbn [agent_loop_for]. unfold mbind at 1. rewrite Hstep. reflexivity. }
    split; [exact Hstep|]. split; [exact Hnext|].
    intros k messages0 w0 Hk Hmore. unfold agent_loop.
    replace MAX_TOOL_LOOPS with (k + S (MAX_TOOL_LOOPS - (k + 1))) at 1 by lia.
    now rewrite (iterations_loop k settings messages0 messages w0 w Hk), Hnext.
Qed.

Lemma denied_call_is_reported_and_loop_goes_on_witness :
  let tool := PStr "write_file" in
  let w1 := set_net deny_world [] ["k1"] in
  let w2 := set_answers w1 [] in
  let results := ("Tool results:" ++ nl ++ "[write_file] Error: Denied by user")%string in
  let messages' :=
    first_messages ++
    [[("role", PStr "assistant"); ("content", PStr write_response)];
     [("role", PStr "user"); ("content", PStr results)]] in
  execute_tool (PDict write_call) w1 = (Ok (denied tool), w2) /\
  field (denied tool) "ok" = Some (PBool false) /\
  field (denied tool) "error" = Some (PStr "Denied by user") /\
  fs w2 = fs w1 /\ session_todo w2 = session_todo w1 /\
  trust_session w2 = false /\ net w2 = net w1 /\ sent w2 = sent w1 /\
  contains "[write_file] Error: Denied by user" results = true /\
  contains "Denied by user" results = true /\
  agent_step cloud_settings first_messages deny_world = (Ok (Continue messages'), w2) /\
  (forall n : nat,
      agent_loop_for (S n) cloud_settings first_messages deny_world
      = agent_loop_for n cloud_settings messages' w2) /\
  (forall (k : nat) (messages0 : list message) (w0 : World),
      iterations k cloud_settings messages0 w0 = Some (first_messages, deny_world) ->
      (k + 1 < MAX_TOOL_LOOPS ->
       agent_loop cloud_settings messages0 w0 =
         (s <- agent_step cloud_settings messages' ;;
          match s with
          | Continue m => agent_loop_for (MAX_TOOL_LOOPS - (k + 2)) cloud_settings m
          | Return m => ret m
          end)%M w2) /\
      (k + 1 = MAX_TOOL_LOOPS ->
       agent_loop cloud_settings messages0 w0 = (Ok messages', w2))).
Proof.
  apply (denied_call_is_reported_and_loop_goes_on
           cloud_settings first_messages deny_world (set_net deny_world [] ["k1"])
           (set_net deny_world [] ["k1"]) (set_answers (set_net deny_world [] ["k1"]) [])
           [("ok", PBool true); ("content", PStr write_response);
            ("model", PStr "GPT-5.2-Codex"); ("tokens", PInt 16)]
           write_response [] [] write_call (PStr "/f") [] (Ok [])).
  - vm_compute. reflexivity.
  - reflexivity.
  - reflexivity.
  - vm_compute. reflexivity.
  - reflexivity.
  - reflexivity.
  - reflexivity.
  - reflexivity.
  - reflexivity.
  - reflexivity.
Defined.

(** C6 as stated fails in two ways. A call of the same response that raises
    takes the denial with it: in [sibling_world] the [write_file] call is
    denied, the [run_command] call that follows it raises, and so does the
    loop; no turn is added. And a denial in the last of the fifteen
    iterations is followed by no iteration: in [always_denied_world] the
    fifteenth iteration adds the denial, and the loop returns with one answer
    of the network left unasked for. *)
Lemma denied_call_can_be_lost_or_end_the_loop :
  (extract_tool_calls two_calls_response = [PDict write_call; numeric_command] /\
   execute_tool (PDict write_call) (set_net sibling_world [] ["k1"])
   = (Ok (denied (PStr "write_file")),
      set_answers (set_net sibling_world [] ["k1"]) []) /\
   agent_loop cloud_settings first_messages sibling_world
   = (Raise (Exn TypeError "getitem" [PInt 5]),
      set_answers (set_net sibling_world [] ["k1"]) [])) /\
  match iterations 14 cloud_settings first_messages always_denied_world with
  | Some (m14, w14) =>
      match agent_step cloud_settings m14 w14 with
      | (Ok (Continue m15), w15) =>
          last m15 [] =
            [("role", PStr "user");
             ("content", PStr ("Tool results:" ++ nl
                                 ++ "[write_file] Error: Denied by user"))] /\
          agent_loop cloud_settings first_messages always_denied_world = (Ok m15, w15) /\
          length (sent w15) = 15 /\ length (net w15) = 1
      | _ => False
      end
  | None => False
  end.
Proof. vm_compute. repeat split. Qed.

(* ================================================================== *)
(** ** The credential fail-over of chat_poe *)
(* ================================================================== *)

Lemma str_of_Z_inj (a b : Z) : str_of_Z a = str_of_Z b -> a = b.
Proof.
  unfold str_of_Z. intros Heq.
  assert (Hparse : forall z, NilZero.int_of_string (NilZero.string_of_int (Z.to_int z))
                             = Some (Z.to_int z)).
  { intros z. apply NilZero.isi; destruct z; simpl; try discriminate;
      intros [= Hnil]; now apply DecimalPos.Unsigned.to_uint_nonnil in Hnil. }
  assert (Hint : Z.to_int a = Z.to_int b).
  { pose proof (Hparse a) as Ha. rewrite Heq, Hparse in Ha. now injection Ha. }
  rewrite <- (DecimalZ.of_to a), <- (DecimalZ.of_to b). now rewrite Hint.
Qed.

Lemma append_inj_l (a b c : string) : (a ++ c)%string = (b ++ c)%string -> a = b.
Proof.
  revert b. induction a as [|x a IH]; intros [|y b] Heq; simpl in Heq.
  - reflexivity.
  - apply (f_equal String.length) in Heq. simpl in Heq.
    rewrite length_append in Heq. lia.
  - apply (f_equal String.length) in Heq. simpl in Heq.
    rewrite length_append in Heq. lia.
  - injection Heq as -> Heq. f_equal. now apply IH.
Qed.

(** Each credential has a label of its own. *)
Lemma key_label_inj (i j : nat) : key_label i = key_label j -> i = j.
Proof.
  unfold key_label. intros Heq. simpl in Heq. injection Heq as Heq.
  apply append_inj_l, str_of_Z_inj in Heq. lia.
Qed.

Lemma attempt_failed_label `{Platform} (model : string) (i : nat) (o : http_outcome)
      (error : string) :
  attempt_of model i o = Failed error ->
  exists text, error = (key_label i ++ text)%string.
Proof.
  assert (Houter : forall e, exists text, outer_error i e = (key_label i ++ text)%string).
  { intros e. unfold outer_error. destruct (exn_cls e); eexists; reflexivity. }
  unfold attempt_of. destruct o as [r|e].
  - destruct (r_ok r).
    + destruct (read_choice model r) as [[result|]|e].
      * discriminate.
      * intros [= <-]. eexists; reflexivity.
      * destruct (exn_cls e) eqn:Hc; intros [= <-];
          try (now eexists); unfold outer_error; rewrite Hc; now eexists.
    + intros [= <-]. eexists; reflexivity.
  - intros [= <-]. apply Houter.
Qed.

(** An attempt succeeds exactly on a successful response whose body has a
    well-formed choice list. *)
Lemma attempt_succeeds_iff `{Platform} (model : string) (i : nat) (o : http_outcome)
      (result : pyval) :
  attempt_of model i o = Succeeded result <->
  exists r data content,
    o = Responds r /\ r_ok r = true /\ json r = Ok data /\
    choice_content data = Some content /\
    exists tokens,
      estimate_tokens content = Ok tokens /\
      result = PDict [("ok", PBool true); ("content", content);
                      ("model", PStr model); ("tokens", PInt tokens)].
Proof.
  split.
  - unfold attempt_of. destruct o as [r|e]; [|discriminate].
    destruct (r_ok r) eqn:Hok; [|discriminate].
    unfold read_choice, bind.
    destruct (json r) as [data|e] eqn:Hjson;
      [|destruct (exn_cls e); discriminate].
    destruct data as [| | | | |d]; try solve [cbn; discriminate].
    cbn [py_get]. unfold choice_content.
    destruct (dict_get d "choices" PNone) as [|b|z|s|l|c] eqn:Hchoices.
    + cbn. discriminate.
    + destruct b; cbn; discriminate.
    + cbn [truthy]. destruct (negb (z =? 0)%Z); cbn; discriminate.
    + destruct s; cbn; discriminate.
    + destruct l as [|item l']; [cbn; discriminate|]. cbn [truthy first_item].
      destruct item as [| | | | |it]; try solve [cbn; discriminate].
      cbn [py_get].
      destruct (dict_get it "message" (PDict [])) as [| | | | |m] eqn:Hmsg;
        try solve [cbn; discriminate].
      cbn [py_get].
      destruct (estimate_tokens (dict_get m "content" (PStr ""))) as [tokens|e] eqn:Htok;
        [|destruct (exn_cls e); discriminate].
      intros [= <-]. exists r, (PDict d), (dict_get m "content" (PStr "")).
      rewrite Hchoices, Hmsg.
      assert (Hlen : has_len (dict_get m "content" (PStr "")) = true).
      { unfold estimate_tokens, has_len in *.
        destruct (truthy (dict_get m "content" (PStr ""))); [|reflexivity].
        destruct (dict_get m "content" (PStr "")); try discriminate; reflexivity. }
      rewrite Hlen. repeat split; try assumption. now exists tokens.
    + destruct c; cbn; discriminate.
  - intros [r [data [content [-> [Hok [Hjson [Hchoice [tokens [Htok ->]]]]]]]]].
    unfold attempt_of. rewrite Hok. unfold read_choice, bind. rewrite Hjson.
    unfold choice_content in Hchoice.
    destruct data as [| | | | |d]; try discriminate. cbn [py_get].
    destruct (dict_get d "choices" PNone) as [| | | |[|[| | | | |it] l']|];
      try discriminate.
    cbn [truthy first_item py_get].
    destruct (dict_get it "message" (PDict [])) as [| | | | |m]; try discriminate.
    cbn [py_get].
    destruct (has_len (dict_get m "content" (PStr ""))); [|discriminate].
    injection Hchoice as <-. rewrite Htok. reflexivity.
Qed.

Lemma set_net_set_net (w : World) (n n' : list http_outcome) (s s' : list string) :
  set_net (set_net w n s) n' s' = set_net w n' s'.
Proof. reflexivity. Qed.

(** A run of failed attempts: the loop goes through the credentials in list
    order, one request each, and adds one text to [errors] per attempt. *)
Lemma poe_loop_failed_run `{Platform} (model : string) (tried : list string) :
  forall (i : nat) (untried : list string) (outcomes more : list http_outcome)
         (errors : list string) (w : World),
    length outcomes = length tried ->
    net w = outcomes ++ more ->
    (forall j o, nth_error outcomes j = Some o -> fails model (i + j) o) ->
    poe_loop model i (tried ++ untried) errors w =
    poe_loop model (i + length tried) untried
             (errors ++ failure_texts model i outcomes)
             (set_net w more (sent w ++ tried)).
Proof.
  induction tried as [|key tried IH];
    intros i untried outcomes more errors w Hlen Hnet Hfails.
  - destruct outcomes; [|discriminate]. simpl in *.
    rewrite Nat.add_0_r, !app_nil_r. rewrite <- Hnet. now destruct w.
  - destruct outcomes as [|o outcomes]; [discriminate|].
    simpl in Hlen. injection Hlen as Hlen. simpl in Hnet.
    cbn [app poe_loop]. unfold post. rewrite Hnet.
    destruct (Hfails 0 o eq_refl) as [error Herror]. rewrite Nat.add_0_r in Herror.
    cbn [failure_texts]. rewrite Herror.
    rewrite (IH (S i) untried outcomes more (errors ++ [error])
               (set_net w (outcomes ++ more) (sent w ++ [key])) Hlen eq_refl).
    + rewrite set_net_set_net. cbn [sent set_net length].
      rewrite <- !app_assoc. cbn [app].
      replace (S i + length tried) with (i + S (length tried)) by lia.
      reflexivity.
    + intros j o' Hj. replace (S i + j) with (i + S j) by lia.
      now apply (Hfails (S j) o').
Qed.

Lemma failure_texts_length `{Platform} (model : string) (outcomes : list http_outcome) :
  forall i : nat,
    (forall j o, nth_error outcomes j = Some o -> fails model (i + j) o) ->
    length (failure_texts model i outcomes) = length outcomes.
Proof.
  induction outcomes as [|o outcomes IH]; intros i Hfails; [reflexivity|].
  destruct (Hfails 0 o eq_refl) as [error Herror]. rewrite Nat.add_0_r in Herror.
  cbn [failure_texts]. rewrite Herror. simpl. f_equal. apply IH.
  intros j o' Hj. replace (S i + j) with (i + S j) by lia. now apply (Hfails (S j) o').
Qed.

(** C3, as the code has it. [chat_poe] tries the credentials in list order, one
    request each. An attempt succeeds exactly when the response is successful
    and its body has a well-formed choice list: an object whose [choices] is a
    non-empty list that starts with an object with a well-formed message.
    Every other attempt adds one text to [errors], labelled with the number of
    its credential (a non-success status, a body that is not JSON, a timeout
    and a connection failure each have a text of their own), and the next
    credential is tried. With three credentials, two responses with status 500
    and then a valid choice, the third credential succeeds and [errors] holds
    two entries. *)
Theorem chat_poe_fails_over_in_order `{Platform} (model : string) :
  (forall (i : nat) (o : http_outcome) (result : pyval),
      attempt_of model i o = Succeeded result <->
      exists r data content,
        o = Responds r /\ r_ok r = true /\ json r = Ok data /\
        choice_content data = Some content /\
        exists tokens,
          estimate_tokens content = Ok tokens /\
          result = PDict [("ok", PBool true); ("content", content);
                          ("model", PStr model); ("tokens", PInt tokens)]) /\
  (forall (i : nat) (r : response),
      r_ok r = false ->
      attempt_of model i (Responds r)
      = Failed (key_label i ++ "HTTP " ++ str_of_Z (status_code r))) /\
  (forall (i : nat) (r : response) (e : exn),
      r_ok r = true -> json r = Raise e -> exn_cls e = JSONDecodeError ->
      attempt_of model i (Responds r) = Failed (key_label i ++ "Malformed JSON")) /\
  (forall (i : nat) (e : exn),
      exn_cls e = Timeout ->
      attempt_of model i (Fails e) = Failed (key_label i ++ "Timeout")) /\
  (forall (i : nat) (e : exn),
      exn_cls e = ConnectionError ->
      attempt_of model i (Fails e) = Failed (key_label i ++ "Connection failed")) /\
  (forall (i : nat) (o : http_outcome) (error : string),
      attempt_of model i o = Failed error ->
      exists text, error = (key_label i ++ text)%string) /\
  (forall i j : nat, key_label i = key_label j -> i = j) /\
  (forall (tried : list string) (key : string) (untried : list string)
          (outcomes : list http_outcome) (o : http_outcome)
          (more : list http_outcome) (result : pyval) (w : World),
      length outcomes = length tried ->
      net w = outcomes ++ o :: more ->
      (forall j o', nth_error outcomes j = Some o' -> fails model j o') ->
      attempt_of model (length tried) o = Succeeded result ->
      poe_loop model 0 (tried ++ key :: untried) [] w =
        (Some result, failure_texts model 0 outcomes,
         set_net w more (sent w ++ tried ++ [key])) /\
      length (failure_texts model 0 outcomes) = length tried) /\
  (forall (credentials : list string) (outcomes more : list http_outcome) (w : World),
      length outcomes = length credentials ->
      net w = outcomes ++ more ->
      (forall j o', nth_error outcomes j = Some o' -> fails model j o') ->
      poe_loop model 0 credentials [] w =
        (None, failure_texts model 0 outcomes,
         set_net w more (sent w ++ credentials)) /\
      length (failure_texts model 0 outcomes) = length credentials) /\
  poe_loop model 0 ["k1"; "k2"; "k3"] [] failover_world =
    (Some (PDict [("ok", PBool true); ("content", PStr "done");
                  ("model", PStr model); ("tokens", PInt 1)]),
     ["Key 1: HTTP 500"; "Key 2: HTTP 500"],
     set_net failover_world [] ["k1"; "k2"; "k3"]).
Proof.
  split; [intros; apply attempt_succeeds_iff|].
  split; [intros i r Hok; unfold attempt_of; now rewrite Hok|].
  split.
  { intros i r e Hok Hjson Hcls. unfold attempt_of, read_choice, bind.
    now rewrite Hok, Hjson, Hcls. }
  split; [intros i e Hcls; unfold attempt_of, outer_error; now rewrite Hcls|].
  split; [intros i e Hcls; unfold attempt_of, outer_error; now rewrite Hcls|].
  split; [intros i o error; apply attempt_failed_label|].
  split; [apply key_label_inj|].
  split; [|split].
  - intros tried key untried outcomes o more result w Hlen Hnet Hfails Hok.
    split.
    + rewrite (poe_loop_failed_run model tried 0 (key :: untried) outcomes (o :: more)
                 [] w Hlen Hnet Hfails).
      cbn [poe_loop Nat.add app]. unfold post. cbn [net set_net].
      rewrite Hok. cbn [sent set_net]. now rewrite <- app_assoc.
    + rewrite <- Hlen. now apply failure_texts_length.
  - intros credentials outcomes more w Hlen Hnet Hfails. split.
    + rewrite <- (app_nil_r credentials) at 1.
      rewrite (poe_loop_failed_run model credentials 0 [] outcomes more [] w
                 Hlen Hnet Hfails).
      reflexivity.
    + rewrite <- Hlen. now apply failure_texts_length.
  - reflexivity.
Qed.

(** C3 as stated fails: the response is successful and its body holds a
    non-empty [choices] list, [[5]], and yet the attempt fails (the number has
    no [get]); its text goes to [errors] and the call ends as a failure. *)
Lemma poe_attempt_fails_on_choices_of_numbers :
  let r := mkresponse 200 (Ok (PDict [("choices", PList [PInt 5])])) in
  keys odd_choice_world = ["k1"] /\ net odd_choice_world = [Responds r] /\
  r_ok r = true /\
  (exists d l, json r = Ok (PDict d) /\ lookup d "choices" = Some (PList l) /\ l <> []) /\
  attempt_of "m" 0 (Responds r) = Failed "Key 1: get" /\
  field (fst (chat_poe "m" odd_choice_world)) "ok" = Some (PBool false).
Proof.
  cbv zeta. repeat split.
  exists [("choices", PList [PInt 5])], [PInt 5]. repeat split. discriminate.
Qed.

(* ================================================================== *)
(** ** The tool extractor *)
(* ================================================================== *)





















(* ================================================================== *)
(** ** The extractor and the exceptions of json.loads *)
(* ================================================================== *)









(** C4 at its failing input. The bare [edit_file] call of [nested_then_prose]
    is a JSON object with a [tool], followed by prose. The match of the bare
    pattern ends at the first closing brace, the one of the inner object; in
    that text the depth never comes back to zero, nothing is handed to
    [json.loads], and no tool call is extracted. A bare call without inner
    braces is extracted, and so is one that the match overshoots. *)
Theorem bare_scan_loses_nested_object :
  json_loads nested_object =
    Some (PDict [("tool", PStr "edit_file"); ("path", PStr "f");
                 ("edits", PList [PDict [("find", PStr "a"); ("replace", PStr "b")]])]) /\
  groups fenced_pattern nested_then_prose = [] /\
  groups tag_pattern nested_then_prose = [] /\
  groups bare_pattern nested_then_prose
  = [dq "{'tool':'edit_file','path':'f','edits':[{'find':'a','replace':'b'}"] /\
  balanced (groups bare_pattern nested_then_prose) = [] /\
  extract_tool_calls nested_then_prose = [] /\
  extract_tool_calls flat_then_prose
  = [PDict [("tool", PStr "read_file"); ("path", PStr "a")]] /\
  groups bare_pattern flat_then_letter = [dq "{'tool':'x','a':1}abc }"] /\
  extract_tool_calls flat_then_letter = [PDict [("tool", PStr "x"); ("a", PInt 1)]].
Proof. vm_compute. repeat split. Qed.



(* ================================================================== *)
(** ** The theorems at sample inputs *)
(* ================================================================== *)

Lemma edit_file_first_occurrence_in_order_witness :
  edit_loop [PDict [("find", PStr "a"); ("replace", PStr "b")]] "a a" 0
    = Ok ("b a", 1%Z) /\
  exists content' n,
    applies_edits [("a", "b")] "a a" content' n /\
    edit_loop [PDict [("find", PStr "a"); ("replace", PStr "b")]] "a a" 0
      = Ok (content', Z.of_nat n) /\
    edit_file edit_call edit_world =
      if (n =? 0)%nat then (Ok (failure "No matches found"), edit_world)
      else (Ok (success ("Edited: /f (" ++ str_of_Z (Z.of_nat n) ++ " changes)")),
            set_fs edit_world
              (update (fs edit_world) "/f"
                 (File (mkfile (utf8_len content') content' true true)))).
Proof.
  split; [reflexivity|].
  assert (Hpairs : Forall2 is_edit_pair
                     [PDict [("find", PStr "a"); ("replace", PStr "b")]] [("a", "b")]).
  { constructor; [|constructor].
    exists [("find", PStr "a"); ("replace", PStr "b")].
    repeat split. discriminate. }
  exact (edit_file_first_occurrence_in_order edit_world edit_call "/f"
           (mkfile 3 "a a" true true)
           [PDict [("find", PStr "a"); ("replace", PStr "b")]] [("a", "b")]
           eq_refl ltac:(discriminate) eq_refl eq_refl eq_refl
           ltac:(discriminate) Hpairs).
Defined.

(** C9 as stated fails: the pair matches (["a"] occurs in ["a a"]) and the
    call does not succeed, because the file may not be written; nothing is
    changed. *)
Lemma edit_file_fails_on_read_only_file :
  fs read_only_world "/f" = Some (File (mkfile 3 "a a" true false)) /\
  contains "a" "a a" = true /\
  edit_loop [PDict [("find", PStr "a"); ("replace", PStr "b")]] "a a" 0
    = Ok ("b a", 1%Z) /\
  edit_file edit_call read_only_world
    = (Ok (failure "Permission denied: /f"), read_only_world) /\
  field (failure "Permission denied: /f") "ok" = Some (PBool false).
Proof. repeat split. Qed.

Lemma patch_file_applies_descending_witness :
  patch_file patch_call patch_world =
    (Ok (success "Patched: /f (2 changes)"),
     set_fs patch_world
       (update (fs patch_world) "/f"
          (File (mkfile 4 ("X" ++ nl ++ "c" ++ nl) true true)))).
Proof.
  rewrite (proj1 patch_file_applies_descending patch_world patch_call "/f"
             (mkfile 6 sample_abc true true)
             [PDict [("line", PInt 2); ("action", PStr "delete")];
              PDict [("line", PInt 1); ("action", PStr "replace"); ("content", PStr "X")]]
             eq_refl ltac:(discriminate) eq_refl eq_refl eq_refl ltac:(discriminate)
             [(2%Z, [("line", PInt 2); ("action", PStr "delete")]);
              (1%Z, [("line", PInt 1); ("action", PStr "replace"); ("content", PStr "X")])]
             eq_refl).
  reflexivity.
Defined.

(** C8 as stated fails: with two patches on one line, the patch applied
    first shifts the line the second one is applied to. Of the lines
    [a, b, c], two patches that delete line 2 delete the lines 2 and 3, and
    a replacement of line 2 that follows an insertion before line 2
    replaces the inserted line: the line [b] of the file is still there. *)
Lemma patch_file_same_line_patches_shift :
  splitlines sample_abc = ["a" ++ nl; "b" ++ nl; "c" ++ nl]%string /\
  patch_file delete_twice_call patch_world =
    (Ok (success "Patched: /f (2 changes)"),
     set_fs patch_world
       (update (fs patch_world) "/f" (File (mkfile 2 ("a" ++ nl) true true)))) /\
  patch_file insert_then_replace_call patch_world =
    (Ok (success "Patched: /f (2 changes)"),
     set_fs patch_world
       (update (fs patch_world) "/f"
          (File (mkfile 8 ("a" ++ nl ++ "Z" ++ nl ++ "b" ++ nl ++ "c" ++ nl)
                        true true)))).
Proof. repeat split. Qed.

Lemma patch_file_final_line_terminated_witness :
  patch_file far_and_first_call unterminated_world =
    (Ok (success "Patched: /f (1 changes)"),
     set_fs unterminated_world
       (update (fs unterminated_world) "/f"
          (File (mkfile 4 ("X" ++ nl ++ "b" ++ nl) true true)))) /\
  (exists init l before after,
      splitlines ("a" ++ nl ++ "b") = init ++ [l] /\
      ("X" ++ nl ++ "b" ++ nl)%string = (before ++ l ++ nl ++ after)%string /\
      after = ""%string) /\
  ends_with_newline ("X" ++ nl ++ "b" ++ nl) = true.
Proof.
  destruct (patch_file_final_line_terminated unterminated_world far_and_first_call "/f"
              (mkfile 3 ("a" ++ nl ++ "b") true true)
              (PList far_and_first_patches)
              ("X" ++ nl ++ "b" ++ nl) 1
              eq_refl ltac:(discriminate) eq_refl eq_refl eq_refl eq_refl eq_refl eq_refl)
    as [Hrun [Hfinal [_ Hplain]]].
  split; [exact Hrun|]. split.
  - destruct (Hfinal ltac:(discriminate) eq_refl) as [_ [_ Hkeep]].
    destruct (Hkeep far_and_first_patches
                [(9%Z, [("line", PInt 9); ("action", PStr "delete")]);
                 (1%Z, [("line", PInt 1); ("action", PStr "replace");
                        ("content", PStr "X")])]
                eq_refl eq_refl)
      as [init [l [Hsplit [_ Hdistinct]]]].
    destruct Hdistinct as [before [after [Htext Hafter]]].
    + intros q [<-|[<-|[]]]; vm_compute; discriminate.
    + vm_compute. constructor; [intros [] | constructor].
    + exists init, l, before, after. split; [exact Hsplit|]. split; [exact Htext|].
      apply Hafter. intros q [<-|[<-|[]]]; vm_compute; discriminate.
  - destruct (Hplain eq_refl) as [Hempty | Hend]; [discriminate Hempty | exact Hend].
Defined.

(** C10 as stated fails: the call succeeds and the file it writes, ["a\f"], is
    not empty and does not end with a newline. And a final line that no
    patch is on can go: two patches that delete line 1 of ["a\nb"] leave
    nothing of the file. *)
Lemma patch_file_can_end_without_newline :
  universal_newlines ("a" ++ form_feed ++ "b") = ("a" ++ form_feed ++ "b")%string /\
  patch_file delete_line_2_call paged_world =
    (Ok (success "Patched: /f (1 changes)"),
     set_fs paged_world
       (update (fs paged_world) "/f"
          (File (mkfile 2 ("a" ++ form_feed) true true)))) /\
  ("a" ++ form_feed)%string <> ""%string /\
  ends_with_newline ("a" ++ form_feed) = false /\
  patch_file delete_first_twice_call unterminated_world =
    (Ok (success "Patched: /f (2 changes)"),
     set_fs unterminated_world
       (update (fs unterminated_world) "/f" (File (mkfile 0 "" true true)))).
Proof.
  split; [reflexivity|]. split; [reflexivity|]. split; [discriminate|].
  split; reflexivity.
Qed.

Lemma execute_tool_returns_witness :
  exists r w', execute_tool (PDict write_call) deny_world = (Ok r, w').
Proof.
  apply (execute_tool_returns (PDict write_call) deny_world).
  intros d Hd _ Hpath. injection Hd as <-. discriminate Hpath.
Defined.
(* ################################################################## *)
(** * Part II, continued: more properties *)
(* ################################################################## *)

(* ================================================================== *)
(** ** More on context trimming *)
(* ================================================================== *)

Lemma filter_is_system_non_system (l : list message) :
  filter is_system (filter non_system l) = [].
Proof.
  induction l as [|m l IH]; [reflexivity|]. simpl. unfold non_system at 1.
  destruct (is_system m) eqn:Hm; simpl; [exact IH|]. now rewrite Hm.
Qed.

Lemma filter_idem {A} (f : A -> bool) (l : list A) : filter f (filter f l) = filter f l.
Proof.
  induction l as [|x l IH]; [reflexivity|]. simpl.
  destruct (f x) eqn:Hx; simpl; [rewrite Hx; now f_equal | exact IH].
Qed.

Lemma filter_non_system_system (l : list message) :
  filter non_system (filter is_system l) = [].
Proof.
  induction l as [|m l IH]; [reflexivity|]. simpl.
  destruct (is_system m) eqn:Hm; simpl; [|exact IH].
  unfold non_system at 1. now rewrite Hm.
Qed.

Lemma filter_skipn_all {A} (f : A -> bool) (n : nat) (l : list A) :
  filter f l = l -> filter f (skipn n l) = skipn n l.
Proof.
  revert n. induction l as [|x l IH]; intros n Hl; [now destruct n|].
  simpl in Hl. destruct (f x) eqn:Hx.
  - injection Hl as Hl. destruct n; simpl; [now rewrite Hx, Hl | now apply IH].
  - exfalso. assert (Hlen : length (filter f l) <= length l) by apply filter_length_le.
    rewrite Hl in Hlen. simpl in Hlen. lia.
Qed.

Lemma filter_skipn_none {A} (f : A -> bool) (n : nat) (l : list A) :
  filter f l = [] -> filter f (skipn n l) = [].
Proof.
  revert n. induction l as [|x l IH]; intros n Hl; [now destruct n|].
  simpl in Hl. destruct (f x) eqn:Hx; [discriminate|].
  destruct n; simpl; [now rewrite Hx | now apply IH].
Qed.

Lemma slice_from_neg_skipn {A} (k : Z) (l : list A) :
  (0 < k)%Z -> slice_from (- k) l = skipn (length l - Z.to_nat k) l.
Proof.
  intros Hk. rewrite slice_from_neg_most_recent by exact Hk. apply most_recent_skipn.
Qed.

Lemma trim_context_system (messages : list message) (max_msgs : Z) :
  filter is_system (trim_context messages max_msgs) = filter is_system messages.
Proof.
  unfold trim_context. destruct (len messages <=? max_msgs)%Z; [reflexivity|].
  rewrite filter_app, filter_idem, slice_from_neg_skipn by lia.
  rewrite filter_skipn_none by apply filter_is_system_non_system.
  apply app_nil_r.
Qed.

Lemma trim_context_others (messages : list message) (max_msgs : Z) :
  (max_msgs < len messages)%Z ->
  filter non_system (trim_context messages max_msgs) =
    slice_from (- Z.max (max_msgs - len (filter is_system messages)) 2)
               (filter non_system messages).
Proof.
  intros Hlong. unfold trim_context.
  replace (len messages <=? max_msgs)%Z with false by (symmetry; apply Z.leb_gt; lia).
  rewrite filter_app, filter_non_system_system. cbn [app].
  rewrite slice_from_neg_skipn by lia.
  apply filter_skipn_all, filter_idem.
Qed.

(** X3. Trimming twice is trimming once. *)
Theorem trim_context_idempotent (messages : list message) (max_msgs : Z) :
  trim_context (trim_context messages max_msgs) max_msgs
  = trim_context messages max_msgs.
Proof.
  destruct (Z.leb_spec (len messages) max_msgs) as [Hshort|Hlong].
  - rewrite (trim_context_short messages max_msgs Hshort).
    now apply trim_context_short.
  - destruct (Z.leb_spec (len (trim_context messages max_msgs)) max_msgs) as [Hs|Hl].
    + now apply trim_context_short.
    + unfold trim_context at 1.
      replace (len (trim_context messages max_msgs) <=? max_msgs)%Z with false
        by (symmetry; apply Z.leb_gt; lia).
      rewrite trim_context_system, trim_context_others by exact Hlong.
      set (keep := Z.max (max_msgs - len (filter is_system messages)) 2).
      assert (Hkeep : (0 < keep)%Z) by (unfold keep; lia).
      unfold trim_context.
      replace (len messages <=? max_msgs)%Z with false by (symmetry; apply Z.leb_gt; lia).
      fold keep. f_equal.
      rewrite !slice_from_neg_skipn by exact Hkeep.
      rewrite length_skipn.
      replace (length (filter non_system messages)
               - (length (filter non_system messages) - Z.to_nat keep) - Z.to_nat keep)
        with 0 by lia.
      reflexivity.
Qed.

(** X4. The result is never longer than the conversation, and it is within
    [max_msgs] unless the system messages leave fewer than two places: then it
    is the system messages and two others. *)
Theorem trim_context_length (messages : list message) (max_msgs : Z) :
  (len (trim_context messages max_msgs) <= len messages)%Z /\
  (len (trim_context messages max_msgs)
   <= Z.max max_msgs (len (filter is_system messages) + 2))%Z.
Proof.
  destruct (Z.leb_spec (len messages) max_msgs) as [Hshort|Hlong].
  - rewrite trim_context_short by exact Hshort. lia.
  - unfold trim_context.
    replace (len messages <=? max_msgs)%Z with false by (symmetry; apply Z.leb_gt; lia).
    set (keep := Z.max (max_msgs - len (filter is_system messages)) 2).
    assert (Hkeep : (0 < keep)%Z) by (unfold keep; lia).
    rewrite slice_from_neg_skipn by exact Hkeep.
    pose proof (filter_partition_length is_system messages) as Hpart.
    change (fun x => negb (is_system x)) with non_system in Hpart.
    unfold len in *. rewrite length_app, length_skipn. lia.
Qed.

(* ================================================================== *)
(** ** The agent loop and the system messages *)
(* ================================================================== *)

Lemma is_system_turn (role : string) (content : pyval) :
  is_system (turn role content) = (role =? "system").
Proof. reflexivity. Qed.

Lemma agent_step_system `{Platform} (settings : pydict) (messages : list message)
      (w w' : World) (s : step) :
  agent_step settings messages w = (Ok s, w') ->
  filter is_system (match s with Continue m | Return m => m end)
  = filter is_system messages.
Proof.
  unfold agent_step, mbind, lift.
  destruct (chat settings w) as [[result|e] w1]; [|discriminate].
  destruct (py_get result "ok" PNone) as [ok|e]; [|discriminate].
  destruct (negb (truthy ok)).
  - intros [= <- <-]. apply trim_context_system.
  - destruct (py_get result "content" (PStr "")) as [response|e]; [|discriminate].
    destruct (extract_from response) as [[|c tools]|e]; [| |discriminate].
    + intros [= <- <-]. rewrite filter_app. cbn [filter].
      rewrite is_system_turn. cbn. rewrite app_nil_r. apply trim_context_system.
    + destruct (run_tools (c :: tools) w1) as [[entries|e] w2]; [|discriminate].
      intros [= <- <-]. rewrite filter_app. cbn [filter].
      rewrite !is_system_turn. cbn. rewrite app_nil_r. apply trim_context_system.
Qed.

(** X5. Whatever the backend answers and the tools do, the conversation that
    [agent_loop] returns has the system messages it was given: none is
    dropped, added or moved past another. *)
Theorem agent_loop_keeps_system_messages `{Platform} (settings : pydict)
        (messages out : list message) (w w' : World) :
  agent_loop settings messages w = (Ok out, w') ->
  filter is_system out = filter is_system messages.
Proof.
  unfold agent_loop. generalize MAX_TOOL_LOOPS as n. intros n.
  revert messages w. induction n as [|n IH]; intros messages w.
  - now intros [= <- <-].
  - cbn [agent_loop_for]. unfold mbind at 1.
    destruct (agent_step settings messages w) as [[s|e] w1] eqn:Hstep; [|discriminate].
    apply agent_step_system in Hstep. destruct s as [m|m].
    + intros Hrest. rewrite (IH _ _ Hrest). exact Hstep.
    + now intros [= <- <-].
Qed.

(* ================================================================== *)
(** ** read_file: line ranges *)
(* ================================================================== *)

Lemma read_text_world (p : string) (w : World) : snd (read_text p w) = w.
Proof.
  unfold read_text. destruct (fs w p) as [[|f]|]; try reflexivity.
  now destruct (readable f).
Qed.

Lemma try_except_world {A} (body handler : M A) (cls : exn_class) (w : World) :
  snd (body w) = w -> (forall w0, snd (handler w0) = w0) ->
  snd (try_except body cls handler w) = w.
Proof.
  intros Hbody Hhandler. unfold try_except.
  destruct (body w) as [[a|e] w1]; cbn [snd] in *; [exact Hbody|].
  subst w1. destruct (exn_class_eqb _ _); [apply Hhandler | reflexivity].
Qed.

Lemma read_file_body_world `{Platform} (p : string) (f : file)
      (start_line end_line : pyval) (w : World) :
  snd (read_file_body p f start_line end_line w) = w.
Proof.
  unfold read_file_body.
  destruct ((st_size f >? 400000)%Z && is_none start_line); [reflexivity|].
  unfold mbind. pose proof (read_text_world p w) as Hread.
  destruct (read_text p w) as [[content|e] w1]; cbn [snd] in Hread; subst w1;
    [|reflexivity].
  destruct (negb (is_none start_line)).
  - unfold lift. destruct (py_int start_line) as [s|e]; [|reflexivity].
    destruct (negb (is_none end_line)).
    + destruct (bind _ _) as [stop|e]; [|reflexivity].
      now destruct (_ >=? _)%Z.
    + unfold ret. now destruct (_ >=? _)%Z.
  - now destruct (st_size f >? MAX_FILE_SIZE)%Z.
Qed.

Lemma read_file_world `{Platform} (call : pydict) (w : World) :
  snd (read_file call w) = w.
Proof.
  unfold read_file.
  destruct (negb (truthy (dict_get call "path" (PStr "")))); [reflexivity|].
  unfold mbind, lift.
  destruct (to_path (dict_get call "path" (PStr ""))) as [p|e]; [|reflexivity].
  destruct (fs w p) as [[|f]|]; try reflexivity.
  apply try_except_world; [apply read_file_body_world | reflexivity].
Qed.

Lemma read_file_ranged `{Platform} (w : World) (call : pydict) (path : string)
      (f : file) (s stop : Z) :
  dict_get call "path" (PStr "") = PStr path -> path <> "" ->
  fs w (resolve path) = Some (File f) -> readable f = true ->
  dict_get call "start_line" PNone = PInt s ->
  (dict_get call "end_line" PNone = PNone /\ stop = len (file_lines f) \/
   exists e, dict_get call "end_line" PNone = PInt e /\
             stop = Z.min (len (file_lines f)) e) ->
  read_file call w =
    (Ok (if (Z.max 0 (s - 1) >=? len (file_lines f))%Z
         then failure ("Start line " ++ str_of_Z s ++ " out of range (max "
                         ++ str_of_Z (len (file_lines f)) ++ ")")
         else ranged (concat_lines (slice (Z.max 0 (s - 1)) stop (file_lines f)))
                     (Z.max 0 (s - 1) + 1) stop), w).
Proof.
  intros Hpath Hne Hfs Hread Hstart Hend.
  unfold read_file. rewrite Hpath, (truthy_PStr path Hne).
  unfold mbind, lift, to_path. cbv beta iota delta [negb]. rewrite Hfs, Hstart.
  unfold try_except, read_file_body. cbn [is_none]. rewrite andb_false_r.
  unfold mbind, read_text. rewrite Hfs, Hread. cbv beta iota delta [negb].
  unfold lift. cbn [py_int]. fold (file_lines f).
  destruct Hend as [[-> ->]|[e [-> ->]]]; cbn [is_none]; cbv beta iota delta [negb].
  - unfold ret. cbn [str_of]. now destruct (_ >=? _)%Z.
  - cbn [py_int bind]. unfold ret. cbn [str_of]. now destruct (_ >=? _)%Z.
Qed.

Lemma concat_lines_app (a b : list string) :
  concat_lines (a ++ b) = (concat_lines a ++ concat_lines b)%string.
Proof.
  induction a as [|l a IH]; [reflexivity|].
  cbn [app]. rewrite !concat_lines_cons, IH. now rewrite append_assoc.
Qed.

Lemma slice_in_range {A} (a b : Z) (l : list A) :
  (0 <= a <= b)%Z -> (b <= len l)%Z ->
  slice a b l = firstn (Z.to_nat (b - a)) (skipn (Z.to_nat a) l).
Proof.
  intros Hab Hb. unfold slice, clamp_index.
  replace (a <? 0)%Z with false by (symmetry; apply Z.ltb_ge; lia).
  replace (b <? 0)%Z with false by (symmetry; apply Z.ltb_ge; lia).
  rewrite !Z.min_l by lia. f_equal. lia.
Qed.

Lemma firstn_plus {A} (a b : nat) (l : list A) :
  firstn (a + b) l = firstn a l ++ firstn b (skipn a l).
Proof.
  revert l. induction a as [|a IH]; intros l; [reflexivity|].
  destruct l as [|x l]; [now destruct b|].
  cbn [Nat.add firstn skipn app]. now rewrite IH.
Qed.

Lemma lines_between_split (first mid last : Z) (lines : list string) :
  (1 <= first <= mid)%Z -> (mid < last)%Z ->
  lines_between first last lines
  = lines_between first mid lines ++ lines_between (mid + 1) last lines.
Proof.
  intros H1 H2. unfold lines_between.
  replace (Z.to_nat (last - first + 1))
    with (Z.to_nat (mid - first + 1) + Z.to_nat (last - (mid + 1) + 1)) by lia.
  rewrite firstn_plus. f_equal. rewrite skipn_skipn. do 2 f_equal. lia.
Qed.

Lemma read_file_lines_run `{Platform} (w : World) (path : string) (f : file)
      (first last : Z) :
  path <> "" -> fs w (resolve path) = Some (File f) -> readable f = true ->
  (1 <= first <= last)%Z -> (last <= len (file_lines f))%Z ->
  read_file (range_call path first last) w =
    (Ok (ranged (concat_lines (lines_between first last (file_lines f))) first last), w).
Proof.
  intros Hne Hfs Hread Hfirst Hlast.
  rewrite (read_file_ranged w (range_call path first last) path f first last
             eq_refl Hne Hfs Hread eq_refl).
  - replace (Z.max 0 (first - 1) >=? len (file_lines f))%Z with false
      by (symmetry; rewrite Z.geb_leb; apply Z.leb_gt; lia).
    rewrite Z.max_r by lia. rewrite slice_in_range by lia.
    unfold lines_between.
    replace (last - (first - 1))%Z with (last - first + 1)%Z by lia.
    replace (first - 1 + 1)%Z with first by lia. reflexivity.
  - right. exists last. split; [reflexivity | lia].
Qed.

(** X7. A ranged read gives the lines asked for, counted from 1 and with their
    line ends, and a file can be read in pieces: the text of the lines
    [first] to [mid] followed by the text of the lines [mid + 1] to [last] is
    the text of the lines [first] to [last]; the lines 1 to the last one are
    the content (as text mode reads it), whatever the size of the file. *)
Theorem read_file_ranges_compose `{Platform} (w : World) (path : string) (f : file)
        (first mid last : Z) :
  path <> "" -> fs w (resolve path) = Some (File f) -> readable f = true ->
  (1 <= first <= mid)%Z -> (mid < last)%Z -> (last <= len (file_lines f))%Z ->
  exists a b : string,
    read_file (range_call path first mid) w = (Ok (ranged a first mid), w) /\
    read_file (range_call path (mid + 1) last) w = (Ok (ranged b (mid + 1) last), w) /\
    read_file (range_call path first last) w = (Ok (ranged (a ++ b) first last), w) /\
    a = concat_lines (lines_between first mid (file_lines f)) /\
    b = concat_lines (lines_between (mid + 1) last (file_lines f)) /\
    (first = 1%Z -> last = len (file_lines f) ->
     (a ++ b)%string = universal_newlines (data f)).
Proof.
  intros Hne Hfs Hread Hfirst Hmid Hlast.
  exists (concat_lines (lines_between first mid (file_lines f))),
         (concat_lines (lines_between (mid + 1) last (file_lines f))).
  rewrite <- concat_lines_app, <- lines_between_split by lia.
  repeat split.
  - apply read_file_lines_run; try assumption; lia.
  - apply read_file_lines_run; try assumption; lia.
  - apply read_file_lines_run; try assumption; lia.
  - intros -> ->. unfold lines_between, len.
    replace (Z.to_nat (1 - 1)) with 0 by lia. cbn [skipn].
    rewrite firstn_all2 by lia. apply splitlines_concat.
Qed.

(** X8. A ranged read that starts after the last line fails, and tells the number
    of lines; on an empty file every ranged read fails. A start line of 0 or
    less stands for line 1. *)
Theorem read_file_start_out_of_range `{Platform} (w : World) (call : pydict)
        (path : string) (f : file) (s : Z) :
  dict_get call "path" (PStr "") = PStr path -> path <> "" ->
  fs w (resolve path) = Some (File f) -> readable f = true ->
  dict_get call "start_line" PNone = PInt s ->
  (dict_get call "end_line" PNone = PNone \/
   exists e, dict_get call "end_line" PNone = PInt e) ->
  (len (file_lines f) < s \/ file_lines f = [])%Z ->
  read_file call w =
    (Ok (failure ("Start line " ++ str_of_Z s ++ " out of range (max "
                    ++ str_of_Z (len (file_lines f)) ++ ")")), w).
Proof.
  intros Hpath Hne Hfs Hread Hstart Hend Hout.
  assert (Hend' : exists stop,
             dict_get call "end_line" PNone = PNone /\ stop = len (file_lines f) \/
             exists e, dict_get call "end_line" PNone = PInt e /\
                       stop = Z.min (len (file_lines f)) e).
  { destruct Hend as [Hnone|[e He]].
    - exists (len (file_lines f)). now left.
    - exists (Z.min (len (file_lines f)) e). right. now exists e. }
  destruct Hend' as [stop Hstop].
  rewrite (read_file_ranged w call path f s stop Hpath Hne Hfs Hread Hstart Hstop).
  replace (Z.max 0 (s - 1) >=? len (file_lines f))%Z with true; [reflexivity|].
  symmetry. rewrite Z.geb_leb. apply Z.leb_le.
  destruct Hout as [Hlt|Hnil]; [lia|]. rewrite Hnil. unfold len. simpl. lia.
Qed.

(* ================================================================== *)
(** ** chat_poe: the requests made *)
(* ================================================================== *)

Lemma attempt_succeeded_ok `{Platform} (model : string) (i : nat) (o : http_outcome)
      (result : pyval) :
  attempt_of model i o = Succeeded result -> field result "ok" = Some (PBool true).
Proof.
  intros Hok. apply attempt_succeeds_iff in Hok.
  destruct Hok as (r & data & content & _ & _ & _ & _ & tokens & _ & ->).
  reflexivity.
Qed.

Lemma poe_loop_requests `{Platform} (model : string) (credentials : list string) :
  forall (i : nat) (errors : list string) (w : World),
    exists n : nat,
      n <= length credentials /\
      sent (snd (poe_loop model i credentials errors w))
      = sent w ++ firstn n credentials /\
      net (snd (poe_loop model i credentials errors w)) = skipn n (net w) /\
      same_but_net w (snd (poe_loop model i credentials errors w)) /\
      match fst (fst (poe_loop model i credentials errors w)) with
      | Some result => 1 <= n /\ field result "ok" = Some (PBool true)
      | None => n = length credentials
      end.
Proof.
  induction credentials as [|key others IH]; intros i errors w.
  - exists 0. cbn [poe_loop fst snd length firstn skipn]. rewrite app_nil_r.
    repeat split; lia.
  - cbn [poe_loop]. destruct (post key w) as [o w1] eqn:Hpost.
    assert (Hw1 : sent w1 = sent w ++ [key] /\ net w1 = skipn 1 (net w)
                  /\ same_but_net w w1).
    { unfold post in Hpost. destruct (net w) as [|o' coming];
        injection Hpost as <- <-; repeat split. }
    destruct Hw1 as (Hsent & Hnet & Hsame).
    destruct (attempt_of model i o) as [result|error] eqn:Hattempt.
    + exists 1. cbn [fst snd length firstn]. repeat split; try assumption; try lia;
        try apply Hsame.
      now apply (attempt_succeeded_ok model i o).
    + destruct (IH (S i) (errors ++ [error]) w1) as (n & Hn & Hs & Hnt & Hsm & Hres).
      exists (S n). cbn [length firstn]. split; [lia|].
      split; [rewrite Hs, Hsent, <- app_assoc; reflexivity|].
      split; [rewrite Hnt, Hnet, skipn_skipn; f_equal; lia|].
      split.
      { destruct Hsame as (a & b & c & d & e), Hsm as (a' & b' & c' & d' & e').
        repeat split; congruence. }
      destruct (fst (fst (poe_loop model (S i) others (errors ++ [error]) w1)));
        [split; [lia | apply Hres] | now f_equal].
Qed.


Lemma poe_loop_errors `{Platform} (model : string) (credentials : list string) :
  forall (i : nat) (errors : list string) (w : World),
    fst (fst (poe_loop model i credentials errors w)) = None ->
    exists reasons : list string,
      length reasons = length credentials /\
      snd (fst (poe_loop model i credentials errors w)) = errors ++ labelled i reasons.
Proof.
  induction credentials as [|key others IH]; intros i errors w.
  - intros _. exists []. cbn. now rewrite app_nil_r.
  - cbn [poe_loop]. destruct (post key w) as [o w1].
    destruct (attempt_of model i o) as [result|error] eqn:Hattempt; [discriminate|].
    intros Hnone. destruct (IH _ _ _ Hnone) as (reasons & Hlen & Herrors).
    destruct (attempt_failed_label model i o error Hattempt) as [text ->].
    exists (text :: reasons). split; [cbn; now rewrite Hlen|].
    rewrite Herrors, <- app_assoc. reflexivity.
Qed.

(** X10. When no credential succeeds, the error of [chat_poe] is made of the
    texts of the last three attempts, each labelled with the number of its
    credential and in the order of the attempts; what the earlier attempts
    failed with is not reported. *)
Theorem chat_poe_reports_last_three_errors `{Platform} (model : string) (w : World) :
  keys w <> [] ->
  field (fst (chat_poe model w)) "ok" = Some (PBool false) ->
  exists reasons : list string,
    length reasons = length (keys w) /\
    fst (chat_poe model w)
    = failure (join_with "; " (most_recent 3 (labelled 0 reasons))).
Proof.
  intros Hkeys Hfail. unfold chat_poe in *.
  destruct (keys w) as [|key others] eqn:Hk; [contradiction|].
  pose proof (poe_loop_requests model (key :: others) 0 [] w)
    as (n & _ & _ & _ & _ & Hres).
  pose proof (poe_loop_errors model (key :: others) 0 [] w) as Herrors.
  destruct (poe_loop model 0 (key :: others) [] w) as [[[result|] errors] w'];
    cbn [fst snd] in *.
  - destruct Hres as [_ Hok]. rewrite Hok in Hfail. discriminate.
  - destruct (Herrors eq_refl) as (reasons & Hlen & ->). exists reasons.
    split; [exact Hlen|]. cbn [app].
    destruct reasons as [|t reasons]; [discriminate|].
    change (-3)%Z with (- (3))%Z.
    rewrite slice_from_neg_most_recent by lia. reflexivity.
Qed.

(* ================================================================== *)
(** ** edit_file and patch_file: what they leave alone *)
(* ================================================================== *)

Lemma write_text_touches (p content : string) (w : World) :
  exists_ w p = true ->
  snd (write_text p content w) = w \/ touches_only p w (snd (write_text p content w)).
Proof.
  unfold exists_, write_text. intros Hp.
  destruct (fs w p) as [[|f]|] eqn:Hfs; [now left| |discriminate].
  destruct (writable f); [|now left]. right. cbn [snd].
  unfold touches_only, exists_, set_fs, update. cbn [fs trust_session answers
    session_todo keys net sent].
  repeat split. 
  - intros q Hq. apply String.eqb_neq in Hq. now rewrite Hq.
  - intros q. destruct (q =? p) eqn:Hq; [|reflexivity].
    apply String.eqb_eq in Hq. subst q. now rewrite Hfs.
Qed.

Lemma guarded_write_touches {A} (p content : string) (denied : A) (k : unit + A -> M A)
      (w : World) :
  exists_ w p = true -> (forall x w0, snd (k x w0) = w0) ->
  let w' := snd (mbind (try_except (mbind (write_text p content) (fun u => ret (inl u)))
                                   PermissionError (ret (inr denied))) k w) in
  w' = w \/ touches_only p w w'.
Proof.
  intros Hp Hk. cbv zeta. unfold mbind, try_except, ret.
  pose proof (write_text_touches p content w Hp) as Hwrite.
  destruct (write_text p content w) as [[u|e] w1]; cbn [snd] in Hwrite.
  - now rewrite Hk.
  - destruct (exn_class_eqb _ _); [now rewrite Hk | exact Hwrite].
Qed.

Lemma guarded_read_world (p : string) (denied : pyval) (w : World) :
  snd (try_except (mbind (read_text p) (fun r => ret (inl r)))
                  PermissionError (ret (inr denied)) w) = w.
Proof.
  apply try_except_world; [|reflexivity].
  unfold mbind. pose proof (read_text_world p w) as Hread.
  now destruct (read_text p w) as [[content|e] w1].
Qed.

Lemma edit_file_touches `{Platform} (call : pydict) (w : World) :
  snd (edit_file call w) = w \/
  exists path, dict_get call "path" (PStr "") = PStr path /\
               touches_only (resolve path) w (snd (edit_file call w)).
Proof.
  remember (edit_file call w) as out eqn:Hout. symmetry in Hout. revert Hout.
  unfold edit_file.
  destruct (negb (truthy (dict_get call "path" (PStr "")))); [now intros <-; left|].
  unfold mbind at 1, lift at 1.
  destruct (dict_get call "path" (PStr "")) as [| | |path| |] eqn:Hpath;
    cbn [to_path]; try (now intros <-; left).
  destruct (negb (exists_ w (resolve path))) eqn:Hexists; [now intros <-; left|].
  apply negb_false_iff in Hexists.
  destruct (negb (truthy (dict_get call "edits" (PList [])))); [now intros <-; left|].
  unfold mbind at 1.
  pose proof (guarded_read_world (resolve path)
                (failure ("Permission denied: " ++ resolve path)) w) as Hread.
  destruct (try_except _ _ _ w) as [[[content|denied]|e] w1]; cbn [snd] in Hread;
    subst w1; try (now intros <-; left).
  unfold mbind at 1, lift at 1.
  destruct (py_iter _) as [es|e]; [|now intros <-; left].
  unfold mbind at 1, lift at 1.
  destruct (edit_loop es content 0) as [[content' changes]|e]; [|now intros <-; left].
  destruct (changes =? 0)%Z; [now intros <-; left|].
  intros <-.
  destruct (guarded_write_touches (resolve path) content'
              (failure ("Permission denied: " ++ resolve path))
              (fun wr => match wr with
                         | inr denied => ret denied
                         | inl _ => ret (success ("Edited: " ++ resolve path ++ " ("
                                                    ++ str_of_Z changes ++ " changes)"))
                         end) w Hexists) as [Hsame|Htouch].
  - intros [u|x] w0; reflexivity.
  - now left.
  - right. exists path. split; [reflexivity | exact Htouch].
Qed.

Lemma patch_file_touches `{Platform} (call : pydict) (w : World) :
  snd (patch_file call w) = w \/
  exists path, dict_get call "path" (PStr "") = PStr path /\
               touches_only (resolve path) w (snd (patch_file call w)).
Proof.
  remember (patch_file call w) as out eqn:Hout. symmetry in Hout. revert Hout.
  unfold patch_file.
  destruct (negb (truthy (dict_get call "path" (PStr "")))); [now intros <-; left|].
  unfold mbind at 1, lift at 1.
  destruct (dict_get call "path" (PStr "")) as [| | |path| |] eqn:Hpath;
    cbn [to_path]; try (now intros <-; left).
  destruct (negb (exists_ w (resolve path))) eqn:Hexists; [now intros <-; left|].
  apply negb_false_iff in Hexists.
  destruct (negb (truthy (dict_get call "patches" (PList [])))); [now intros <-; left|].
  unfold mbind at 1.
  pose proof (guarded_read_world (resolve path)
                (failure ("Permission denied: " ++ resolve path)) w) as Hread.
  destruct (try_except _ _ _ w) as [[[content|denied]|e] w1]; cbn [snd] in Hread;
    subst w1; try (now intros <-; left).
  unfold mbind at 1, lift at 1.
  destruct (patch_content _ content) as [[text changes]|e]; [|now intros <-; left].
  intros <-.
  destruct (guarded_write_touches (resolve path) text
              (failure ("Permission denied: " ++ resolve path))
              (fun wr => match wr with
                         | inr denied => ret denied
                         | inl _ => ret (success ("Patched: " ++ resolve path ++ " ("
                                                    ++ str_of_Z changes ++ " changes)"))
                         end) w Hexists) as [Hsame|Htouch].
  - intros [u|x] w0; reflexivity.
  - now left.
  - right. exists path. split; [reflexivity | exact Htouch].
Qed.

(** X11. [edit_file] and [patch_file] change the content of the file they are
    given and nothing else: no other path, no session state, no network
    state; and they neither create nor remove a path. *)
Theorem edit_and_patch_touch_only_the_named_file `{Platform} (call : pydict) (w : World) :
  (snd (edit_file call w) = w \/
   exists path, dict_get call "path" (PStr "") = PStr path /\
                touches_only (resolve path) w (snd (edit_file call w))) /\
  (snd (patch_file call w) = w \/
   exists path, dict_get call "path" (PStr "") = PStr path /\
                touches_only (resolve path) w (snd (patch_file call w))).
Proof. split; [apply edit_file_touches | apply patch_file_touches]. Qed.

(* ================================================================== *)
(** ** search_file *)
(* ================================================================== *)

Lemma search_file_world `{Platform} (call : pydict) (w : World) :
  snd (search_file call w) = w.
Proof.
  unfold search_file.
  destruct (negb (truthy (dict_get call "path" (PStr "")))); [reflexivity|].
  unfold mbind at 1, lift at 1.
  destruct (to_path (dict_get call "path" (PStr ""))) as [p|e]; [|reflexivity].
  destruct (negb (exists_ w p)); [reflexivity|].
  destruct (negb (truthy (dict_get call "pattern" (PStr "")))); [reflexivity|].
  unfold mbind at 1.
  pose proof (guarded_read_world p (failure ("Permission denied: " ++ p)) w) as Hread.
  destruct (try_except _ _ _ w) as [[[content|denied]|e] w1]; cbn [snd] in Hread;
    subst w1; try reflexivity.
  unfold mbind, lift. destruct (py_lower _) as [pattern_lower|e]; [|reflexivity].
  now destruct (search_matches _ _ _).
Qed.

(** X6. [read_file] and [search_file] change nothing: whatever the call and
    whatever the answer, the files, the session and the network are as they
    were. *)
Theorem read_file_and_search_file_change_nothing `{Platform} (call : pydict) (w : World) :
  snd (read_file call w) = w /\ snd (search_file call w) = w.
Proof. split; [apply read_file_world | apply search_file_world]. Qed.

Lemma lower_char_idem (c : ascii) : lower_char (lower_char c) = lower_char c.
Proof.
  destruct c as [[] [] [] [] [] [] [] []]; reflexivity.
Qed.

Lemma lower_idem (s : string) : lower (lower s) = lower s.
Proof.
  induction s as [|c s IH]; [reflexivity|]. cbn [lower].
  now rewrite lower_char_idem, IH.
Qed.

Lemma lower_empty (s : string) : (lower s =? "") = (s =? "").
Proof. now destruct s. Qed.

(** X12. The search does not tell capital from small letters in the pattern: the
    pattern in small letters gives the same answer, whatever the call and the
    files. *)
Theorem search_file_ignores_case_of_pattern `{Platform}
        (others : pydict) (pattern : string) (w : World) :
  search_file (("pattern", PStr (lower pattern)) :: others) w
  = search_file (("pattern", PStr pattern) :: others) w.
Proof.
  unfold search_file.
  assert (Hget : forall (k : string) (x default : pyval),
             k <> "pattern" ->
             dict_get (("pattern", x) :: others) k default = dict_get others k default).
  { intros k x default Hk. unfold dict_get. cbn [lookup].
    replace ("pattern" =? k) with false; [reflexivity|].
    symmetry. apply String.eqb_neq. congruence. }
  rewrite !(Hget "path") by discriminate.
  change (dict_get (("pattern", PStr (lower pattern)) :: others) "pattern" (PStr ""))
    with (PStr (lower pattern)).
  change (dict_get (("pattern", PStr pattern) :: others) "pattern" (PStr ""))
    with (PStr pattern).
  cbn [truthy py_lower]. rewrite lower_empty, lower_idem. reflexivity.
Qed.

Lemma search_matches_rows (pattern_lower : string) (lines : list string) (i : Z) :
  search_matches pattern_lower i lines
  = map (fun il : Z * string => (str_of_Z (fst il) ++ ": " ++ take 120 (snd il))%string)
        (filter (fun il : Z * string => contains pattern_lower (lower (snd il)))
                (enumerate lines i)).
Proof.
  revert i. induction lines as [|line rest IH]; intros i; [reflexivity|].
  cbn [search_matches enumerate filter snd].
  destruct (contains pattern_lower (lower line)); cbn [map fst snd]; now rewrite IH.
Qed.

(** X13. On a readable file and with a pattern that is a non-empty string,
    [search_file] reports the lines that contain the pattern, capital and
    small letters taken as equal: in the order of the file, each with its
    number counted from 1 and cut after 120 characters, and the first 50 of
    them only; it says so when there is none. *)
Theorem search_file_reports_matching_lines `{Platform} (call : pydict) (w : World)
        (path pattern : string) (f : file) :
  dict_get call "path" (PStr "") = PStr path -> path <> "" ->
  fs w (resolve path) = Some (File f) -> readable f = true ->
  dict_get call "pattern" (PStr "") = PStr pattern -> pattern <> "" ->
  let rows := search_rows pattern (splitlines_plain (universal_newlines (data f))) in
  search_file call w =
    (Ok (success (match rows with
                  | [] => "No matches"
                  | _ => join_with nl (firstn 50 rows)
                  end)), w).
Proof.
  intros Hpath Hne Hfs Hread Hpattern Hpne rows.
  unfold search_file. rewrite Hpath, (truthy_PStr path Hne).
  unfold mbind at 1, lift at 1, to_path. cbv beta iota delta [negb].
  unfold exists_. rewrite Hfs, Hpattern, (truthy_PStr pattern Hpne).
  cbv beta iota delta [negb].
  unfold mbind, try_except, read_text. rewrite Hfs, Hread. cbn [ret lift py_lower].
  rewrite search_matches_rows. fold (search_rows pattern
    (splitlines_plain (universal_newlines (data f)))). fold rows.
  now destruct rows.
Qed.

Lemma splitlines_plain_keepends (n : nat) :
  forall s : string,
    String.length s <= n ->
    Forall2 (fun plain keep : string => exists e, keep = (plain ++ e)%string /\ line_end e)
            (splitlines_plain s) (splitlines s).
Proof.
  induction n as [|n IH]; intros s Hlen.
  - destruct s; [constructor | simpl in Hlen; lia].
  - destruct s as [|c s']; [constructor|]. simpl in Hlen.
    cbn [splitlines_plain splitlines].
    destruct (is_linebreak c) eqn:Hc.
    + destruct s' as [|c2 s''].
      * constructor; [|constructor]. exists (String c ""). split; [reflexivity|].
        right. left. now exists c.
      * destruct ((c =? CR) && (c2 =? newline))%char eqn:Hcrlf.
        -- constructor; [|apply IH; simpl in Hlen; lia].
           apply andb_true_iff in Hcrlf. destruct Hcrlf as [H1 H2].
           apply Ascii.eqb_eq in H1, H2. subst c c2.
           exists (String CR (String newline "")). split; [reflexivity|].
           right. now right.
        -- constructor; [|apply IH; lia].
           exists (String c ""). split; [reflexivity|]. right. left. now exists c.
    + assert (Hrest := IH s' ltac:(lia)).
      destruct Hrest as [|plain keep ps ks (e & -> & He) Hrest].
      * constructor; [|constructor]. exists "". split; [reflexivity | now left].
      * constructor; [|exact Hrest]. exists e. now split.
Qed.

Lemma enumerate_nth {A} (l : list A) (i k : Z) (x : A) :
  In (k, x) (enumerate l i) ->
  (i <= k < i + len l)%Z /\ nth_error l (Z.to_nat (k - i)) = Some x.
Proof.
  revert i. induction l as [|y l IH]; intros i; [contradiction|].
  cbn [enumerate]. intros [Heq|Hin].
  - injection Heq as <- <-. unfold len. cbn [length].
    replace (Z.to_nat (i - i)) with 0 by lia. split; [lia | reflexivity].
  - destruct (IH _ Hin) as [Hk Hnth]. unfold len in *. cbn [length].
    split; [lia|]. replace (Z.to_nat (k - i)) with (S (Z.to_nat (k - (i + 1)))) by lia.
    exact Hnth.
Qed.

Lemma Forall2_nth_error {A B} (R : A -> B -> Prop) (la : list A) (lb : list B)
      (k : nat) (a : A) :
  Forall2 R la lb -> nth_error la k = Some a ->
  exists b, nth_error lb k = Some b /\ R a b.
Proof.
  intros HF. revert k. induction HF as [|x y la lb Hxy HF IH]; intros k.
  - now destruct k.
  - destruct k; cbn [nth_error]; [intros [= <-]; now exists y | apply IH].
Qed.

Lemma lines_between_one (k : Z) (lines : list string) (x : string) :
  (1 <= k)%Z -> nth_error lines (Z.to_nat (k - 1)) = Some x ->
  lines_between k k lines = [x].
Proof.
  intros Hk Hnth. unfold lines_between.
  replace (Z.to_nat (k - k + 1)) with 1 by lia.
  apply nth_error_split in Hnth. destruct Hnth as (before & after & -> & Hlen).
  rewrite <- Hlen, skipn_app, skipn_all, Nat.sub_diag. reflexivity.
Qed.

(** X14. The numbers that [search_file] reports are the line numbers that
    [read_file] takes: the line that the search numbers [k] is what a read of
    the lines [k] to [k] gives, followed by its line end. *)
Theorem search_file_numbers_are_read_file_lines `{Platform} (w : World)
        (path : string) (f : file) (k : Z) (line : string) :
  path <> "" -> fs w (resolve path) = Some (File f) -> readable f = true ->
  In (k, line) (enumerate (splitlines_plain (universal_newlines (data f))) 1) ->
  exists ending : string,
    line_end ending /\
    read_file (range_call path k k) w = (Ok (ranged (line ++ ending)%string k k), w).
Proof.
  intros Hne Hfs Hread Hin.
  destruct (enumerate_nth _ _ _ _ Hin) as [Hk Hnth].
  destruct (Forall2_nth_error _ _ _ _ _
              (splitlines_plain_keepends _ _ (le_n _)) Hnth)
    as (keep & Hkeep & ending & -> & Hend).
  exists ending. split; [exact Hend|].
  assert (Hlen : (k <= len (file_lines f))%Z).
  { assert (Hsome : nth_error (file_lines f) (Z.to_nat (k - 1)) <> None)
      by (unfold file_lines; now rewrite Hkeep).
    apply nth_error_Some in Hsome. unfold len. lia. }
  rewrite (read_file_lines_run w path f k k Hne Hfs Hread) by lia.
  unfold file_lines. rewrite (lines_between_one k _ _ ltac:(lia) Hkeep).
  rewrite concat_lines_cons. cbn [concat_lines fold_right]. now rewrite append_nil_r.
Qed.

(* ================================================================== *)
(** ** The TODO list *)
(* ================================================================== *)

Lemma display_todo_world (w : World) : snd (display_todo w) = w.
Proof. reflexivity. Qed.

Lemma set_todo_set_todo (w : World) (a b : pyval) :
  set_todo (set_todo w a) b = set_todo w b.
Proof. reflexivity. Qed.

Lemma set_todo_same (w : World) : set_todo w (session_todo w) = w.
Proof. now destruct w. Qed.

Lemma same_but_todo_refl (w : World) : same_but_todo w w.
Proof. unfold same_but_todo. now rewrite set_todo_same. Qed.

Lemma same_but_todo_trans (a b c : World) :
  same_but_todo a b -> same_but_todo b c -> same_but_todo a c.
Proof.
  unfold same_but_todo. intros Hab Hbc. rewrite Hbc at 1. rewrite Hab at 1.
  apply set_todo_set_todo.
Qed.

Lemma same_but_todo_set (w : World) (v : pyval) : same_but_todo w (set_todo w v).
Proof. reflexivity. Qed.

Lemma check_index_frame (idx : pyval) (w : World) :
  same_but_todo w (snd (check_index idx w)).
Proof.
  unfold check_index. destruct (as_int idx) as [i|]; [|apply same_but_todo_refl].
  destruct (negb (0 <? i)%Z); [apply same_but_todo_refl|].
  destruct (session_todo w) as [| | | | |d]; try apply same_but_todo_refl.
  destruct (bind _ _) as [[tasks n]|e]; [|apply same_but_todo_refl].
  destruct (negb (i <=? n)%Z); [apply same_but_todo_refl|].
  destruct (mark_done _ _); [apply same_but_todo_set | apply same_but_todo_refl].
Qed.

Lemma check_loop_frame (indices : list pyval) :
  forall (checked : Z) (w : World), same_but_todo w (snd (check_loop indices checked w)).
Proof.
  induction indices as [|idx rest IH]; intros checked w; [apply same_but_todo_refl|].
  cbn [check_loop]. unfold mbind.
  pose proof (check_index_frame idx w) as Hone.
  destruct (check_index idx w) as [[counted|e] w1]; cbn [snd] in *; [|exact Hone].
  eapply same_but_todo_trans; [exact Hone | apply IH].
Qed.

Lemma then_display_frame {A} (k : unit -> M A) (w0 w : World) :
  same_but_todo w0 w -> (forall u w1, snd (k u w1) = w1) ->
  same_but_todo w0 (snd (mbind display_todo k w)).
Proof.
  intros Hw Hk. unfold mbind.
  destruct (display_todo w) as [[u|e] w1] eqn:Hd;
    pose proof (display_todo_world w) as Hsame; rewrite Hd in Hsame;
    cbn [snd] in Hsame; subst w1; [now rewrite Hk | exact Hw].
Qed.

Lemma todo_frame `{Platform} (call : pydict) (w : World) :
  same_but_todo w (snd (todo call w)).
Proof.
  unfold todo, todo_tool.
  destruct (is_str (dict_get call "action" (PStr "")) "create").
  { destruct (negb (truthy _)); [apply same_but_todo_refl|].
    unfold mbind at 1, lift at 1.
    destruct (prefix 8 _) as [first|e]; [|apply same_but_todo_refl].
    unfold mbind at 1, lift at 1.
    destruct (py_iter first) as [ts|e]; [|apply same_but_todo_refl].
    apply then_display_frame; [apply same_but_todo_set | reflexivity]. }
  destruct (is_str _ "check").
  { destruct (negb (truthy (session_todo w))); [apply same_but_todo_refl|].
    destruct (negb (truthy _)); [apply same_but_todo_refl|].
    unfold mbind at 1, lift at 1.
    destruct (py_iter _) as [idxs|e]; [|apply same_but_todo_refl].
    unfold mbind at 1. pose proof (check_loop_frame idxs 0 w) as Hloop.
    destruct (check_loop idxs 0 w) as [[checked|e] w1]; cbn [snd] in *;
      [|exact Hloop].
    apply then_display_frame; [exact Hloop | reflexivity]. }
  destruct (is_str _ "show").
  { destruct (negb (truthy (session_todo w))); [apply same_but_todo_refl|].
    apply then_display_frame; [apply same_but_todo_refl | reflexivity]. }
  destruct (is_str _ "clear"); [apply same_but_todo_set | apply same_but_todo_refl].
Qed.

(** X15. The [todo] tool changes the TODO list of the session and nothing else:
    no file, no permission, no network state, whatever the call. *)
Theorem todo_changes_only_the_list `{Platform} (call : pydict) (w : World) :
  let w' := snd (todo call w) in
  fs w' = fs w /\ trust_session w' = trust_session w /\ answers w' = answers w /\
  keys w' = keys w /\ net w' = net w /\ sent w' = sent w.
Proof.
  cbv zeta. pose proof (todo_frame call w) as Hframe.
  unfold same_but_todo in Hframe. rewrite Hframe. repeat split.
Qed.

Lemma task_widths_text (ts : list pyval) :
  forallb is_text ts = true -> task_widths (map new_task ts) = Ok tt.
Proof.
  induction ts as [|t ts IH]; [reflexivity|]. cbn [forallb]. intros Hall.
  apply andb_true_iff in Hall. destruct Hall as [Ht Hts].
  destruct t; try discriminate. cbn. now apply IH.
Qed.

Lemma task_widths_not_text (ts : list pyval) :
  forallb is_text ts = false -> exists e, task_widths (map new_task ts) = Raise e.
Proof.
  induction ts as [|t ts IH]; [discriminate|]. cbn [forallb]. intros Hall.
  destruct t; cbn; try (eexists; reflexivity).
  cbn in Hall. now apply IH.
Qed.

Lemma todo_create_run `{Platform} (call : pydict) (w : World) (tasks : list pyval) :
  dict_get call "action" (PStr "") = PStr "create" ->
  dict_get call "tasks" (PList []) = PList tasks -> tasks <> [] ->
  let title := if truthy (dict_get call "title" (PStr ""))
               then dict_get call "title" (PStr "") else PStr "Task Plan" in
  let kept := firstn 8 tasks in
  todo call w =
    ((_ <- task_widths (map new_task kept) ;;
      _ <- visible_len title ;;
      Ok (success ("Created TODO with " ++ str_of_Z (len kept) ++ " tasks")))%res,
     set_todo w (todo_list title (map (fun t => (t, false)) kept))).
Proof.
  intros Haction Htasks Hne title kept.
  assert (Hkept : kept <> []) by (unfold kept; now destruct tasks).
  unfold todo, todo_tool. rewrite Haction, Htasks. cbn [is_str String.eqb Ascii.eqb
    Bool.eqb]. rewrite (truthy_PList tasks Hne). cbv beta iota delta [negb].
  unfold mbind, lift. cbn [prefix py_iter]. fold kept. fold title.
  unfold display_todo. cbn [session_todo set_todo truthy negb py_get dict_get
    lookup String.eqb Ascii.eqb Bool.eqb bind].
  unfold todo_list. rewrite map_map.
  change (map (fun x : pyval => task (x, false)) kept) with (map new_task kept).
  destruct (map new_task kept) as [|x xs] eqn:Hx;
    [destruct kept; [contradiction | discriminate]|].
  cbv beta iota delta [negb]. cbn [py_iter bind]. rewrite <- Hx.
  destruct (task_widths (map new_task kept)) as [[]|e]; cbn [bind]; [|reflexivity].
  destruct (visible_len title) as [[]|e]; reflexivity.
Qed.

(** X16. [create] with a non-empty list of tasks puts the first eight, not done,
    under the title ([Task Plan] when the call gives none). The list is in
    place before it is displayed: when one of these tasks, or the title, is
    not text, the call raises and the new list stays. *)
Theorem todo_create_stores_first_eight `{Platform} (call : pydict) (w : World)
        (tasks : list pyval) :
  dict_get call "action" (PStr "") = PStr "create" ->
  dict_get call "tasks" (PList []) = PList tasks -> tasks <> [] ->
  let title := if truthy (dict_get call "title" (PStr ""))
               then dict_get call "title" (PStr "") else PStr "Task Plan" in
  let kept := firstn 8 tasks in
  session_todo (snd (todo call w))
  = todo_list title (map (fun t => (t, false)) kept) /\
  (1 <= length kept <= 8) /\
  (forallb is_text kept && is_text title = true ->
   fst (todo call w)
   = Ok (success ("Created TODO with " ++ str_of_Z (len kept) ++ " tasks"))) /\
  (forallb is_text kept && is_text title = false ->
   exists e, fst (todo call w) = Raise e).
Proof.
  intros Haction Htasks Hne title kept.
  rewrite (todo_create_run call w tasks Haction Htasks Hne). fold title. fold kept.
  cbn [fst snd]. split; [reflexivity|]. split.
  { unfold kept. rewrite length_firstn. destruct tasks; [contradiction|].
    cbn [length]. lia. }
  split.
  - intros Htext. apply andb_true_iff in Htext. destruct Htext as [Htasks' Htitle].
    rewrite (task_widths_text kept Htasks'). cbn [bind].
    destruct title; try discriminate. reflexivity.
  - intros Htext. apply andb_false_iff in Htext. destruct Htext as [Htasks'|Htitle].
    + destruct (task_widths_not_text kept Htasks') as [e ->]. now exists e.
    + destruct (task_widths (map new_task kept)) as [[]|e]; cbn [bind];
        [|now exists e].
      destruct title; try discriminate; cbn; eexists; reflexivity.
Qed.

Lemma task_widths_entries (entries : list (pyval * bool)) :
  task_widths (map new_task (map fst entries)) = task_widths (map task entries).
Proof.
  induction entries as [|[t d] rest IH]; [reflexivity|].
  cbn [map fst task_widths py_get dict_get lookup new_task task String.eqb Ascii.eqb
       Bool.eqb bind snd]. now rewrite IH.
Qed.

(** *** Checking tasks off *)

Lemma marked_unfold (idxs : list Z) (entries : list (pyval * bool)) :
  marked idxs entries = map (mark_with idxs) (enumerate entries 1).
Proof. reflexivity. Qed.

Lemma mark_none (entries : list (pyval * bool)) (k : Z) :
  map (mark_with []) (enumerate entries k) = entries.
Proof.
  revert k. induction entries as [|[t d] rest IH]; intros k; [reflexivity|].
  cbn [enumerate map]. rewrite IH. unfold mark_with. cbn. now rewrite orb_false_r.
Qed.

Lemma mark_below (entries : list (pyval * bool)) (k i : Z) :
  (i < k)%Z -> map (mark_with [i]) (enumerate entries k) = entries.
Proof.
  revert k. induction entries as [|[t d] rest IH]; intros k Hk; [reflexivity|].
  cbn [enumerate map]. rewrite IH by lia. unfold mark_with. cbn.
  replace (k =? i)%Z with false by (symmetry; apply Z.eqb_neq; lia).
  now rewrite orb_false_r.
Qed.

Lemma mark_beyond (entries : list (pyval * bool)) (k i : Z) :
  (k + len entries <= i)%Z -> map (mark_with [i]) (enumerate entries k) = entries.
Proof.
  revert k. induction entries as [|[t d] rest IH]; intros k Hk; [reflexivity|].
  unfold len in *. cbn [length] in Hk.
  cbn [enumerate map]. rewrite IH by lia. unfold mark_with. cbn.
  replace (k =? i)%Z with false by (symmetry; apply Z.eqb_neq; lia).
  now rewrite orb_false_r.
Qed.

Lemma set_at_cons {A} (n : nat) (x y : A) (l : list A) :
  set_at (S n) x (y :: l) = y :: set_at n x l.
Proof. reflexivity. Qed.

Lemma mark_at (entries : list (pyval * bool)) :
  forall (k i : Z) (t : pyval) (d : bool),
    (k <= i)%Z -> nth_error entries (Z.to_nat (i - k)) = Some (t, d) ->
    set_at (Z.to_nat (i - k)) (t, true) entries
    = map (mark_with [i]) (enumerate entries k).
Proof.
  induction entries as [|[t0 d0] rest IH]; intros k i t d Hk Hnth.
  - now destruct (Z.to_nat (i - k)).
  - destruct (Z.eq_dec i k) as [->|Hik].
    + rewrite Z.sub_diag in *. cbn in Hnth. injection Hnth as -> ->.
      cbn [enumerate map]. rewrite mark_below by lia.
      unfold mark_with. cbn. rewrite Z.eqb_refl, orb_true_r. reflexivity.
    + replace (Z.to_nat (i - k)) with (S (Z.to_nat (i - (k + 1)))) in * by lia.
      cbn [nth_error] in Hnth. rewrite set_at_cons.
      cbn [enumerate map]. rewrite <- (IH (k + 1)%Z i t d) by (lia || assumption).
      unfold mark_with. cbn.
      replace (k =? i)%Z with false by (symmetry; apply Z.eqb_neq; lia).
      now rewrite orb_false_r.
Qed.

Lemma mark_twice (idxs : list Z) (i : Z) (entries : list (pyval * bool)) (k : Z) :
  map (mark_with idxs) (enumerate (map (mark_with [i]) (enumerate entries k)) k)
  = map (mark_with (i :: idxs)) (enumerate entries k).
Proof.
  revert k. induction entries as [|[t d] rest IH]; intros k; [reflexivity|].
  cbn [enumerate map]. rewrite IH. f_equal. unfold mark_with. cbn.
  now rewrite orb_false_r, orb_assoc.
Qed.

Lemma length_marked (idxs : list Z) (entries : list (pyval * bool)) :
  len (marked idxs entries) = len entries.
Proof.
  unfold marked, len. rewrite length_map. f_equal.
  generalize 1%Z. induction entries as [|e rest IH]; intros k; [reflexivity|].
  cbn. now rewrite IH.
Qed.

Lemma marked_texts (idxs : list Z) (entries : list (pyval * bool)) :
  map fst (marked idxs entries) = map fst entries.
Proof.
  rewrite marked_unfold. generalize 1%Z.
  induction entries as [|[t d] rest IH]; intros k; [reflexivity|].
  cbn [enumerate map fst snd mark_with]. f_equal. apply IH.
Qed.

Lemma check_index_run (idx : pyval) (i : Z) (w : World) (title : pyval)
      (entries : list (pyval * bool)) :
  as_int idx = Some i -> session_todo w = todo_list title entries ->
  check_index idx w =
    (Ok ((0 <? i) && (i <=? len entries))%Z,
     set_todo w (todo_list title (marked [i] entries))).
Proof.
  intros Hidx Htodo. unfold check_index. rewrite Hidx.
  assert (Hsame : forall b : bool,
             (i <= 0 \/ len entries < i)%Z ->
             (Ok b, w) = (Ok b, set_todo w (todo_list title (marked [i] entries)))).
  { intros b Hout. rewrite marked_unfold.
    destruct Hout; [rewrite mark_below by lia | rewrite mark_beyond by lia];
      now rewrite <- Htodo, set_todo_same. }
  destruct (0 <? i)%Z eqn:Hpos; cbv beta iota delta [negb andb].
  - apply Z.ltb_lt in Hpos. rewrite Htodo. unfold todo_list at 1 2.
    cbn [get_item lookup String.eqb Ascii.eqb Bool.eqb bind py_len].
    unfold len at 1. rewrite length_map. fold (len entries).
    destruct (i <=? len entries)%Z eqn:Hle; cbv beta iota delta [negb].
    + apply Z.leb_le in Hle. unfold mark_done.
      destruct (nth_error entries (Z.to_nat (i - 1))) as [[t d]|] eqn:Hnth.
      * rewrite (map_nth_error task _ _ Hnth). unfold task at 1.
        cbn [fst snd set_item String.eqb Ascii.eqb Bool.eqb].
        change (PDict [("task", t); ("done", PBool true)]) with (task (t, true)).
        assert (Hset : set_at (Z.to_nat (i - 1)) (task (t, true)) (map task entries)
                       = map task (set_at (Z.to_nat (i - 1)) (t, true) entries)).
        { unfold set_at. rewrite map_app, firstn_map. cbn [map]. now rewrite skipn_map. }
        rewrite Hset, (mark_at entries 1 i t d) by (lia || assumption).
        reflexivity.
      * apply nth_error_None in Hnth. unfold len in Hle. lia.
    + apply Z.leb_gt in Hle. apply Hsame. lia.
  - apply Z.ltb_ge in Hpos. apply Hsame. lia.
Qed.

Lemma in_list_cons (n i : Z) (idxs : list Z) :
  in_list n (i :: idxs)
  = ((if ((0 <? i) && (i <=? n))%Z then 1 else 0) + in_list n idxs)%Z.
Proof.
  unfold in_list, len. cbn [filter].
  destruct ((0 <? i) && (i <=? n))%Z; cbn [length]; lia.
Qed.

Lemma check_loop_run (idxs : list Z) :
  forall (checked : Z) (w : World) (title : pyval) (entries : list (pyval * bool)),
    session_todo w = todo_list title entries ->
    check_loop (map PInt idxs) checked w =
      (Ok (checked + in_list (len entries) idxs)%Z,
       set_todo w (todo_list title (marked idxs entries))).
Proof.
  induction idxs as [|i idxs IH]; intros checked w title entries Htodo.
  - cbn [map check_loop]. unfold ret. rewrite marked_unfold, mark_none.
    rewrite <- Htodo, set_todo_same. f_equal. f_equal. unfold in_list, len. cbn. lia.
  - cbn [map check_loop]. unfold mbind.
    rewrite (check_index_run (PInt i) i w title entries eq_refl Htodo).
    rewrite (IH _ (set_todo w (todo_list title (marked [i] entries))) title
               (marked [i] entries) eq_refl).
    rewrite set_todo_set_todo, length_marked, in_list_cons.
    rewrite !marked_unfold, mark_twice.
    f_equal. f_equal. destruct ((0 <? i) && (i <=? len entries))%Z; lia.
Qed.

(** X17. [check] on a list marks the tasks whose numbers (from 1) are among the
    indices, and nothing else changes: a task that was done stays done, the
    texts, the title and the number of tasks are as before, and an index that
    numbers no task is passed over. The answer counts the indices that number
    a task, an index given twice counting twice. When a task or the title is
    not text the call raises after the tasks are marked. *)
Theorem todo_check_marks_listed_tasks `{Platform} (call : pydict) (w : World)
        (title : pyval) (entries : list (pyval * bool)) (idxs : list Z) :
  dict_get call "action" (PStr "") = PStr "check" ->
  dict_get call "indices" (PList []) = PList (map PInt idxs) -> idxs <> [] ->
  session_todo w = todo_list title entries -> entries <> [] ->
  session_todo (snd (todo call w)) = todo_list title (marked idxs entries) /\
  map fst (marked idxs entries) = map fst entries /\
  (forallb is_text (map fst entries) && is_text title = true ->
   fst (todo call w)
   = Ok (success ("Checked off " ++ str_of_Z (in_list (len entries) idxs)
                    ++ " task(s)"))) /\
  (forallb is_text (map fst entries) && is_text title = false ->
   exists e, fst (todo call w) = Raise e).
Proof.
  intros Haction Hindices Hidxs Htodo Hentries.
  pose proof (marked_texts idxs entries) as Hfst.
  assert (Hrun : todo call w =
            ((_ <- task_widths (map new_task (map fst entries)) ;;
              _ <- visible_len title ;;
              Ok (success ("Checked off " ++ str_of_Z (in_list (len entries) idxs)
                             ++ " task(s)")))%res,
             set_todo w (todo_list title (marked idxs entries)))).
  { unfold todo, todo_tool. rewrite Haction, Hindices.
    cbn [is_str String.eqb Ascii.eqb Bool.eqb]. rewrite Htodo.
    assert (Hsome : map PInt idxs <> []) by (now destruct idxs).
    rewrite (truthy_PList _ Hsome). unfold todo_list at 1.
    cbv beta iota delta [negb truthy].
    unfold mbind, lift. cbn [py_iter].
    rewrite (check_loop_run idxs 0 w title entries Htodo).
    unfold display_todo. cbn [session_todo set_todo]. unfold todo_list.
    cbn [truthy negb py_get dict_get lookup String.eqb Ascii.eqb Bool.eqb bind].
    rewrite Z.add_0_l.
    destruct (map task (marked idxs entries)) as [|x xs] eqn:Hx.
    { apply (f_equal (@length _)) in Hx. rewrite length_map in Hx.
      pose proof (length_marked idxs entries) as Hlen. unfold len in Hlen.
      destruct entries; [contradiction | cbn in *; lia]. }
    cbv beta iota delta [negb]. cbn [py_iter bind]. rewrite <- Hx.
    rewrite <- (task_widths_entries (marked idxs entries)), Hfst.
    destruct (task_widths _) as [[]|e]; cbn [bind]; [|reflexivity].
    destruct (visible_len title) as [[]|e]; reflexivity. }
  rewrite Hrun. cbn [fst snd]. split; [reflexivity|]. split; [exact Hfst|]. split.
  - intros Htext. apply andb_true_iff in Htext. destruct Htext as [Htasks' Htitle].
    rewrite (task_widths_text _ Htasks'). cbn [bind].
    destruct title; try discriminate. reflexivity.
  - intros Htext. apply andb_false_iff in Htext. destruct Htext as [Htasks'|Htitle].
    + destruct (task_widths_not_text _ Htasks') as [e ->]. now exists e.
    + destruct (task_widths _) as [[]|e]; cbn [bind]; [|now exists e].
      destruct title; try discriminate; cbn; eexists; reflexivity.
Qed.

(** *** The shape of the list *)

Lemma check_index_shape (idx : pyval) (w : World) (title : pyval)
      (entries : list (pyval * bool)) :
  session_todo w = todo_list title entries ->
  exists entries',
    session_todo (snd (check_index idx w)) = todo_list title entries' /\
    length entries' = length entries.
Proof.
  intros Htodo. destruct (as_int idx) as [i|] eqn:Hidx.
  - rewrite (check_index_run idx i w title entries Hidx Htodo).
    exists (marked [i] entries). split; [reflexivity|].
    pose proof (length_marked [i] entries) as Hlen. unfold len in Hlen. lia.
  - unfold check_index. rewrite Hidx. now exists entries.
Qed.

Lemma check_loop_shape (indices : list pyval) :
  forall (checked : Z) (w : World) (title : pyval) (entries : list (pyval * bool)),
    session_todo w = todo_list title entries ->
    exists entries',
      session_todo (snd (check_loop indices checked w)) = todo_list title entries' /\
      length entries' = length entries.
Proof.
  induction indices as [|idx rest IH]; intros checked w title entries Htodo.
  - now exists entries.
  - cbn [check_loop]. unfold mbind.
    destruct (check_index_shape idx w title entries Htodo) as (entries1 & H1 & Hlen1).
    destruct (check_index idx w) as [[counted|e] w1]; cbn [snd] in *.
    + destruct (IH (if counted then (checked + 1)%Z else checked) w1 title entries1 H1)
        as (entries2 & H2 & Hlen2).
      exists entries2. split; [exact H2 | congruence].
    + now exists entries1.
Qed.

Lemma then_display_todo {A} (k : unit -> M A) (w : World) :
  (forall u w1, snd (k u w1) = w1) ->
  session_todo (snd (mbind display_todo k w)) = session_todo w.
Proof.
  intros Hk. unfold mbind.
  destruct (display_todo w) as [[u|e] w1] eqn:Hd;
    pose proof (display_todo_world w) as Hsame; rewrite Hd in Hsame;
    cbn [snd] in Hsame; subst w1; [now rewrite Hk | reflexivity].
Qed.

Lemma length_take (n : nat) (s : string) :
  String.length (take n s) = Nat.min n (String.length s).
Proof.
  revert s. induction n as [|n IH]; intros s; [reflexivity|].
  destruct s as [|c s]; [reflexivity|]. cbn. now rewrite IH.
Qed.

Lemma length_chars (s : string) :
  length (list_ascii_of_string s) = String.length s.
Proof. induction s as [|c s IH]; [reflexivity|]. cbn. now rewrite IH. Qed.

Lemma created_tasks (tasks first : pyval) (ts : list pyval) :
  truthy tasks = true -> prefix 8 tasks = Ok first -> py_iter first = Ok ts ->
  1 <= length ts <= 8.
Proof.
  intros Htruthy Hfirst Hts.
  destruct tasks as [| | |s|l|d]; try discriminate.
  - assert (first = PStr (take 8 s)) as -> by (cbn [prefix] in Hfirst; congruence).
    assert (ts = map (fun c => PStr (String c "")) (list_ascii_of_string (take 8 s)))
      as -> by (cbn [py_iter] in Hts; congruence).
    rewrite length_map, length_chars, length_take.
    destruct s; [discriminate|]. cbn [String.length]. lia.
  - assert (first = PList (firstn 8 l)) as -> by (cbn [prefix] in Hfirst; congruence).
    assert (ts = firstn 8 l) as -> by (cbn [py_iter] in Hts; congruence).
    rewrite length_firstn. destruct l; [discriminate|]. cbn [length]. lia.
Qed.

(** X18. Whatever the calls of the [todo] tool, the TODO list of the session is
    [None] or a titled list of one to eight tasks, each with its text and
    whether it is done: no call, nor one that raises, leaves it otherwise. *)
Theorem todo_list_stays_well_formed `{Platform} (call : pydict) (w : World) :
  well_formed_todo (session_todo w) ->
  well_formed_todo (session_todo (snd (todo call w))).
Proof.
  intros Hwf. unfold todo, todo_tool.
  destruct (is_str (dict_get call "action" (PStr "")) "create").
  { destruct (truthy (dict_get call "tasks" (PList []))) eqn:Htasks;
      cbv beta iota delta [negb]; [|exact Hwf].
    unfold mbind at 1, lift at 1.
    destruct (prefix 8 _) as [first|e] eqn:Hfirst; [|exact Hwf].
    unfold mbind at 1, lift at 1.
    destruct (py_iter first) as [ts|e] eqn:Hts; [|exact Hwf].
    rewrite then_display_todo by reflexivity. cbn [session_todo set_todo].
    right. eexists. exists (map (fun t => (t, false)) ts). split; [|split].
    - unfold todo_list. now rewrite map_map.
    - now destruct (truthy (dict_get call "title" (PStr ""))) eqn:Htitle.
    - rewrite length_map. eapply created_tasks; eassumption. }
  destruct (is_str _ "check").
  { destruct (truthy (session_todo w)) eqn:Htruthy; cbv beta iota delta [negb];
      [|exact Hwf].
    destruct (truthy (dict_get call "indices" (PList []))); [|exact Hwf].
    unfold mbind at 1, lift at 1.
    destruct (py_iter (dict_get call "indices" (PList []))) as [idxs|e]; [|exact Hwf].
    destruct Hwf as [Hnone|(title & entries & Htodo & Htitle & Hlen)];
      [rewrite Hnone in Htruthy; discriminate|].
    unfold mbind at 1.
    destruct (check_loop_shape idxs 0 w title entries Htodo)
      as (entries' & Hstate & Hlen').
    destruct (check_loop idxs 0 w) as [[checked|e] w1]; cbn [snd] in *.
    - rewrite then_display_todo by reflexivity.
      right. exists title, entries'. repeat split; try assumption; lia.
    - right. exists title, entries'. repeat split; try assumption; lia. }
  destruct (is_str _ "show").
  { destruct (negb (truthy (session_todo w))); [exact Hwf|].
    now rewrite then_display_todo. }
  destruct (is_str _ "clear"); [now left | exact Hwf].
Qed.

(* ================================================================== *)
(** ** write_file and delete_file *)
(* ================================================================== *)




(** X20. [delete_file] removes the file it is given and nothing else, and it
    removes a file only: on a directory, on a path that is not there and on a
    file that the directory does not let go, it answers with a failure and
    changes nothing. *)
Theorem delete_file_removes_only_the_named_file `{Platform} `{Host}
        (call : pydict) (w : World) :
  snd (delete_file call w) = w \/
  exists (path : string) (f : file),
    dict_get call "path" (PStr "") = PStr path /\
    fs w (resolve path) = Some (File f) /\
    delete_file call w
    = (Ok (success ("Deleted: " ++ resolve path)),
       set_fs w (fun q => if q =? resolve path then None else fs w q)).
Proof.
  remember (delete_file call w) as out eqn:Hout. symmetry in Hout. revert Hout.
  unfold delete_file.
  destruct (negb (truthy (dict_get call "path" (PStr "")))); [now intros <-; left|].
  unfold mbind at 1, lift at 1.
  destruct (dict_get call "path" (PStr "")) as [| | |path| |] eqn:Hpath;
    cbn [to_path]; try (now intros <-; left).
  destruct (fs w (resolve path)) as [[|f]|] eqn:Hfs;
    [now intros <-; left| |now intros <-; left].
  unfold mbind, try_except, unlink. rewrite Hfs.
  destruct (may_unlink w (resolve path)); [|now intros <-; left].
  intros <-. right. exists path, f. split; [reflexivity|]. split; [exact Hfs | reflexivity].
Qed.

(* ================================================================== *)
(** ** run_command *)
(* ================================================================== *)

(** X21. A command never runs for more than 120 seconds: a call that asks for
    more is the call that asks for 120. *)
Theorem run_command_caps_the_timeout `{Platform} `{Host}
        (others : pydict) (z : Z) (w : World) :
  run_command (("timeout", PInt (Z.max 120 z)) :: others) w
  = run_command (("timeout", PInt 120) :: others) w.
Proof.
  unfold run_command.
  assert (Hget : forall (x default : pyval),
             dict_get (("timeout", x) :: others) "command" default
             = dict_get others "command" default) by reflexivity.
  rewrite !Hget.
  change (dict_get (("timeout", PInt (Z.max 120 z)) :: others) "timeout" (PInt 60))
    with (PInt (Z.max 120 z)).
  change (dict_get (("timeout", PInt 120) :: others) "timeout" (PInt 60))
    with (PInt 120).
  cbn [min_120].
  replace (if (120 <? Z.max 120 z)%Z then 120%Z else Z.max 120 z) with 120%Z
    by (destruct (Z.ltb_spec 120 (Z.max 120 z)); lia).
  reflexivity.
Qed.

(** X22. The output that [run_command] hands back is never empty and never has
    more than 10,016 characters: the first 10,000 of a longer one and the
    note that it was cut. It is a success exactly when the command returned
    0. *)
Theorem run_command_bounds_the_output `{Platform} `{Host}
        (call : pydict) (w w' : World) (result : pyval) (output : pyval) :
  run_command call w = (Ok result, w') ->
  field result "result" = Some output ->
  exists (text : string) (code : Z),
    output = PStr text /\ text <> "" /\
    (Z.of_nat (String.length text) <= 10016)%Z /\
    field result "code" = Some (PInt code) /\
    field result "ok" = Some (PBool (code =? 0)%Z).
Proof.
  unfold run_command.
  destruct (negb (truthy (dict_get call "command" (PStr "")))); [now intros [= <- <-]|].
  unfold mbind, lift.
  destruct (min_120 _) as [timeout|e]; [|discriminate].
  destruct (subprocess_run _ timeout w) as [[code stdout stderr| |e] w1].
  - remember (Z.to_nat 10000) as n eqn:Hn.
    remember (strip (stdout ++ stderr)) as out eqn:Hout.
    remember (if (Z.of_nat (String.length out) >? 10000)%Z
              then (take n out ++ nl ++ "... (truncated)")%string else out)
      as cut eqn:Hcut.
    intros [= <- <-]. cbn [field lookup String.eqb Ascii.eqb Bool.eqb].
    intros [= <-].
    eexists. exists code. split; [reflexivity|]. split; [|split; [|split; reflexivity]].
    + destruct (cut =? "") eqn:Hempty; [discriminate|]. now apply String.eqb_neq.
    + assert (Hlen : (Z.of_nat (String.length cut) <= 10016)%Z).
      { rewrite Hcut.
        destruct (Z.gtb_spec (Z.of_nat (String.length out)) 10000) as [Hlong|Hshort];
          [|lia].
        rewrite !length_append, length_take.
        change (String.length nl) with 1.
        change (String.length "... (truncated)") with 15. lia. }
      destruct (cut =? ""); [|exact Hlen].
      change (String.length "(no output)") with 11. lia.
  - now intros [= <- <-].
  - destruct (is_os_error (exn_cls e)); [now intros [= <- <-] | discriminate].
Qed.

(* ================================================================== *)
(** ** The tools that ask no permission *)
(* ================================================================== *)

Lemma is_str_eq (v : pyval) (s : string) : is_str v s = true -> v = PStr s.
Proof.
  destruct v; try discriminate. cbn. intros Heq. apply String.eqb_eq in Heq.
  now subst.
Qed.

(** X23. [read_file], [search_file] and [todo] run without a question to the
    user, whatever the state of the session, and they change no file: after
    the call the files, the answers still to come, the trust of the session
    and the network are as before. The call returns a result and does not
    raise. *)
Theorem tools_without_permission_change_no_file (P : Platform) (host : Host)
        (d : pydict) (w : World) :
  let tool := dict_get d "tool" (PStr "") in
  is_str tool "read_file" || is_str tool "search_file" || is_str tool "todo" = true ->
  let out := @execute_tool (with_handlers P host) (PDict d) w in
  (exists result, fst out = Ok result) /\
  fs (snd out) = fs w /\ answers (snd out) = answers w /\
  trust_session (snd out) = trust_session w /\
  net (snd out) = net w /\ sent (snd out) = sent w.
Proof.
  cbv zeta. intros Htool.
  remember (@execute_tool (with_handlers P host) (PDict d) w) as out eqn:Hout.
  unfold execute_tool in Hout.
  set (tool := dict_get d "tool" (PStr "")) in *.
  assert (Hinner : destructive tool = false /\
            let w' := snd (@execute_tool_inner (with_handlers P host) tool d w) in
            fs w' = fs w /\ answers w' = answers w /\
            trust_session w' = trust_session w /\ net w' = net w /\ sent w' = sent w).
  { apply orb_true_iff in Htool. destruct Htool as [Htool|Htool];
      [apply orb_true_iff in Htool; destruct Htool as [Htool|Htool]|];
      apply is_str_eq in Htool; rewrite Htool; (split; [reflexivity|]);
      unfold execute_tool_inner;
      cbn [is_str String.eqb Ascii.eqb Bool.eqb other_tool with_handlers]; cbv zeta.
    - rewrite read_file_world. repeat split.
    - rewrite search_file_world. repeat split.
    - pose proof (@todo_frame P d w) as Hframe. unfold same_but_todo in Hframe.
      rewrite Hframe. repeat split. }
  destruct Hinner as [Hnd Hframe]. rewrite Hnd in Hout.
  unfold mbind, ret in Hout. cbv beta iota delta [negb] in Hout.
  cbv zeta in Hframe.
  destruct (@execute_tool_inner (with_handlers P host) tool d w) as [[result|e] w1];
    subst out; cbn [fst snd] in *; (split; [eexists; reflexivity | exact Hframe]).
Qed.

(* ================================================================== *)
(** ** Trusting the session *)
(* ================================================================== *)

Lemma edit_or_patch_session `{Platform} (tool : pyval) (d : pydict) (w : World) :
  is_str tool "edit_file" || is_str tool "patch_file" = true ->
  destructive tool = true /\
  trust_session (snd (execute_tool_inner tool d w)) = trust_session w /\
  answers (snd (execute_tool_inner tool d w)) = answers w.
Proof.
  intros Htool. apply orb_true_iff in Htool. destruct Htool as [Htool|Htool];
    apply is_str_eq in Htool; subst tool; (split; [reflexivity|]);
    unfold execute_tool_inner; cbn [is_str String.eqb Ascii.eqb Bool.eqb].
  - destruct (edit_file_touches d w) as [->|(path & _ & Htouch)]; [now split|].
    split; apply Htouch.
  - destruct (patch_file_touches d w) as [->|(path & _ & Htouch)]; [now split|].
    split; apply Htouch.
Qed.

(** X24. The user is asked once. When the answer to the prompt of an [edit_file]
    or [patch_file] call is "Trust", the call runs and the session is
    trusted; in a trusted session such a call runs without a prompt, takes
    none of the answers to come, and leaves the session trusted, so that no
    later call of the two is asked about or denied. *)
Theorem trust_is_asked_once `{Platform} (d : pydict) (w : World) :
  let tool := dict_get d "tool" (PStr "") in
  is_str tool "edit_file" || is_str tool "patch_file" = true ->
  truthy (dict_get d "path" (PStr "")) = true ->
  (forall rest : list answer,
      trust_session w = false -> answers w = Trust :: rest ->
      execute_tool (PDict d) w
      = handled tool (execute_tool_inner tool d (set_trust (set_answers w rest) true)) /\
      trust_session (snd (execute_tool (PDict d) w)) = true /\
      answers (snd (execute_tool (PDict d) w)) = rest) /\
  (trust_session w = true ->
   execute_tool (PDict d) w = handled tool (execute_tool_inner tool d w) /\
   trust_session (snd (execute_tool (PDict d) w)) = true /\
   answers (snd (execute_tool (PDict d) w)) = answers w).
Proof.
  cbv zeta. intros Htool Hpath.
  set (tool := dict_get d "tool" (PStr "")) in *.
  assert (Hrun : forall w0 w1 : World,
             permission_prompt w0 = (Ok true, w1) ->
             execute_tool (PDict d) w0 = handled tool (execute_tool_inner tool d w1)).
  { intros w0 w1 Hprompt. unfold execute_tool. fold tool.
    destruct (edit_or_patch_session tool d w0 Htool) as [-> _].
    rewrite Hpath. unfold mbind, lift. rewrite Hprompt. reflexivity. }
  assert (Hkeeps : forall w1 : World,
             trust_session (snd (handled tool (execute_tool_inner tool d w1)))
             = trust_session w1 /\
             answers (snd (handled tool (execute_tool_inner tool d w1))) = answers w1).
  { intros w1. destruct (edit_or_patch_session tool d w1 Htool) as (_ & Ht & Ha).
    unfold handled. now destruct (execute_tool_inner tool d w1) as [[r|e] w2]. }
  split.
  - intros rest Htrust Hanswers.
    assert (Hprompt : permission_prompt w
                      = (Ok true, set_trust (set_answers w rest) true)).
    { unfold permission_prompt. now rewrite Htrust, Hanswers. }
    rewrite (Hrun _ _ Hprompt). split; [reflexivity|].
    destruct (Hkeeps (set_trust (set_answers w rest) true)) as [-> ->]. now split.
  - intros Htrust.
    assert (Hprompt : permission_prompt w = (Ok true, w)).
    { unfold permission_prompt. now rewrite Htrust. }
    rewrite (Hrun _ _ Hprompt). split; [reflexivity|].
    destruct (Hkeeps w) as [-> ->]. now split.
Qed.

(* ================================================================== *)
(** ** Keys, settings and conversations on disk *)
(* ================================================================== *)

Lemma write_then_read (p text : string) (w : World) :
  can_hold w p ->
  exists w', write_text p text w = (Ok tt, w') /\
             read_text p w' = (Ok (universal_newlines text), w') /\
             exists_ w' p = true.
Proof.
  intros Hhold.
  exists (set_fs w (update (fs w) p (File (mkfile (utf8_len text) text true true)))).
  split; [|split].
  - unfold write_text. destruct Hhold as [->|(f & -> & -> & ->)]; reflexivity.
  - unfold read_text, set_fs, update. cbn [fs]. now rewrite String.eqb_refl.
  - unfold exists_, set_fs, update. cbn [fs]. now rewrite String.eqb_refl.
Qed.

Lemma read_text_outcome (p : string) (w w' : World) (r : res string) :
  read_text p w = (r, w') ->
  w' = w /\ match r with Ok _ => True | Raise e => unreadable e = true end.
Proof.
  unfold read_text. destruct (fs w p) as [[|f]|]; try (now intros [= <- <-]).
  destruct (readable f); now intros [= <- <-].
Qed.

Lemma overlay_strings_shape (d : pydict) (model mode ollama : string) (e : pyval) :
  exists model' mode' ollama',
    overlay_strings d [("model", PStr model); ("mode", PStr mode);
                       ("ollama_model", PStr ollama); ("experiments", e)]
    = [("model", PStr model'); ("mode", PStr mode');
       ("ollama_model", PStr ollama'); ("experiments", e)].
Proof.
  unfold overlay_strings. cbn [fold_left].
  destruct (lookup d "model") as [[| | |m| |]|];
    destruct (lookup d "mode") as [[| | |m2| |]|];
    destruct (lookup d "ollama_model") as [[| | |m3| |]|];
    cbn; do 3 eexists; reflexivity.
Qed.

Lemma overlay_flags_shape (given : pydict) :
  exists r p v d,
    overlay_flags given default_experiments
    = [("reasoning", PBool r); ("planning", PBool p);
       ("verbose", PBool v); ("details", PBool d)].
Proof.
  unfold overlay_flags, default_experiments. cbn [map fst fold_left].
  destruct (lookup given "reasoning") as [[|b1| | | |]|];
    destruct (lookup given "planning") as [[|b2| | | |]|];
    destruct (lookup given "verbose") as [[|b3| | | |]|];
    destruct (lookup given "details") as [[|b4| | | |]|];
    cbn; do 4 eexists; reflexivity.
Qed.

Lemma settings_of_shape (data : pyval) :
  exists model mode ollama r p v d,
    settings_of data = settings model mode ollama r p v d.
Proof.
  unfold settings_of. destruct data as [| | | | |dict];
    try (unfold default_settings, default_experiments; do 7 eexists; reflexivity).
  unfold default_settings.
  destruct (overlay_strings_shape dict "codex" "cloud" "llama3"
              (PDict default_experiments)) as (model & mode & ollama & ->).
  destruct (dict_get dict "experiments" PNone) as [| | | | |given];
    try (unfold default_experiments; do 7 eexists; reflexivity).
  destruct (overlay_flags_shape given) as (r & p & v & d & ->).
  cbn. do 7 eexists. reflexivity.
Qed.

(** When the settings file decodes and [json.loads] raises nothing but
    [json.JSONDecodeError], [load_settings] gives complete settings and
    changes nothing. *)
Lemma load_settings_complete `{Platform} `{Host} (w : World) :
  exists (model mode ollama_model : string) (reasoning planning verbose details : bool),
    load_settings w
    = (Ok (settings model mode ollama_model reasoning planning verbose details), w).
Proof.
  assert (Hdefault : exists model mode ollama r p v d,
             default_settings = settings model mode ollama r p v d)
    by (do 7 eexists; reflexivity).
  unfold load_settings, try_catch.
  destruct (exists_ w SETTINGS_FILE).
  - unfold mbind, lift.
    destruct (read_text SETTINGS_FILE w) as [[text|e] w1] eqn:Hread;
      apply read_text_outcome in Hread; destruct Hread as [-> Hclass].
    + unfold py_loads. destruct (json_loads text) as [data|].
      * destruct (settings_of_shape data) as (model & mode & ollama & r & p & v & d & ->).
        exists model, mode, ollama, r, p, v, d. reflexivity.
      * cbn. destruct Hdefault as (model & mode & ollama & r & p & v & d & ->).
        exists model, mode, ollama, r, p, v, d. reflexivity.
    + rewrite Hclass. cbn.
      destruct Hdefault as (model & mode & ollama & r & p & v & d & ->).
      exists model, mode, ollama, r, p, v, d. reflexivity.
  - destruct Hdefault as (model & mode & ollama & r & p & v & d & ->).
    exists model, mode, ollama, r, p, v, d. reflexivity.
Qed.

(** What [load_settings] comes to, case by case. *)
Lemma raising_load_settings_run `{Platform} `{Host}
      (loads_raises : string -> option exn) (undecodable : string -> bool) (w : World) :
  Raising.load_settings loads_raises undecodable w =
    match fs w SETTINGS_FILE with
    | Some (File f) =>
        if readable f then
          if undecodable SETTINGS_FILE
          then (Raise (Exn ValueError "decode" [PStr SETTINGS_FILE]), w)
          else match loads_raises (universal_newlines (data f)) with
               | Some e =>
                   if unreadable e || exn_class_eqb (exn_cls e) KeyError
                   then (Ok default_settings, w) else (Raise e, w)
               | None =>
                   match json_loads (universal_newlines (data f)) with
                   | Some data => (Ok (settings_of data), w)
                   | None => (Ok default_settings, w)
                   end
               end
        else (Ok default_settings, w)
    | _ => (Ok default_settings, w)
    end.
Proof.
  unfold Raising.load_settings, try_catch, exists_, mbind, lift,
    Raising.read_text_strict, read_text, Raising.loads, py_loads.
  destruct (fs w SETTINGS_FILE) as [[|f]|]; try reflexivity.
  destruct (readable f); [|reflexivity].
  destruct (undecodable SETTINGS_FILE); [reflexivity|].
  destruct (loads_raises (universal_newlines (data f))) as [e|].
  - now destruct (unreadable e || exn_class_eqb (exn_cls e) KeyError).
  - now destruct (json_loads (universal_newlines (data f))).
Qed.

(** X25. [load_settings] changes nothing, and what it returns is complete
    settings: the three names as strings and the four switches as booleans.
    It raises in two cases, both with a settings file that is there and can
    be read, and in no other: the file does not decode as UTF-8, or
    [json.loads] raises on its text an exception that is no
    [json.JSONDecodeError], [OSError] or [KeyError]. When neither can
    happen it is the [load_settings] of the platform. *)
Theorem load_settings_gives_complete_settings `{Platform} `{Host}
        (loads_raises : string -> option exn) (undecodable : string -> bool)
        (w : World) :
  let out := Raising.load_settings loads_raises undecodable w in
  snd out = w /\
  (forall s : pydict,
      fst out = Ok s ->
      exists (model mode ollama_model : string)
             (reasoning planning verbose details : bool),
        s = settings model mode ollama_model reasoning planning verbose details) /\
  (forall e : exn,
      fst out = Raise e <->
      exists f : file,
        fs w SETTINGS_FILE = Some (File f) /\ readable f = true /\
        ((undecodable SETTINGS_FILE = true /\
          e = Exn ValueError "decode" [PStr SETTINGS_FILE]) \/
         (undecodable SETTINGS_FILE = false /\
          loads_raises (universal_newlines (data f)) = Some e /\
          unreadable e || exn_class_eqb (exn_cls e) KeyError = false))) /\
  (undecodable SETTINGS_FILE = false -> (forall t, loads_raises t = None) ->
   out = load_settings w).
Proof.
  assert (Hdefault : exists model mode ollama r p v d,
             default_settings = settings model mode ollama r p v d)
    by (do 7 eexists; reflexivity).
  cbv zeta. rewrite raising_load_settings_run.
  split; [|split; [|split]].
  - repeat match goal with
           | |- context [match ?x with _ => _ end] => destruct x
           end; reflexivity.
  - intros s.
    repeat match goal with
           | |- context [match ?x with _ => _ end] => destruct x eqn:?
           end; cbn [fst]; intros [= <-];
      try exact Hdefault; apply settings_of_shape.
  - intros e. split.
    + destruct (fs w SETTINGS_FILE) as [[|f]|] eqn:Hfs; try discriminate.
      destruct (readable f) eqn:Hr; [|discriminate].
      destruct (undecodable SETTINGS_FILE) eqn:Hu.
      * cbn [fst]. intros [= <-]. exists f.
        split; [reflexivity|]. split; [exact Hr|]. left. now split.
      * destruct (loads_raises (universal_newlines (data f))) as [e'|] eqn:Hl.
        -- destruct (unreadable e' || exn_class_eqb (exn_cls e') KeyError) eqn:Hc;
             [discriminate|].
           cbn [fst]. intros [= <-]. exists f.
           split; [reflexivity|]. split; [exact Hr|]. right. now repeat split.
        -- now destruct (json_loads (universal_newlines (data f))).
    + intros (f & -> & -> & [[-> ->] | (-> & -> & ->)]); reflexivity.
  - intros Hu Hl. rewrite Hu. unfold load_settings, try_catch, exists_, mbind, lift,
      read_text, py_loads.
    destruct (fs w SETTINGS_FILE) as [[|f]|]; try reflexivity.
    destruct (readable f); [|reflexivity].
    rewrite Hl. now destruct (json_loads (universal_newlines (data f))).
Qed.

Lemma settings_of_settings (model mode ollama : string) (r p v d : bool) :
  settings_of (PDict (settings model mode ollama r p v d))
  = settings model mode ollama r p v d.
Proof. reflexivity. Qed.

(** X26. Settings that are saved are the settings that are loaded: when the
    configuration directory is there or can be made, the settings file can
    be written and read, and the text written for complete settings is read
    back as these, [load_settings] after [save_settings] gives them back. *)
Theorem save_settings_then_load_settings `{Platform} `{Host} (w w1 : World)
        (model mode ollama_model : string) (reasoning planning verbose details : bool) :
  let s := settings model mode ollama_model reasoning planning verbose details in
  mkdir_config w = (Ok tt, w1) -> can_hold w1 SETTINGS_FILE ->
  reads_back (json_dumps_indent (PDict s)) (PDict s) ->
  exists w2 : World,
    save_settings (PDict s) w = (Ok tt, w2) /\ load_settings w2 = (Ok s, w2).
Proof.
  intros s Hmkdir Hhold Hjson.
  destruct (write_then_read SETTINGS_FILE (json_dumps_indent (PDict s)) w1 Hhold)
    as (w2 & Hwrite & Hread & Hexists).
  exists w2. split.
  - unfold save_settings, mbind. now rewrite Hmkdir.
  - unfold load_settings, try_catch. rewrite Hexists. unfold mbind, lift.
    rewrite Hread. unfold py_loads. unfold reads_back in Hjson. rewrite Hjson.
    reflexivity.
Qed.

Lemma key_strings_text (ks : list string) :
  key_strings (map PStr ks) = filter (fun k => negb (k =? "")) ks.
Proof.
  induction ks as [|k ks IH]; [reflexivity|].
  cbn [map key_strings flat_map filter]. fold (key_strings (map PStr ks)).
  rewrite IH. now destruct (k =? "").
Qed.

(** X27. Of the keys that are saved, the first five are kept, and those of them
    that are not empty are the keys that are loaded, in their order. *)
Theorem save_keys_then_load_keys `{Platform} `{Host} (w w1 : World) (ks : list string) :
  let stored := PDict [("keys", PList (map PStr (firstn 5 ks)))] in
  mkdir_config w = (Ok tt, w1) -> can_hold w1 KEYS_FILE ->
  reads_back (json_dumps_indent stored) stored ->
  exists w2 : World,
    save_keys (PList (map PStr ks)) w = (Ok tt, w2) /\
    load_keys w2 = (Ok (filter (fun k => negb (k =? "")) (firstn 5 ks)), w2).
Proof.
  intros stored Hmkdir Hhold Hjson.
  destruct (write_then_read KEYS_FILE (json_dumps_indent stored) w1 Hhold)
    as (w2 & Hwrite & Hread & Hexists).
  exists w2. split.
  - unfold save_keys, mbind, lift. rewrite Hmkdir. cbn [prefix].
    unfold stored in Hwrite. rewrite firstn_map. exact Hwrite.
  - unfold load_keys, try_catch. rewrite Hexists. unfold mbind, lift.
    rewrite Hread. unfold py_loads. unfold reads_back in Hjson. rewrite Hjson.
    unfold stored. cbn [py_get dict_get lookup String.eqb Ascii.eqb Bool.eqb py_iter].
    unfold ret. now rewrite key_strings_text.
Qed.

(** X28. A keys file that holds JSON of another shape than an object makes
    [load_keys] raise: the [AttributeError] of a value without [get], or the
    [TypeError] of keys that cannot be gone through, is not among the
    exceptions it handles. *)
Theorem load_keys_raises_on_other_json `{Platform} `{Host} (w : World) (f : file)
        (v : pyval) :
  fs w KEYS_FILE = Some (File f) -> readable f = true ->
  json_loads (universal_newlines (data f)) = Some v ->
  odd_keys v = true ->
  exists e, load_keys w = (Raise e, w) /\
            (exn_cls e = AttributeError \/ exn_cls e = TypeError).
Proof.
  intros Hfs Hread Hjson Hodd.
  unfold load_keys, try_catch, exists_. rewrite Hfs.
  unfold mbind, lift, read_text. rewrite Hfs, Hread. unfold py_loads. rewrite Hjson.
  destruct v as [| | | | |d]; try (eexists; split; [reflexivity | now left]).
  cbn [py_get]. cbn [odd_keys] in Hodd.
  destruct (dict_get d "keys" (PList [])); try discriminate;
    (eexists; split; [reflexivity | now right]).
Qed.

Lemma is_conversation_dicts (messages : list message) :
  is_conversation (PList (map PDict messages)) = true.
Proof.
  cbn [is_conversation]. induction messages as [|m ms IH]; [reflexivity | exact IH].
Qed.

(** X29. A conversation that is saved under a name is the conversation that is
    loaded under this name. *)
Theorem save_conversation_then_load_conversation `{Platform} `{Host} (w w1 : World)
        (messages : list message) (name : string) :
  let saved := PList (map PDict messages) in
  name <> "" ->
  mkdir_config w = (Ok tt, w1) -> can_hold w1 (conversation_file name) ->
  reads_back (json_dumps_indent saved) saved ->
  exists w2 : World,
    save_conversation saved (Some name) w = (Ok (conversation_file name), w2) /\
    load_conversation name w2 = (Ok saved, w2).
Proof.
  intros saved Hname Hmkdir Hhold Hjson.
  destruct (write_then_read (conversation_file name) (json_dumps_indent saved) w1 Hhold)
    as (w2 & Hwrite & Hread & Hexists).
  exists w2. split.
  - unfold save_conversation, mbind. rewrite Hmkdir.
    apply String.eqb_neq in Hname. rewrite Hname, Hwrite. reflexivity.
  - unfold load_conversation, try_catch. rewrite Hexists. unfold mbind, lift.
    rewrite Hread. unfold py_loads. unfold reads_back in Hjson. rewrite Hjson.
    unfold saved. now rewrite is_conversation_dicts.
Qed.

(* ================================================================== *)
(** ** More theorems at sample inputs *)
(* ================================================================== *)

Lemma agent_loop_keeps_system_messages_witness :
  let run := agent_loop cloud_settings first_messages deny_world in
  filter is_system (match fst run with Ok out => out | Raise _ => [] end)
  = [turn "system" (PStr "prompt")].
Proof.
  cbv zeta.
  rewrite (agent_loop_keeps_system_messages cloud_settings first_messages
             (match fst (agent_loop cloud_settings first_messages deny_world) with
              | Ok out => out
              | Raise _ => []
              end)
             deny_world (snd (agent_loop cloud_settings first_messages deny_world))).
  - reflexivity.
  - vm_compute. reflexivity.
Defined.

Lemma read_file_ranges_compose_witness :
  exists a b : string,
    read_file (range_call "/f" 1 1) patch_world = (Ok (ranged a 1 1), patch_world) /\
    read_file (range_call "/f" 2 3) patch_world = (Ok (ranged b 2 3), patch_world) /\
    read_file (range_call "/f" 1 3) patch_world
    = (Ok (ranged (a ++ b) 1 3), patch_world) /\
    (a ++ b)%string = sample_abc.
Proof.
  destruct (read_file_ranges_compose patch_world "/f" (mkfile 6 sample_abc true true)
              1 1 3 ltac:(discriminate) eq_refl eq_refl ltac:(lia) ltac:(lia)
              ltac:(apply Z.leb_le; reflexivity))
    as (a & b & H1 & H2 & H3 & _ & _ & Hall).
  exists a, b. repeat split; try assumption.
  apply Hall; reflexivity.
Defined.

Lemma read_file_start_out_of_range_witness :
  read_file read_from_9_call patch_world
  = (Ok (failure "Start line 9 out of range (max 3)"), patch_world).
Proof.
  apply (read_file_start_out_of_range patch_world read_from_9_call "/f"
           (mkfile 6 sample_abc true true) 9 eq_refl ltac:(discriminate)
           eq_refl eq_refl eq_refl).
  - left. reflexivity.
  - left. apply Z.ltb_lt. reflexivity.
Defined.

Lemma chat_poe_reports_last_three_errors_witness :
  exists reasons : list string,
    length reasons = 4 /\
    fst (chat_poe "m" four_keys_world)
    = failure (join_with "; " (most_recent 3 (labelled 0 reasons))) /\
    fst (chat_poe "m" four_keys_world)
    = failure "Key 2: HTTP 500; Key 3: HTTP 500; Key 4: HTTP 500".
Proof.
  destruct (chat_poe_reports_last_three_errors "m" four_keys_world
              ltac:(discriminate) eq_refl) as (reasons & Hlen & Hres).
  exists reasons. repeat split; assumption.
Defined.

Lemma search_file_reports_matching_lines_witness :
  search_file search_call patch_world = (Ok (success "2: b"), patch_world).
Proof.
  exact (search_file_reports_matching_lines search_call patch_world "/f" "B"
           (mkfile 6 sample_abc true true) eq_refl ltac:(discriminate)
           eq_refl eq_refl eq_refl ltac:(discriminate)).
Defined.

Lemma search_file_numbers_are_read_file_lines_witness :
  exists ending : string,
    line_end ending /\
    read_file (range_call "/f" 2 2) patch_world
    = (Ok (ranged ("b" ++ ending) 2 2), patch_world).
Proof.
  apply (search_file_numbers_are_read_file_lines patch_world "/f"
           (mkfile 6 sample_abc true true) 2 "b" ltac:(discriminate) eq_refl eq_refl).
  vm_compute. right. left. reflexivity.
Defined.

Lemma todo_create_stores_first_eight_witness :
  session_todo (snd (todo create_call empty_world))
  = todo_list (PStr "Plan") [(PStr "read", false); (PStr "edit", false);
                             (PStr "test", false)] /\
  fst (todo create_call empty_world) = Ok (success "Created TODO with 3 tasks").
Proof.
  destruct (todo_create_stores_first_eight create_call empty_world
              [PStr "read"; PStr "edit"; PStr "test"] eq_refl eq_refl
              ltac:(discriminate)) as (Hstate & _ & Hok & _).
  split; [exact Hstate | exact (Hok eq_refl)].
Defined.

Lemma todo_check_marks_listed_tasks_witness :
  session_todo (snd (todo check_call planned_world))
  = todo_list (PStr "Plan") [(PStr "read", true); (PStr "edit", true);
                             (PStr "test", true)] /\
  fst (todo check_call planned_world) = Ok (success "Checked off 2 task(s)").
Proof.
  destruct (todo_check_marks_listed_tasks check_call planned_world (PStr "Plan")
              [(PStr "read", false); (PStr "edit", true); (PStr "test", false)]
              [1; 3; 5]%Z eq_refl eq_refl ltac:(discriminate) eq_refl
              ltac:(discriminate)) as (Hstate & _ & Hok & _).
  split; [exact Hstate | exact (Hok eq_refl)].
Defined.

Lemma todo_list_stays_well_formed_witness :
  well_formed_todo (session_todo (snd (todo create_call empty_world))).
Proof.
  apply (todo_list_stays_well_formed create_call empty_world). now left.
Defined.


Lemma run_command_bounds_the_output_witness :
  let result := PDict [("ok", PBool true); ("result", PStr "ls"); ("code", PInt 0)] in
  run_command run_call empty_world = (Ok result, empty_world) /\
  exists (text : string) (code : Z),
    PStr "ls" = PStr text /\ text <> "" /\
    (Z.of_nat (String.length text) <= 10016)%Z /\
    field result "code" = Some (PInt code) /\
    field result "ok" = Some (PBool (code =? 0)%Z).
Proof.
  split; [reflexivity|].
  apply (run_command_bounds_the_output run_call empty_world empty_world
           (PDict [("ok", PBool true); ("result", PStr "ls"); ("code", PInt 0)])
           (PStr "ls")); reflexivity.
Defined.

Lemma tools_without_permission_change_no_file_witness :
  let out := @execute_tool (with_handlers Reference.platform ReferenceHost.host)
               (PDict search_call) (set_answers patch_world [No]) in
  fst out = Ok (success "2: b") /\ answers (snd out) = [No].
Proof.
  destruct (tools_without_permission_change_no_file Reference.platform
              ReferenceHost.host search_call (set_answers patch_world [No]) eq_refl)
    as (_ & _ & Hanswers & _).
  split; [reflexivity | exact Hanswers].
Defined.

Lemma trust_is_asked_once_witness :
  let w1 := snd (execute_tool (PDict edit_call) trusting_world) in
  trust_session w1 = true /\ answers w1 = [] /\
  answers (snd (execute_tool (PDict edit_call) w1)) = [].
Proof.
  cbv zeta.
  destruct (trust_is_asked_once edit_call trusting_world eq_refl eq_refl)
    as [Hfirst _].
  destruct (Hfirst [] eq_refl eq_refl) as (_ & Htrust & Hanswers).
  split; [exact Htrust|]. split; [exact Hanswers|].
  destruct (trust_is_asked_once edit_call
              (snd (execute_tool (PDict edit_call) trusting_world)) eq_refl eq_refl)
    as [_ Hlater].
  destruct (Hlater Htrust) as (_ & _ & Hkept). rewrite Hkept. exact Hanswers.
Defined.

Lemma save_settings_then_load_settings_witness :
  exists w2 : World,
    save_settings (PDict local_settings) empty_world = (Ok tt, w2) /\
    load_settings w2 = (Ok local_settings, w2).
Proof.
  apply (@save_settings_then_load_settings Reference.platform ReferenceHost.host
           empty_world empty_world
           "opus" "local" "llama3" true false false true eq_refl (or_introl eq_refl)).
  vm_compute. reflexivity.
Defined.

Lemma save_keys_then_load_keys_witness :
  exists w2 : World,
    save_keys (PList (map PStr ["a"; ""; "b"; "c"; "d"; "e"])) empty_world = (Ok tt, w2) /\
    load_keys w2 = (Ok ["a"; "b"; "c"; "d"], w2).
Proof.
  apply (@save_keys_then_load_keys Reference.platform ReferenceHost.host
           empty_world empty_world ["a"; ""; "b"; "c"; "d"; "e"]
           eq_refl (or_introl eq_refl)).
  vm_compute. reflexivity.
Defined.

Lemma load_keys_raises_on_other_json_witness :
  exists e, load_keys listed_keys_world = (Raise e, listed_keys_world) /\
            (exn_cls e = AttributeError \/ exn_cls e = TypeError).
Proof.
  apply (@load_keys_raises_on_other_json Reference.platform ReferenceHost.host
           listed_keys_world (mkfile 2 "[]" true true)
           (PList []) eq_refl eq_refl eq_refl eq_refl).
Defined.

Lemma save_conversation_then_load_conversation_witness :
  exists w2 : World,
    save_conversation (PList (map PDict first_messages)) (Some "plan") empty_world
    = (Ok "/home/.lumis/conv_plan.json", w2) /\
    load_conversation "plan" w2 = (Ok (PList (map PDict first_messages)), w2).
Proof.
  apply (@save_conversation_then_load_conversation Reference.platform
           ReferenceHost.host empty_world empty_world
           first_messages "plan" ltac:(discriminate) eq_refl (or_introl eq_refl)).
  vm_compute. reflexivity.
Defined.

